(** * Wave_classifier.py: a shallow embedding and its properties

    The script trains and evaluates a spiking network on IQ waveforms.  It
    is one procedural program: argument handling, encoder selection, the
    parsing of the waveform file, a training loop and a testing loop.  The
    embedding follows the source statement by statement.

    - Python integers are [Z]; lists are Rocq lists, appended to at the
      end as [list.append] does; a list or tensor written by index is
      updated with stdpp's [<[i:=x]>].
    - A Python exception is a value of [exn]; code that may raise returns
      [result].
    - numpy, torch, sklearn and the bindsnet framework are not part of the
      script.  Their data types are the fields of the record [Carriers]
      and their functions those of the record [Externals]; the script is
      a function of such records.  Randomness (the Poisson encoder, the
      split, [torch.rand]) is inside these functions: the network state
      stands for the state of the random generator as well.
    - Exceptions that the script's own integers, names and list lengths
      decide (division by zero, an unbound name, an index out of range,
      an FFT of zero points, a malformed number, a negative dimension, two
      tensors that do not broadcast, a [view] that does not fit the
      number of elements, a row assignment whose shapes do not fit) are
      modelled, and so are the two that the file loop meets in what it
      calls: [abs] of a complex number beyond the float range and an
      error raised by [encoder.enc].  An error raised inside the other
      functions of the framework (the network, the evaluation and
      plotting helpers) is not: those are total functions of the record.
      Nor is a failure to open the file: the file is given as its list
      of lines.
    - Of what the script prints only the encoder error message is kept;
      the calls on the network and the display are logged in [calls]. *)

From Stdlib Require Import ZArith NArith Lia Bool.
From stdpp Require Import base numbers list strings.

Local Open Scope Z_scope.

(** ** Python exceptions and fallible code *)

Inductive exn : Type :=
  | ValueError
  | NameError
  | IndexError
  | ZeroDivisionError
  | RuntimeError
  | OverflowError
  | AssertionError.

Inductive result (A : Type) : Type :=
  | Ok (a : A)
  | Err (e : exn).
Arguments Ok {A} a.
Arguments Err {A} e.

Definition bind {A B : Type} (r : result A) (k : A -> result B) : result B :=
  match r with
  | Ok a => k a
  | Err e => Err e
  end.

Notation "'let*' x ':=' e 'in' k" := (bind e (fun x => k))
  (at level 10, x pattern, e at level 100, k at level 200).

(** [for x in xs: body], the loop state threaded through, an exception
    ending the loop. *)
Fixpoint for_each {A S : Type} (body : A -> S -> result S) (xs : list A) (s : S)
  : result S :=
  match xs with
  | [] => Ok s
  | x :: xs' => let* s' := body x s in for_each body xs' s'
  end.

(** [for i in range(n): body] *)
Definition py_range (n : Z) : list Z := Z.of_nat <$> seq 0 (Z.to_nat n).

(** ** Python primitives used by the script *)

(** [l[a:b]] for non-negative bounds: both are clamped to the length. *)
Definition py_slice {A : Type} (a b : nat) (l : list A) : list A :=
  take (b - a)%nat (drop a l).

(** [l[-1]] *)
Definition py_last {A : Type} (l : list A) : result A :=
  match last l with
  | Some x => Ok x
  | None => Err IndexError
  end.

(** [l[0]] *)
Definition py_first {A : Type} (l : list A) : result A :=
  match l with
  | x :: _ => Ok x
  | [] => Err IndexError
  end.

(** [a % b] on integers: the sign follows the divisor. *)
Definition py_mod (a b : Z) : result Z :=
  if b =? 0 then Err ZeroDivisionError else Ok (a mod b).

(** [int(a / b)] on integers: true division, then truncation towards
    zero (exact while the operands fit a double's mantissa). *)
Definition py_int_div (a b : Z) : result Z :=
  if b =? 0 then Err ZeroDivisionError else Ok (a ÷ b).

(** A line of the decoded file is a list of Unicode code points. *)
Abbreviation char := N.
Abbreviation text := (list char).

Definition codepoints (s : string) : text :=
  (fun a => Ascii.N_of_ascii a) <$> String.list_ascii_of_string s.

(** The characters [str.split()] separates on. *)
Definition isspace (c : char) : bool :=
  ((9 <=? c) && (c <=? 13) || (28 <=? c) && (c <=? 32)
   || (c =? 133) || (c =? 160) || (c =? 5760)
   || (8192 <=? c) && (c <=? 8202)
   || (c =? 8232) || (c =? 8233) || (c =? 8239) || (c =? 8287)
   || (c =? 12288))%N.

(** [line.split()]: the maximal runs of non-space characters.  [cur] is
    the run being read, last character first. *)
Fixpoint split_from (cur : text) (s : text) : list text :=
  match s with
  | [] => match cur with [] => [] | _ => [rev cur] end
  | c :: s' =>
      if isspace c
      then match cur with
           | [] => split_from [] s'
           | _ => rev cur :: split_from [] s'
           end
      else split_from (c :: cur) s'
  end.

Definition split (line : text) : list text := split_from [] line.

(** What a token of a line is: a non-empty run free of white space. *)
Definition nonspace (c : char) : Prop := isspace c = false.

Definition token (t : text) : Prop := t <> [] /\ Forall nonspace t.

(** Element-wise tensor operations on one-dimensional tensors, with
    torch's broadcasting: equal lengths pair up, a tensor of one element
    is repeated, anything else raises. *)
Definition broadcast {A B : Type} (a : list A) (b : list B)
  : result (list (A * B)) :=
  if (length a =? length b)%nat then Ok (zip a b)
  else match a, b with
       | [x], _ => Ok ((fun y => (x, y)) <$> b)
       | _, [y] => Ok ((fun x => (x, y)) <$> a)
       | _, _ => Err RuntimeError
       end.

(** [a == b] *)
Definition tensor_eq (a b : list Z) : result (list bool) :=
  let* ab := broadcast a b in Ok ((fun p => fst p =? snd p) <$> ab).

(** [a & b] *)
Definition tensor_and (a b : list bool) : result (list bool) :=
  let* ab := broadcast a b in Ok ((fun p => fst p && snd p) <$> ab).

(** [torch.sum(t).item()] of a boolean tensor *)
Definition tensor_sum (t : list bool) : Z :=
  Z.of_nat (length (filter (fun b => b = true) t)).

(** [a / b] on integers, by the external [div]. *)
Definition py_truediv {F : Type} (div : Z -> Z -> F) (a b : Z) : result F :=
  if b =? 0 then Err ZeroDivisionError else Ok (div a b).

(** [t.view(dims)] of a tensor of [numel] elements: the sizes must
    multiply to [numel]; one size may be -1 and is then inferred. *)
Definition torch_view (numel : Z) (dims : list Z) : result unit :=
  let known := filter (fun d => d <> -1) dims in
  let p := foldr Z.mul 1 known in
  if existsb (fun d => d <? -1) dims then Err RuntimeError
  else match (length dims - length known)%nat with
       | 0%nat => if p =? numel then Ok tt else Err RuntimeError
       | 1%nat =>
           if p =? 0 then Err RuntimeError
           else if numel mod p =? 0 then Ok tt else Err RuntimeError
       | _ => Err RuntimeError
       end.

(** [t.squeeze()] on a shape: the dimensions of size 1 are dropped. *)
Definition squeeze (shape : list Z) : list Z := filter (fun d => d <> 1) shape.

(** Whether a shape, read from its last dimension, expands to another:
    each size equals the target's or is 1, and the target has at least
    as many dimensions. *)
Fixpoint expandable (value target : list Z) : bool :=
  match value, target with
  | [], _ => true
  | d :: value', e :: target' =>
      ((d =? e) || (d =? 1)) && expandable value' target'
  | _ :: _, [] => false
  end.

Fixpoint strip_ones (shape : list Z) : list Z :=
  match shape with
  | d :: shape' => if d =? 1 then strip_ones shape' else shape
  | [] => []
  end.

(** Whether [t[i] = v] accepts a value of shape [value] for a row of
    shape [target]: the value, its leading dimensions of size 1 put
    aside, must broadcast to the row. *)
Definition assignable (value target : list Z) : bool :=
  expandable (rev (strip_ones value)) (rev target).

(** ** Data of the script *)

(** The six encoder classes imported from [bindsnet.encoding]. *)
Inductive encoder_kind : Type :=
  | PoissonEncoder
  | RankOrderEncoder
  | RankOrderTTFSEncoder
  | BernoulliEncoder
  | SingleEncoder
  | RepeatEncoder.

(** An encoder object, built as [Kind(time=time, dt=dt)]. *)
Record encoder : Type := {
  enc_kind : encoder_kind;
  enc_time : Z;
  enc_dt : Z
}.

(** One element of [wave_data]:
    [{"encoded_image": encoded, "label": lbl}], the label a tensor of one
    complex number. *)
Record sample (Encoded Complex : Type) : Type := {
  encoded_image : Encoded;
  label : Complex
}.
Arguments encoded_image {Encoded Complex} s.
Arguments label {Encoded Complex} s.

(** The three-dimensional [spike_record]: its rows along the first
    dimension, and the two dimensions every row has. *)
Record buffer (Spikes : Type) : Type := {
  rows : list Spikes;
  dims : Z * Z
}.
Arguments rows {Spikes} b.
Arguments dims {Spikes} b.

Definition shape {Spikes : Type} (b : buffer Spikes) : Z * Z * Z :=
  (Z.of_nat (length (rows b)), fst (dims b), snd (dims b)).

(** [confusion_matrix = {"TP": 0, "FP": 0, "TN": 0, "FN": 0}]; the counts
    are whole numbers held in floats, exact below 2^53. *)
Record confusion : Type := {
  TP : Z;
  FP : Z;
  TN : Z;
  FN : Z
}.

(** ** What the script imports *)

(** The data types of what the script imports. *)
Record Carriers : Type := {
  (** Python's [complex] and [float] *)
  Complex : Type;
  Float : Type;
  (** the tensor an encoder returns *)
  Encoded : Type;
  (** the dictionary [{"X": ...}] given to [network.run] *)
  Inputs : Type;
  (** the network with its monitors, and with it the state of the random
      generator the script draws [rand_gmax] and [rand_gmin] from *)
  Net : Type;
  (** one row of the spike record *)
  Spikes : Type;
  Assignments : Type;
  Proportions : Type;
  Rates : Type
}.

(** The functions the script imports. *)
Record Externals (K : Carriers) : Type := {
  (** [complex(x)] of a string; [None] when it raises [ValueError] *)
  py_complex : text -> option (Complex K);
  (** [np.fft.fft] of at least one point *)
  fft : list (Complex K) -> list (Complex K);
  (** [abs(x)] of a complex number: its value, and whether it raises
      [OverflowError] instead (the magnitude is beyond the float range) *)
  cabs : Complex K -> Float K;
  abs_overflows : Complex K -> bool;
  (** float multiplication *)
  fmul : Float K -> Float K -> Float K;
  (** [a / b] of two integers, [b] not zero *)
  truediv : Z -> Z -> Float K;
  (** [.long()] of a label *)
  long : Complex K -> Z;
  (** [np.unique(classes).size] *)
  np_unique_size : list (Complex K) -> Z;
  (** [torch.cuda.is_available()] *)
  cuda_is_available : bool;
  (** [encoder.enc(datum=, time=, dt=)]; the number is the count of
      earlier calls, in place of the state of torch's random generator *)
  enc : encoder_kind -> nat -> list (Float K) -> Z -> Z -> Encoded K;
  (** the exception that call raises instead, if it raises *)
  enc_error : encoder_kind -> nat -> list (Float K) -> Z -> Z -> option exn;
  (** [.shape[1]] *)
  shape1 : Encoded K -> Z;
  (** the number of elements of an encoded image *)
  numel : Encoded K -> Z;
  (** [train_test_split(wave_data, wave_data, test_size=)], its first two
      results *)
  train_test_split :
    list (sample (Encoded K) (Complex K)) -> Float K ->
    list (sample (Encoded K) (Complex K)) * list (sample (Encoded K) (Complex K));
  (** [{"X": encoded.view(T, 1, 1, num_inputs, 1)}], moved to the GPU
      when the flag is set *)
  view_inputs : Encoded K -> Z -> Z -> bool -> Inputs K;
  (** [DiehlAndCook2015_NonLinear(n_inpt, n_neurons, exc, inh, dt,
      theta_plus)], [.to("cuda")] when the flag is set, and the monitors
      added with [time=T] *)
  DiehlAndCook2015_NonLinear :
    Z -> Z -> Float K -> Float K -> Z -> Float K -> bool -> Z -> Net K;
  (** [network.run(inputs=, time=, ...)] *)
  network_run : Net K -> Inputs K -> Z -> Net K;
  (** [network.reset_state_variables()] *)
  reset_state_variables : Net K -> Net K;
  (** [network.train(mode=False)] *)
  train_mode_off : Net K -> Net K;
  (** [spikes["Ae"].get("s").squeeze()] *)
  spikes_Ae : Net K -> Spikes K;
  (** [.shape] of such a tensor *)
  shape_of : Spikes K -> list Z;
  (** a row of [torch.zeros] *)
  zeros_row : Z -> Z -> Spikes K;
  (** [-torch.ones(n_neurons)] *)
  assignments_init : Z -> Assignments K;
  (** [torch.zeros((n_neurons, n_classes))] *)
  proportions_init : Z -> Z -> Proportions K;
  rates_init : Z -> Z -> Rates K;
  (** [bindsnet.evaluation]: one prediction for each row *)
  all_activity : buffer (Spikes K) -> Assignments K -> Z -> list Z;
  proportion_weighting :
    buffer (Spikes K) -> Assignments K -> Proportions K -> Z -> list Z;
  assign_labels :
    buffer (Spikes K) -> list (Complex K) -> Z -> Rates K ->
    Assignments K * Proportions K * Rates K
}.
Arguments py_complex {K} e.
Arguments fft {K} e.
Arguments cabs {K} e.
Arguments abs_overflows {K} e.
Arguments fmul {K} e.
Arguments truediv {K} e.
Arguments long {K} e.
Arguments np_unique_size {K} e.
Arguments cuda_is_available {K} e.
Arguments enc {K} e.
Arguments enc_error {K} e.
Arguments shape1 {K} e.
Arguments numel {K} e.
Arguments train_test_split {K} e.
Arguments view_inputs {K} e.
Arguments DiehlAndCook2015_NonLinear {K} e.
Arguments network_run {K} e.
Arguments reset_state_variables {K} e.
Arguments train_mode_off {K} e.
Arguments spikes_Ae {K} e.
Arguments shape_of {K} e.
Arguments zeros_row {K} e.
Arguments assignments_init {K} e.
Arguments proportions_init {K} e.
Arguments rates_init {K} e.
Arguments all_activity {K} e.
Arguments proportion_weighting {K} e.
Arguments assign_labels {K} e.

(** [args = parser.parse_args()], the flags the script reads.  [seed],
    [n_workers] and [spare_gpu] only configure torch and are left out. *)
Record Args (Float : Type) : Type := {
  a_n_neurons : Z;
  a_n_epochs : Z;
  a_n_test : Z;
  a_n_train : Z;
  a_exc : Float;
  a_inh : Float;
  a_theta_plus : Float;
  a_time : Z;
  a_dt : Z;
  a_intensity : Float;
  a_encoder_type : string;
  a_progress_interval : Z;
  a_update_interval : Z;
  a_test_ratio : Float;
  a_train : bool;
  a_plot : bool;
  a_gpu : bool
}.
Arguments a_n_neurons {Float} a.
Arguments a_n_epochs {Float} a.
Arguments a_n_test {Float} a.
Arguments a_n_train {Float} a.
Arguments a_exc {Float} a.
Arguments a_inh {Float} a.
Arguments a_theta_plus {Float} a.
Arguments a_time {Float} a.
Arguments a_dt {Float} a.
Arguments a_intensity {Float} a.
Arguments a_encoder_type {Float} a.
Arguments a_progress_interval {Float} a.
Arguments a_update_interval {Float} a.
Arguments a_test_ratio {Float} a.
Arguments a_train {Float} a.
Arguments a_plot {Float} a.
Arguments a_gpu {Float} a.

(** ** Encoder selection (the [if]/[elif] chain) *)

Definition no_such_encoder : string := "Error!! There is no such encoder!!".

(** The encoder bound by the chain, if any, and what the chain prints. *)
Definition select_encoder (enocder_type : string) (time dt : Z)
  : option encoder * list string :=
  if String.eqb enocder_type "PoissonEncoder" then
    (Some {| enc_kind := PoissonEncoder; enc_time := time; enc_dt := dt |}, [])
  else if String.eqb enocder_type "RankOrderEncoder" then
    (Some {| enc_kind := RankOrderEncoder; enc_time := time; enc_dt := dt |}, [])
  else if String.eqb enocder_type "RankOrderTTFSEncoder" then
    (Some {| enc_kind := RankOrderTTFSEncoder; enc_time := time; enc_dt := dt |}, [])
  else if String.eqb enocder_type "BernoulliEncoder" then
    (Some {| enc_kind := BernoulliEncoder; enc_time := time; enc_dt := dt |}, [])
  else if String.eqb enocder_type "SingleEncoder" then
    (Some {| enc_kind := SingleEncoder; enc_time := time; enc_dt := dt |}, [])
  else if String.eqb enocder_type "RepeatEncoder" then
    (Some {| enc_kind := RepeatEncoder; enc_time := time; enc_dt := dt |}, [])
  else (None, [no_such_encoder]).

(** Reading the variable [encoder]: unbound, it raises [NameError]. *)
Definition read_name {A : Type} (v : option A) : result A :=
  match v with
  | Some x => Ok x
  | None => Err NameError
  end.

Section Script.
Context {K : Carriers} {X : Externals K}.

Abbreviation Sample := (sample (Encoded K) (Complex K)).

(** ** Parsing the waveform file *)

(** [np.fft.fft(a)]: zero points raise [ValueError]. *)
Definition np_fft (a : list (Complex K)) : result (list (Complex K)) :=
  match a with
  | [] => Err ValueError
  | _ => Ok (fft X a)
  end.

(** [[complex(x) for x in tokens]] *)
Fixpoint parse_tokens (tokens : list text) : result (list (Complex K)) :=
  match tokens with
  | [] => Ok []
  | t :: rest =>
      match py_complex X t with
      | None => Err ValueError
      | Some c => let* cs := parse_tokens rest in Ok (c :: cs)
      end
  end.

(** [[intensity * abs(x) for x in xs]]: [abs] raises [OverflowError] on
    a value whose magnitude is beyond the float range. *)
Definition intensities (intensity : Float K) (xs : list (Complex K))
  : result (list (Float K)) :=
  if existsb (abs_overflows X) xs then Err OverflowError
  else Ok ((fun x => fmul X intensity (cabs X x)) <$> xs).

(** [linedata_intensity], the datum given to the encoder. *)
Definition linedata_intensity (intensity : Float K) (linedata : list (Complex K))
  : result (list (Float K)) :=
  let* linedata_fft_1 := np_fft (py_slice 16 80 linedata) in
  let* linedata_fft_2 := np_fft (py_slice 96 160 linedata) in
  let* linedata_fft_3 := np_fft (py_slice 192 256 linedata) in
  let* linedata_fft_4 := np_fft (py_slice 256 (length linedata - 1) linedata) in
  let linedata_fft :=
    linedata_fft_1 ++ linedata_fft_2 ++ linedata_fft_3 ++ linedata_fft_4 in
  intensities intensity (py_slice 0 (length linedata_fft) linedata_fft).

(** The two lists the file loop appends to. *)
Record parsed : Type := {
  wave_data : list Sample;
  classes : list (Complex K)
}.

Definition parsed_empty : parsed := {| wave_data := []; classes := [] |}.

(** [encoder.enc(datum=converted, time=time, dt=dt)], the call numbered
    [calls] among the calls of the encoder. *)
Definition encoder_enc (e : encoder) (calls : nat) (datum : list (Float K))
    (time dt : Z) : result (Encoded K) :=
  match enc_error X (enc_kind e) calls datum time dt with
  | Some x => Err x
  | None => Ok (enc X (enc_kind e) calls datum time dt)
  end.

(** The part of the loop body after the two [continue] tests. *)
Definition process_tokens (encoder : option encoder) (time dt : Z)
    (intensity : Float K) (linedata : list (Complex K)) (p : parsed)
  : result parsed :=
  let* datum := linedata_intensity intensity linedata in
  let* cl := py_last linedata in
  let classes' := classes p ++ [cl] in
  let* e := read_name encoder in
  let* encoded := encoder_enc e (length (wave_data p)) datum time dt in
  Ok {| wave_data := wave_data p ++ [{| encoded_image := encoded; label := cl |}];
        classes := classes' |}.

(** The body of [for line in f]. *)
Definition process_line (encoder : option encoder) (time dt : Z)
    (intensity : Float K) (line : text) (p : parsed) : result parsed :=
  let* c := py_first line in
  if (c =? 35)%N then Ok p
  else
    let* linedata := parse_tokens (split line) in
    if (length linedata =? 0)%nat then Ok p
    else process_tokens encoder time dt intensity linedata p.

Definition parse_file (encoder : option encoder) (time dt : Z)
    (intensity : Float K) (f : list text) : result parsed :=
  for_each (process_line encoder time dt intensity) f parsed_empty.

(** ** The training loop *)

(** The calls on the network and the display, in the order made. *)
Inductive call : Type :=
  | CallRun (inputs : Inputs K) (time : Z)
  | CallPlot
  | CallReset.

(** The global variables the two loops read. *)
Record globals : Type := {
  time : Z;
  dt : Z;
  update_interval : Z;
  progress_interval : Z;
  n_epochs : Z;
  n_train : Z;
  n_test : Z;
  n_classes : Z;
  num_inputs : Z;
  plot : bool;
  gpu : bool
}.

(** The variables the training loop assigns. *)
Record state : Type := {
  network : Net K;
  spike_record : buffer (Spikes K);
  assignments : Assignments K;
  proportions : Proportions K;
  rates : Rates K;
  accuracy_all : list (Float K);
  accuracy_proportion : list (Float K);
  labels : list (Complex K);
  calls : list call
}.

(** [torch.zeros((a, b, c))]: a negative dimension raises. *)
Definition torch_zeros (a b c : Z) : result (buffer (Spikes K)) :=
  if (a <? 0) || (b <? 0) || (c <? 0) then Err RuntimeError
  else Ok {| rows := replicate (Z.to_nat a) (zeros_row X b c); dims := (b, c) |}.

(** [spike_record[i] = v]: the row is overwritten in place; a negative
    index counts from the end; outside the range it raises
    [IndexError], and a value whose shape does not broadcast to the
    shape of a row raises [RuntimeError]. *)
Definition setitem (b : buffer (Spikes K)) (i : Z) (v : Spikes K)
  : result (buffer (Spikes K)) :=
  let n := Z.of_nat (length (rows b)) in
  let fits := assignable (shape_of X v) [fst (dims b); snd (dims b)] in
  if (0 <=? i) && (i <? n) then
    if fits
    then Ok {| rows := <[Z.to_nat i := v]> (rows b); dims := dims b |}
    else Err RuntimeError
  else if (- n <=? i) && (i <? 0) then
    if fits
    then Ok {| rows := <[Z.to_nat (n + i) := v]> (rows b); dims := dims b |}
    else Err RuntimeError
  else Err IndexError.

(** [100 * torch.sum(label_tensor.long() == pred).item() / len(label_tensor)] *)
Definition accuracy_percent (label_tensor : list (Complex K)) (pred : list Z)
  : result (Float K) :=
  let* hits := tensor_eq (long X <$> label_tensor) pred in
  py_truediv (truediv X) (100 * tensor_sum hits) (Z.of_nat (length label_tensor)).

(** The block under [if step % update_interval == 0 and step > 0]. *)
Definition score (g : globals) (s : state) : result state :=
  let label_tensor := labels s in
  let all_activity_pred :=
    all_activity X (spike_record s) (assignments s) (n_classes g) in
  let proportion_pred :=
    proportion_weighting X (spike_record s) (assignments s) (proportions s)
      (n_classes g) in
  let* acc_all := accuracy_percent label_tensor all_activity_pred in
  let accuracy_all' := accuracy_all s ++ [acc_all] in
  let* acc_proportion := accuracy_percent label_tensor proportion_pred in
  let accuracy_proportion' := accuracy_proportion s ++ [acc_proportion] in
  let '(assignments', proportions', rates') :=
    assign_labels X (spike_record s) label_tensor (n_classes g) (rates s) in
  Ok {| network := network s;
        spike_record := spike_record s;
        assignments := assignments';
        proportions := proportions';
        rates := rates';
        accuracy_all := accuracy_all';
        accuracy_proportion := accuracy_proportion';
        labels := [];
        calls := calls s |}.

(** The inputs of a sample:
    [batch["encoded_image"].view(int(time / dt), 1, 1, num_inputs, 1)]. *)
Definition get_inputs (g : globals) (batch : Sample) : result (Inputs K) :=
  let* T := py_int_div (time g) (dt g) in
  let* _ := torch_view (numel X (encoded_image batch)) [T; 1; 1; num_inputs g; 1] in
  Ok (view_inputs X (encoded_image batch) T (num_inputs g) (gpu g)).

(** The reshapes of the plotting block:
    [batch["encoded_image"].view(256, 500)] and
    [inputs["X"].view(time, num_inputs).sum(0).view(16, 16)], the inputs
    having the elements of the encoded image. *)
Definition plot_views (g : globals) (batch : Sample) : result unit :=
  let* _ := torch_view (numel X (encoded_image batch)) [256; 500] in
  let* _ := torch_view (numel X (encoded_image batch)) [time g; num_inputs g] in
  torch_view (num_inputs g) [16; 16].

(** The rest of the body: the label, the simulation, the record, the
    plots, the reset. *)
Definition simulate (g : globals) (step : nat) (inputs : Inputs K)
    (batch : Sample) (s : state) : result state :=
  let labels' := labels s ++ [label batch] in
  let network' := network_run X (network s) inputs (time g) in
  let calls' := calls s ++ [CallRun inputs (time g)] in
  let* i := py_mod (Z.of_nat step) (update_interval g) in
  let* spike_record' := setitem (spike_record s) i (spikes_Ae X network') in
  let* calls'' :=
    if plot g
    then let* _ := plot_views g batch in Ok (calls' ++ [CallPlot])
    else Ok calls' in
  Ok {| network := reset_state_variables X network';
        spike_record := spike_record';
        assignments := assignments s;
        proportions := proportions s;
        rates := rates s;
        accuracy_all := accuracy_all s;
        accuracy_proportion := accuracy_proportion s;
        labels := labels';
        calls := calls'' ++ [CallReset] |}.

(** The body of [for step, batch in enumerate(tqdm(train_data))], after
    the guard. *)
Definition train_step (g : globals) (step : nat) (batch : Sample) (s : state)
  : result state :=
  let* inputs := get_inputs g batch in
  let* r := py_mod (Z.of_nat step) (update_interval g) in
  let* s1 := if (r =? 0) && (0 <? Z.of_nat step) then score g s else Ok s in
  simulate g step inputs batch s1.

(** The inner loop from index [step] on; [if step > n_train: break]. *)
Fixpoint train_loop (g : globals) (step : nat) (data : list Sample) (s : state)
  : result state :=
  match data with
  | [] => Ok s
  | batch :: rest =>
      if n_train g <? Z.of_nat step then Ok s
      else let* s' := train_step g step batch s in
           train_loop g (S step) rest s'
  end.

(** [labels = []] at the head of an epoch. *)
Definition clear_labels (s : state) : state :=
  {| network := network s;
     spike_record := spike_record s;
     assignments := assignments s;
     proportions := proportions s;
     rates := rates s;
     accuracy_all := accuracy_all s;
     accuracy_proportion := accuracy_proportion s;
     labels := [];
     calls := calls s |}.

(** The body of [for epoch in range(n_epochs)]; the progress line is
    printed when [epoch % progress_interval == 0]. *)
Definition train_epoch (g : globals) (train_data : list Sample) (epoch : Z)
    (s : state) : result state :=
  let s0 := clear_labels s in
  let* _ := py_mod epoch (progress_interval g) in
  train_loop g 0 train_data s0.

(** The training loop, and the line after it that reads [epoch]. *)
Definition training (g : globals) (train_data : list Sample) (s : state)
  : result state :=
  let* s' := for_each (train_epoch g train_data) (py_range (n_epochs g)) s in
  if n_epochs g <=? 0 then Err NameError else Ok s'.

(** ** The testing loop *)

(** The variables the testing loop assigns; [assignments] and
    [proportions] are only read. *)
Record test_state : Type := {
  t_network : Net K;
  t_spike_record : buffer (Spikes K);
  t_accuracy_all : Z;
  t_accuracy_proportion : Z;
  confusion_matrix : confusion;
  t_calls : list call
}.

(** [torch.sum((pred == a) & (label_tensor.long() == b)).item()] *)
Definition count_both (pred label_tensor a b : list Z) : result Z :=
  let* l := tensor_eq pred a in
  let* r := tensor_eq label_tensor b in
  let* both := tensor_and l r in
  Ok (tensor_sum both).

(** [torch.zeros(shape).long()] and [torch.ones(shape).long()], of the
    shape of the label tensor. *)
Definition torch_zeros_like (t : list Z) : list Z := (fun _ => 0) <$> t.
Definition torch_ones_like (t : list Z) : list Z := (fun _ => 1) <$> t.

(** The two reference tensors, as the [if gpu:] branches bind them. *)
Definition P_tensor (gpu : bool) (label_tensor : list Z) : list Z :=
  if gpu then torch_zeros_like label_tensor else torch_ones_like label_tensor.

Definition N_tensor (gpu : bool) (label_tensor : list Z) : list Z :=
  if gpu then torch_ones_like label_tensor else torch_zeros_like label_tensor.

(** The four counts of one sample, from the all-activity prediction. *)
Definition confusion_counts (gpu : bool) (all_activity_pred label_tensor : list Z)
  : result confusion :=
  let P := P_tensor gpu label_tensor in
  let N := N_tensor gpu label_tensor in
  let* tp := count_both all_activity_pred label_tensor P P in
  let* fp := count_both all_activity_pred label_tensor P N in
  let* tn := count_both all_activity_pred label_tensor N N in
  let* fn := count_both all_activity_pred label_tensor N P in
  Ok {| TP := tp; FP := fp; TN := tn; FN := fn |}.

Definition confusion_add (m d : confusion) : confusion :=
  {| TP := TP m + TP d; FP := FP m + FP d; TN := TN m + TN d; FN := FN m + FN d |}.

(** The body of [for step, batch in enumerate(test_data)], after the
    guard.  The two lines printed at its end divide by [n_test]. *)
Definition test_step (g : globals) (assignments : Assignments K)
    (proportions : Proportions K) (batch : Sample) (s : test_state)
  : result test_state :=
  let* inputs := get_inputs g batch in
  let network' := network_run X (t_network s) inputs (time g) in
  let calls' := t_calls s ++ [CallRun inputs (time g)] in
  let* spike_record' := setitem (t_spike_record s) 0 (spikes_Ae X network') in
  let label_tensor := [long X (label batch)] in
  let all_activity_pred := all_activity X spike_record' assignments (n_classes g) in
  let proportion_pred :=
    proportion_weighting X spike_record' assignments proportions (n_classes g) in
  let* hits_all := tensor_eq label_tensor all_activity_pred in
  let* hits_proportion := tensor_eq label_tensor proportion_pred in
  let* d := confusion_counts (gpu g) all_activity_pred label_tensor in
  let* _ := if n_test g =? 0 then Err ZeroDivisionError else Ok tt in
  Ok {| t_network := reset_state_variables X network';
        t_spike_record := spike_record';
        t_accuracy_all := t_accuracy_all s + tensor_sum hits_all;
        t_accuracy_proportion := t_accuracy_proportion s + tensor_sum hits_proportion;
        confusion_matrix := confusion_add (confusion_matrix s) d;
        t_calls := calls' ++ [CallReset] |}.

(** The loop from index [step] on; [if step > n_test: break]. *)
Fixpoint test_loop (g : globals) (assignments : Assignments K)
    (proportions : Proportions K) (step : nat) (data : list Sample)
    (s : test_state) : result test_state :=
  match data with
  | [] => Ok s
  | batch :: rest =>
      if n_test g <? Z.of_nat step then Ok s
      else let* s' := test_step g assignments proportions batch s in
           test_loop g assignments proportions (S step) rest s'
  end.

(** The start of the testing phase: the counters, a fresh spike record,
    the network out of training mode. *)
Definition test_init (g : globals) (n_neurons : Z) (s : state) : result test_state :=
  let* T := py_int_div (time g) (dt g) in
  let* spike_record' := torch_zeros (update_interval g) T n_neurons in
  Ok {| t_network := train_mode_off X (network s);
        t_spike_record := spike_record';
        t_accuracy_all := 0;
        t_accuracy_proportion := 0;
        confusion_matrix := {| TP := 0; FP := 0; TN := 0; FN := 0 |};
        t_calls := calls s |}.

(** The three ratios printed after the loop divide floats. *)
Definition report (m : confusion) : result unit :=
  if TP m + FN m =? 0 then Err ZeroDivisionError
  else if FP m + TN m =? 0 then Err ZeroDivisionError
  else Ok tt.

(** ** The script *)

(** The variables before the training loop. *)
Definition train_init (g : globals) (n_neurons : Z) (net : Net K) : result state :=
  let* T := py_int_div (time g) (dt g) in
  let* spike_record0 := torch_zeros (update_interval g) T n_neurons in
  Ok {| network := net;
        spike_record := spike_record0;
        assignments := assignments_init X n_neurons;
        proportions := proportions_init X n_neurons (n_classes g);
        rates := rates_init X n_neurons (n_classes g);
        accuracy_all := [];
        accuracy_proportion := [];
        labels := [];
        calls := [] |}.

(** The globals as they stand when the loops start: [gpu] cleared
    without CUDA, [update_interval] replaced by the [--n_test] flag when
    not training, [n_train] and [n_test] reassigned to the sizes of the
    two splits. *)
Definition make_globals (a : Args (Float K)) (train_data test_data : list Sample)
    (n_classes num_inputs : Z) : globals :=
  {| time := a_time a;
     dt := a_dt a;
     update_interval := if a_train a then a_update_interval a else a_n_test a;
     progress_interval := a_progress_interval a;
     n_epochs := a_n_epochs a;
     n_train := Z.of_nat (length train_data);
     n_test := Z.of_nat (length test_data);
     n_classes := n_classes;
     num_inputs := num_inputs;
     plot := a_plot a;
     gpu := a_gpu a && cuda_is_available X |}.

(** What is left when the script ends. *)
Record outcome : Type := {
  printed : list string;
  trained : state;
  tested : test_state
}.

Definition main (a : Args (Float K)) (f : list text) : result outcome :=
  let '(encoder, out) := select_encoder (a_encoder_type a) (a_time a) (a_dt a) in
  let* p := parse_file encoder (a_time a) (a_dt a) (a_intensity a) f in
  let '(train_data, test_data) :=
    train_test_split X (wave_data p) (a_test_ratio a) in
  let n_classes := np_unique_size X (classes p) in
  let* last_sample := py_last train_data in
  let num_inputs := shape1 X (encoded_image last_sample) in
  let g := make_globals a train_data test_data n_classes num_inputs in
  let* T := py_int_div (time g) (dt g) in
  let net :=
    DiehlAndCook2015_NonLinear X num_inputs (a_n_neurons a) (a_exc a) (a_inh a)
      (a_dt a) (a_theta_plus a) (gpu g) T in
  let* s0 := train_init g (a_n_neurons a) net in
  let* s1 := training g train_data s0 in
  let* t0 := test_init g (a_n_neurons a) s1 in
  let* t1 := test_loop g (assignments s1) (proportions s1) 0 test_data t0 in
  let* _ := report (confusion_matrix t1) in
  Ok {| printed := out; trained := s1; tested := t1 |}.

End Script.

(** ** Definitions the properties are stated with *)

Section Reference.
Context {K : Carriers} (X : Externals K).

Abbreviation Sample := (sample (Encoded K) (Complex K)).

(** The feature vector as the specification words it: the FFTs of the
    token slices [16:80], [96:160], [192:256] and [256:len-1], in that
    order, every value replaced by the intensity times its magnitude. *)
Definition feature_vector_spec (intensity : Float K) (tokens : list (Complex K))
  : list (Float K) :=
  (fun z => fmul X intensity (cabs X z)) <$>
    (fft X (py_slice 16 80 tokens) ++ fft X (py_slice 96 160 tokens)
     ++ fft X (py_slice 192 256 tokens)
     ++ fft X (py_slice 256 (length tokens - 1) tokens)).

(** The values whose magnitudes make the feature vector: the four FFTs
    joined in order. *)
Definition spectrum (tokens : list (Complex K)) : list (Complex K) :=
  fft X (py_slice 16 80 tokens) ++ fft X (py_slice 96 160 tokens)
  ++ fft X (py_slice 192 256 tokens)
  ++ fft X (py_slice 256 (length tokens - 1) tokens).

(** The number of positions at which two lists hold the same number. *)
Fixpoint agreeing (a b : list Z) : Z :=
  match a, b with
  | x :: a', y :: b' => (if decide (x = y) then 1 else 0) + agreeing a' b'
  | _, _ => 0
  end.

(** The training loop without its [break]: every sample is stepped. *)
Fixpoint train_each (g : globals) (step : nat) (data : list Sample)
    (s : state (K:=K)) : result state :=
  match data with
  | [] => Ok s
  | batch :: rest =>
      let* s' := train_step (X:=X) g step batch s in
      train_each g (S step) rest s'
  end.

(** The testing loop without its [break]. *)
Fixpoint test_each (g : globals) (assignments : Assignments K)
    (proportions : Proportions K) (data : list Sample) (s : test_state (K:=K))
  : result test_state :=
  match data with
  | [] => Ok s
  | batch :: rest =>
      let* s' := test_step (X:=X) g assignments proportions batch s in
      test_each g assignments proportions rest s'
  end.

(** The inputs of a sample when [dt] is not zero. *)
Definition inputs_of (g : globals) (batch : Sample) : Inputs K :=
  view_inputs X (encoded_image batch) (time g ÷ dt g) (num_inputs g) (gpu g).

(** The calls one sample makes: one run for [time], the plots when
    plotting (only the training loop plots), one reset. *)
Definition sample_calls (plotting : bool) (g : globals) (batch : Sample)
  : list (call (K:=K)) :=
  [CallRun (inputs_of g batch) (time g)]
  ++ (if plotting then [CallPlot] else []) ++ [CallReset].

(** The calls of one pass over a list of samples. *)
Definition pass_calls (plotting : bool) (g : globals) (data : list Sample)
  : list (call (K:=K)) :=
  data ≫= sample_calls plotting g.

(** What one sample does to the network: one run on its inputs for
    [time], then one reset of the state variables. *)
Definition run_sample (g : globals) (net : Net K) (batch : Sample) : Net K :=
  reset_state_variables X (network_run X net (inputs_of g batch) (time g)).

(** The spikes the step on [batch] records, entered in state [s]. *)
Definition recorded (g : globals) (batch : Sample) (s : state (K:=K)) : Spikes K :=
  spikes_Ae X (network_run X (network s) (inputs_of g batch) (time g)).

(** What the testing loop observes of each sample: the all-activity
    prediction over the spike record and the label.  The network and the
    spike record are threaded as the loop does. *)
Fixpoint observations (g : globals) (assignments : Assignments K)
    (data : list Sample) (net : Net K) (record : buffer (Spikes K))
  : list (list Z * Z) :=
  match data with
  | [] => []
  | batch :: rest =>
      let net' := network_run X net (inputs_of g batch) (time g) in
      match setitem (X:=X) record 0 (spikes_Ae X net') with
      | Ok record' =>
          (all_activity X record' assignments (n_classes g), long X (label batch))
          :: observations g assignments rest (reset_state_variables X net') record'
      | Err _ => []
      end
  end.

(** A sample whose encoded image can be viewed as the inputs: it has
    [int(time / dt)] times [num_inputs] elements. *)
Definition fits_inputs (g : globals) (batch : Sample) : Prop :=
  0 <= time g ÷ dt g /\ 0 <= num_inputs g
  /\ numel X (encoded_image batch) = (time g ÷ dt g) * num_inputs g.

(** A sample the plotting block can reshape, when the script plots: 500
    time steps of 256 inputs. *)
Definition fits_plots (g : globals) (batch : Sample) : Prop :=
  plot g = true ->
  numel X (encoded_image batch) = 256 * 500 /\ time g = 500
  /\ num_inputs g = 256.

(** What the script relies on in [bindsnet.evaluation]: one prediction
    for each row of the spike record. *)
Definition one_prediction_per_row : Prop :=
  (forall b a n, length (all_activity X b a n) = length (rows b))
  /\ (forall b a p n, length (proportion_weighting X b a p n) = length (rows b)).

(** What the script relies on in the monitor: the spikes it reports,
    squeezed, can be assigned to a row of the given two dimensions. *)
Definition spikes_fit (d : Z * Z) : Prop :=
  forall net, assignable (shape_of X (spikes_Ae X net)) [fst d; snd d] = true.

(** The imports with another [proportion_weighting]. *)
Definition set_proportion_weighting
    (pw : buffer (Spikes K) -> Assignments K -> Proportions K -> Z -> list Z)
  : Externals K :=
  {| py_complex := py_complex X;
     fft := fft X;
     cabs := cabs X;
     abs_overflows := abs_overflows X;
     fmul := fmul X;
     truediv := truediv X;
     long := long X;
     np_unique_size := np_unique_size X;
     cuda_is_available := cuda_is_available X;
     enc := enc X;
     enc_error := enc_error X;
     shape1 := shape1 X;
     numel := numel X;
     train_test_split := train_test_split X;
     view_inputs := view_inputs X;
     DiehlAndCook2015_NonLinear := DiehlAndCook2015_NonLinear X;
     network_run := network_run X;
     reset_state_variables := reset_state_variables X;
     train_mode_off := train_mode_off X;
     spikes_Ae := spikes_Ae X;
     shape_of := shape_of X;
     zeros_row := zeros_row X;
     assignments_init := assignments_init X;
     proportions_init := proportions_init X;
     rates_init := rates_init X;
     all_activity := all_activity X;
     proportion_weighting := pw;
     assign_labels := assign_labels X |}.

End Reference.

(** A test state with the proportion-weighting counter put aside. *)
Definition without_proportion {K : Carriers} (s : test_state (K:=K)) : test_state :=
  {| t_network := t_network s;
     t_spike_record := t_spike_record s;
     t_accuracy_all := t_accuracy_all s;
     t_accuracy_proportion := 0;
     confusion_matrix := confusion_matrix s;
     t_calls := t_calls s |}.

Definition result_map {A B : Type} (f : A -> B) (r : result A) : result B :=
  match r with
  | Ok a => Ok (f a)
  | Err e => Err e
  end.

(** The confusion matrix after a sequence of samples, each given by its
    all-activity prediction and its label. *)
Definition accumulate_confusion (gpu : bool) (observed : list (list Z * Z))
    (m : confusion) : result confusion :=
  for_each
    (fun o m => let* d := confusion_counts gpu (fst o) [snd o] in
                Ok (confusion_add m d))
    observed m.

(** The number of predictions equal to [a] for a sample whose label is
    [l], counted when the label equals [b]. *)
Definition count_pred (pred : list Z) (l a b : Z) : Z :=
  tensor_sum ((fun q => (q =? a) && (l =? b)) <$> pred).

(** The four counts of one sample with the positive class [pos] and the
    negative class [neg]. *)
Definition confusion_of (pos neg : Z) (pred : list Z) (l : Z) : confusion :=
  {| TP := count_pred pred l pos pos;
     FP := count_pred pred l pos neg;
     TN := count_pred pred l neg neg;
     FN := count_pred pred l neg pos |}.

(** The inputs of the runs among a list of calls. *)
Definition runs {K : Carriers} (cs : list (call (K:=K))) : list (Inputs K * Z) :=
  cs ≫= (fun c => match c with CallRun i t => [(i, t)] | _ => [] end).

(** The arguments with another [--n_train], another [--n_test]. *)
Definition set_n_train {F : Type} (v : Z) (a : Args F) : Args F :=
  {| a_n_neurons := a_n_neurons a; a_n_epochs := a_n_epochs a;
     a_n_test := a_n_test a; a_n_train := v;
     a_exc := a_exc a; a_inh := a_inh a; a_theta_plus := a_theta_plus a;
     a_time := a_time a; a_dt := a_dt a; a_intensity := a_intensity a;
     a_encoder_type := a_encoder_type a;
     a_progress_interval := a_progress_interval a;
     a_update_interval := a_update_interval a;
     a_test_ratio := a_test_ratio a; a_train := a_train a;
     a_plot := a_plot a; a_gpu := a_gpu a |}.

Definition set_n_test {F : Type} (v : Z) (a : Args F) : Args F :=
  {| a_n_neurons := a_n_neurons a; a_n_epochs := a_n_epochs a;
     a_n_test := v; a_n_train := a_n_train a;
     a_exc := a_exc a; a_inh := a_inh a; a_theta_plus := a_theta_plus a;
     a_time := a_time a; a_dt := a_dt a; a_intensity := a_intensity a;
     a_encoder_type := a_encoder_type a;
     a_progress_interval := a_progress_interval a;
     a_update_interval := a_update_interval a;
     a_test_ratio := a_test_ratio a; a_train := a_train a;
     a_plot := a_plot a; a_gpu := a_gpu a |}.

(** The six names the chain tests for. *)
Definition encoder_names : list string :=
  ["PoissonEncoder"; "RankOrderEncoder"; "RankOrderTTFSEncoder";
   "BernoulliEncoder"; "SingleEncoder"; "RepeatEncoder"].

(** ** A small instance to run the script on

    Numbers are integers written in decimal, the FFT leaves its input as
    it is, an encoded image is the datum (taken to be repeated over 500
    time steps), and the network counts its runs: the spikes it reports
    after its k-th run are the number k, of the shape (500, 4).  A
    magnitude above a million stands for one beyond the float range, and
    the encoder refuses a negative datum as the Poisson encoder does. *)

Module Toy.

Definition carriers : Carriers :=
  {| Complex := Z; Float := Z; Encoded := list Z; Inputs := list Z;
     Net := nat; Spikes := nat;
     Assignments := unit; Proportions := unit; Rates := unit |}.

Fixpoint decimal (acc : Z) (t : text) : option Z :=
  match t with
  | [] => Some acc
  | c :: t' =>
      if ((48 <=? c) && (c <=? 57))%N
      then decimal (10 * acc + (Z.of_N c - 48)) t'
      else None
  end.

Definition number (t : text) : option Z :=
  match t with
  | [] => None
  | _ => decimal 0 t
  end.

Definition halves {A : Type} (l : list A) : list A * list A :=
  (take (length l / 2)%nat l, drop (length l / 2)%nat l).

Definition externals : Externals carriers :=
  @Build_Externals carriers
    (* py_complex *) number
    (* fft *) (fun a => a)
    (* cabs *) Z.abs
    (* abs_overflows *) (fun z => 1000000 <? Z.abs z)
    (* fmul *) Z.mul
    (* truediv *) Z.div
    (* long *) (fun z => z)
    (* np_unique_size *) (fun cs => Z.of_nat (length (remove_dups cs)))
    (* cuda_is_available *) false
    (* enc *) (fun _ _ datum _ _ => datum)
    (* enc_error *)
    (fun _ _ datum _ _ =>
       if existsb (fun d => d <? 0) datum then Some AssertionError else None)
    (* shape1 *) (fun e => Z.of_nat (length e))
    (* numel *) (fun e => 500 * Z.of_nat (length e))
    (* train_test_split *) (fun l _ => halves l)
    (* view_inputs *) (fun e _ _ _ => e)
    (* DiehlAndCook2015_NonLinear *) (fun _ _ _ _ _ _ _ _ => 0%nat)
    (* network_run *) (fun n _ _ => S n)
    (* reset_state_variables *) (fun n => n)
    (* train_mode_off *) (fun n => n)
    (* spikes_Ae *) (fun n => n)
    (* shape_of *) (fun _ => [500; 4])
    (* zeros_row *) (fun _ _ => 0%nat)
    (* assignments_init *) (fun _ => tt)
    (* proportions_init *) (fun _ _ => tt)
    (* rates_init *) (fun _ _ => tt)
    (* all_activity *) (fun b _ _ => (fun _ => 0) <$> rows b)
    (* proportion_weighting *) (fun b _ _ _ => (fun _ => 1) <$> rows b)
    (* assign_labels *) (fun _ _ _ _ => (tt, tt, tt)).

(** A line of 320 values and a label. *)
Definition wave_line (lbl : string) : text :=
  mjoin (replicate 320 (codepoints "7 ")) ++ codepoints lbl.

Definition poisson : encoder :=
  {| enc_kind := PoissonEncoder; enc_time := 500; enc_dt := 1 |}.

Definition args : Args Z :=
  {| a_n_neurons := 4; a_n_epochs := 2; a_n_test := 1; a_n_train := 1;
     a_exc := 90; a_inh := 480; a_theta_plus := 0;
     a_time := 500; a_dt := 1; a_intensity := 18;
     a_encoder_type := "PoissonEncoder";
     a_progress_interval := 10; a_update_interval := 2;
     a_test_ratio := 0; a_train := true; a_plot := true; a_gpu := true |}.

(** A file: a comment, a blank line and four samples. *)
Definition file : list text :=
  [codepoints "# IQ vectors"; [10%N];
   wave_line "1"; wave_line "0"; wave_line "0"; wave_line "1"].

(** A sample whose encoded image is the list [[k]]. *)
Definition item (k : Z) : sample (list Z) Z :=
  {| encoded_image := [k]; label := k |}.

(** Five samples. *)
Definition items : list (sample (list Z) Z) := item <$> [10; 11; 12; 13; 14].

(** Three samples with the labels 0, 1, 0. *)
Definition scored : list (sample (list Z) Z) := item <$> [0; 1; 0].

Definition settings (interval : Z) : globals :=
  {| time := 500; dt := 1; update_interval := interval;
     progress_interval := 10; n_epochs := 2; n_train := 5; n_test := 5;
     n_classes := 2; num_inputs := 1; plot := false; gpu := false |}.

Definition settings_gpu (interval : Z) : globals :=
  {| time := 500; dt := 1; update_interval := interval;
     progress_interval := 10; n_epochs := 2; n_train := 5; n_test := 5;
     n_classes := 2; num_inputs := 1; plot := false; gpu := true |}.

Definition start (interval : nat) : state (K:=carriers) :=
  @Build_state carriers
    (* network *) 0%nat
    (* spike_record *) {| rows := replicate interval 0%nat; dims := (500, 4) |}
    (* assignments, proportions, rates *) tt tt tt
    (* accuracy_all, accuracy_proportion *) [] []
    (* labels *) []
    (* calls *) [].

(** A state about to score: three rows and the labels 0, 1, 0. *)
Definition scoring : state (K:=carriers) :=
  @Build_state carriers
    (* network *) 3%nat
    (* spike_record *) {| rows := [1; 2; 3]%nat; dims := (500, 4) |}
    (* assignments, proportions, rates *) tt tt tt
    (* accuracy_all, accuracy_proportion *) [] []
    (* labels *) [0; 1; 0]
    (* calls *) [].

Definition test_start (interval : nat) : test_state (K:=carriers) :=
  @Build_test_state carriers
    (* t_network *) 0%nat
    (* t_spike_record *) {| rows := replicate interval 0%nat; dims := (500, 4) |}
    (* t_accuracy_all, t_accuracy_proportion *) 0 0
    (* confusion_matrix *) {| TP := 0; FP := 0; TN := 0; FN := 0 |}
    (* t_calls *) [].

End Toy.

(** ** Further definitions the properties are stated with *)

Section Format.
Context {K : Carriers} (X : Externals K).

(** A line the file loop can read without raising: a comment, a line
    without tokens, or a line of at least 258 numbers none of whose FFT
    magnitudes is beyond the float range. *)
Definition accepted_line (line : text) : Prop :=
  exists c,
    py_first line = Ok c
    /\ (c = 35%N
        \/ exists linedata,
             parse_tokens (X:=X) (split line) = Ok linedata
             /\ (linedata = []
                 \/ ((258 <= length linedata)%nat
                     /\ existsb (abs_overflows X) (spectrum X linedata) = false))).

(** Whether a line is one of at least 258 numbers and no comment. *)
Definition yields_sample (line : text) : bool :=
  match py_first line with
  | Ok c =>
      if (c =? 35)%N then false
      else match parse_tokens (X:=X) (split line) with
           | Ok linedata => (258 <=? length linedata)%nat
           | Err _ => false
           end
  | Err _ => false
  end.

End Format.

(** The number of scoring blocks in an epoch of [n] samples: one at each
    index below [n] that is a positive multiple of the interval. *)
Definition scorings (interval n : Z) : Z :=
  if n =? 0 then 0 else (n - 1) / interval.

(** What one pass through the body of the training loop has checked:
    the divisions by [dt] and by [update_interval], the reshape of the
    inputs and, when plotting, the reshapes of the plotting block. *)
Definition step_checks {K : Carriers} (X : Externals K) (g : globals)
    (batch : sample (Encoded K) (Complex K)) : Prop :=
  dt g <> 0 /\ update_interval g <> 0
  /\ torch_view (numel X (encoded_image batch))
       [time g ÷ dt g; 1; 1; num_inputs g; 1] = Ok tt
  /\ (plot g = true -> plot_views (X:=X) g batch = Ok tt).

(** * Properties *)

(** ** Python primitives *)

Lemma bind_ok {A B : Type} (r : result A) (k : A -> result B) (b : B) :
  bind r k = Ok b -> exists a, r = Ok a /\ k a = Ok b.
Proof. destruct r as [a|e]; simpl; intros H; [eauto | discriminate]. Qed.

Lemma py_slice_all {A : Type} (l : list A) : py_slice 0 (length l) l = l.
Proof. unfold py_slice. rewrite drop_0, Nat.sub_0_r. apply take_ge. lia. Qed.

Lemma py_slice_length {A : Type} (a b : nat) (l : list A) :
  length (py_slice a b l) = ((b - a) `min` (length l - a))%nat.
Proof. unfold py_slice. by rewrite length_take, length_drop. Qed.

Lemma py_slice_nil {A : Type} (a b : nat) (l : list A) :
  py_slice a b l = [] <-> ((b - a) `min` (length l - a) = 0)%nat.
Proof.
  rewrite <- py_slice_length. split; [intros ->; done |].
  destruct (py_slice a b l); [done | discriminate].
Qed.

Lemma py_last_ok {A : Type} (l : list A) (x : A) :
  last l = Some x -> py_last l = Ok x.
Proof. unfold py_last. by intros ->. Qed.

Lemma py_mod_ok (a b : Z) : b <> 0 -> py_mod a b = Ok (a mod b).
Proof. unfold py_mod. intros H. by destruct (Z.eqb_spec b 0). Qed.

Lemma py_mod_inv (a b r : Z) : py_mod a b = Ok r -> b <> 0 /\ r = a mod b.
Proof.
  unfold py_mod. destruct (Z.eqb_spec b 0); [discriminate |].
  intros [= <-]. done.
Qed.

Lemma py_int_div_inv (a b q : Z) : py_int_div a b = Ok q -> b <> 0 /\ q = a ÷ b.
Proof.
  unfold py_int_div. destruct (Z.eqb_spec b 0); [discriminate |].
  intros [= <-]. done.
Qed.

Lemma torch_view_ok (numel : Z) (dims : list Z) :
  Forall (fun d => 0 <= d) dims -> foldr Z.mul 1 dims = numel ->
  torch_view numel dims = Ok tt.
Proof.
  intros Hpos Hprod. unfold torch_view.
  assert (existsb (fun d => d <? -1) dims = false) as ->.
  { clear Hprod. induction Hpos as [|d dims Hd _ IH]; [done |]. simpl.
    rewrite IH. destruct (Z.ltb_spec d (-1)); [lia | done]. }
  assert (filter (fun d => d <> -1) dims = dims) as ->.
  { clear Hprod. induction Hpos as [|d dims Hd _ IH]; [done |].
    rewrite filter_cons_True by lia. by rewrite IH. }
  rewrite Nat.sub_diag, Hprod. by rewrite Z.eqb_refl.
Qed.

(** ** [str.split] *)

Lemma split_from_tokens (s cur : text) :
  Forall nonspace cur -> Forall token (split_from cur s).
Proof.
  revert cur. induction s as [|c s IH]; intros cur Hcur; simpl.
  - destruct cur as [|d cur]; [constructor |].
    constructor; [|constructor]. split.
    + intros E. apply (f_equal length) in E. rewrite length_rev in E. discriminate.
    + by apply Forall_rev.
  - destruct (isspace c) eqn:Hc.
    + destruct cur as [|d cur]; [by apply IH |].
      constructor; [| by apply IH]. split.
      * intros E. apply (f_equal length) in E. rewrite length_rev in E. discriminate.
      * by apply Forall_rev.
    + apply IH. by constructor.
Qed.

Lemma split_from_join (s cur : text) :
  mjoin (split_from cur s)
  = rev cur ++ filter (fun c => isspace c = false) s.
Proof.
  revert cur. induction s as [|c s IH]; intros cur; cbn [split_from].
  - destruct cur; simpl; [done | by rewrite !app_nil_r].
  - destruct (isspace c) eqn:Hc.
    + rewrite filter_cons_False by (rewrite Hc; discriminate).
      destruct cur as [|d cur]; simpl; rewrite IH; done.
    + rewrite filter_cons_True by done.
      rewrite IH. simpl. by rewrite <- app_assoc.
Qed.

(** The tokens are non-empty and free of white space, and together they
    are the line with its white space taken out. *)
Lemma split_tokens (line : text) :
  Forall token (split line)
  /\ mjoin (split line) = filter (fun c => isspace c = false) line.
Proof.
  split; [by apply split_from_tokens | apply split_from_join].
Qed.

Section Parsing.
Context {K : Carriers} {X : Externals K}.

Lemma np_fft_ok (a : list (Complex K)) :
  a <> [] -> np_fft (X:=X) a = Ok (fft X a).
Proof. by destruct a. Qed.

Lemma slices_nonempty {A : Type} (l : list A) :
  (258 <= length l)%nat ->
  py_slice 16 80 l <> [] /\ py_slice 96 160 l <> []
  /\ py_slice 192 256 l <> [] /\ py_slice 256 (length l - 1) l <> [].
Proof. intros H. rewrite !py_slice_nil. lia. Qed.

(** The errors of the two steps before the encoder. *)
Lemma parse_tokens_err (tokens : list text) (x : exn) :
  parse_tokens (X:=X) tokens = Err x -> x = ValueError.
Proof.
  induction tokens as [|t tokens IH]; [discriminate |]. simpl.
  destruct (py_complex X t); [| by intros [= <-]].
  destruct (parse_tokens tokens); [discriminate |]. simpl.
  intros [= <-]. by apply IH.
Qed.

Lemma linedata_intensity_err (intensity : Float K) (linedata : list (Complex K))
    (x : exn) :
  linedata_intensity (X:=X) intensity linedata = Err x ->
  x = ValueError \/ x = OverflowError.
Proof.
  unfold linedata_intensity, np_fft, intensities.
  destruct (py_slice 16 80 linedata); [intros [= <-]; auto |].
  destruct (py_slice 96 160 linedata); [intros [= <-]; auto |].
  destruct (py_slice 192 256 linedata); [intros [= <-]; auto |].
  destruct (py_slice 256 (length linedata - 1) linedata); [intros [= <-]; auto |].
  simpl. destruct (existsb _ _); [intros [= <-]; auto | discriminate].
Qed.

(** With four non-empty slices only [abs] can raise. *)
Lemma linedata_intensity_long (intensity : Float K) (linedata : list (Complex K)) :
  (258 <= length linedata)%nat ->
  linedata_intensity (X:=X) intensity linedata
  = if existsb (abs_overflows X) (spectrum X linedata) then Err OverflowError
    else Ok (feature_vector_spec X intensity linedata).
Proof.
  intros H. destruct (slices_nonempty linedata H) as (H1 & H2 & H3 & H4).
  unfold linedata_intensity.
  rewrite (np_fft_ok _ H1), (np_fft_ok _ H2), (np_fft_ok _ H3), (np_fft_ok _ H4).
  simpl. by rewrite py_slice_all.
Qed.

Lemma linedata_intensity_ok (intensity : Float K) (linedata : list (Complex K)) :
  (258 <= length linedata)%nat ->
  existsb (abs_overflows X) (spectrum X linedata) = false ->
  linedata_intensity (X:=X) intensity linedata
  = Ok (feature_vector_spec X intensity linedata).
Proof. intros H Hfin. by rewrite linedata_intensity_long, Hfin. Qed.

(** A datum that was computed is the feature vector, of a list of at
    least 258 numbers without a magnitude beyond the float range. *)
Lemma linedata_intensity_inv (intensity : Float K) (linedata : list (Complex K))
    (datum : list (Float K)) :
  linedata_intensity (X:=X) intensity linedata = Ok datum ->
  (258 <= length linedata)%nat
  /\ existsb (abs_overflows X) (spectrum X linedata) = false
  /\ datum = feature_vector_spec X intensity linedata.
Proof.
  intros H. destruct (Nat.lt_ge_cases (length linedata) 258) as [Hlt|Hge].
  - exfalso. revert H. unfold linedata_intensity.
    destruct (py_slice 16 80 linedata) eqn:E1; [done |].
    destruct (py_slice 96 160 linedata) eqn:E2; [done |].
    destruct (py_slice 192 256 linedata) eqn:E3; [done |].
    destruct (py_slice 256 (length linedata - 1) linedata) eqn:E4; [done |].
    apply (f_equal length) in E4. rewrite py_slice_length in E4. simpl in E4. lia.
  - rewrite linedata_intensity_long in H by done.
    destruct (existsb _ _); [discriminate |]. by injection H as <-.
Qed.

Lemma linedata_intensity_short (intensity : Float K) (linedata : list (Complex K)) :
  (length linedata < 258)%nat ->
  linedata_intensity (X:=X) intensity linedata = Err ValueError.
Proof.
  intros H. unfold linedata_intensity.
  destruct (py_slice 16 80 linedata) eqn:E1; [done |].
  destruct (py_slice 96 160 linedata) eqn:E2; [done |].
  destruct (py_slice 192 256 linedata) eqn:E3; [done |].
  destruct (py_slice 256 (length linedata - 1) linedata) eqn:E4; [done |].
  apply (f_equal length) in E4. rewrite py_slice_length in E4. simpl in E4. lia.
Qed.

Lemma label_after_fourth_slice {A : Type} (l : list A) (x : A) :
  (257 <= length l)%nat -> last l = Some x ->
  py_slice 256 (length l - 1) l ++ [x] = drop 256 l.
Proof.
  intros Hlen Hlast.
  destruct (last_is_Some l) as [_ Hs].
  assert (l <> []) as Hne by (intros ->; simpl in Hlen; lia).
  destruct (exists_last Hne) as (l' & y & ->).
  rewrite last_snoc in Hlast. injection Hlast as ->.
  rewrite length_app in *. simpl in *.
  unfold py_slice. rewrite drop_app_le by lia.
  rewrite take_app_le by (rewrite length_drop; lia).
  rewrite take_ge by (rewrite length_drop; lia). done.
Qed.

(** What a list of at least 258 numbers comes to, in the order the
    script goes: the magnitudes, the label, the name [encoder], the call
    of the encoder. *)
Lemma process_tokens_long (encoder : option encoder) (time dt : Z)
    (intensity : Float K) (linedata : list (Complex K)) (cl : Complex K)
    (p : parsed) :
  (258 <= length linedata)%nat -> last linedata = Some cl ->
  process_tokens (X:=X) encoder time dt intensity linedata p
  = if existsb (abs_overflows X) (spectrum X linedata) then Err OverflowError
    else match encoder with
         | None => Err NameError
         | Some e =>
             match enc_error X (enc_kind e) (length (wave_data p))
                     (feature_vector_spec X intensity linedata) time dt with
             | Some x => Err x
             | None =>
                 Ok {| wave_data :=
                         wave_data p
                         ++ [{| encoded_image :=
                                  enc X (enc_kind e) (length (wave_data p))
                                    (feature_vector_spec X intensity linedata)
                                    time dt;
                                label := cl |}];
                       classes := classes p ++ [cl] |}
             end
         end.
Proof.
  intros Hlen Hlast. unfold process_tokens.
  rewrite (linedata_intensity_long _ _ Hlen).
  destruct (existsb _ _); [done |]. simpl.
  rewrite (py_last_ok _ _ Hlast). simpl.
  destruct encoder as [e|]; [| done]. simpl. unfold encoder_enc.
  by destruct (enc_error X _ _ _ _ _).
Qed.

Lemma process_tokens_ok (e : encoder) (time dt : Z) (intensity : Float K)
    (linedata : list (Complex K)) (cl : Complex K) (p : parsed) :
  (258 <= length linedata)%nat -> last linedata = Some cl ->
  existsb (abs_overflows X) (spectrum X linedata) = false ->
  enc_error X (enc_kind e) (length (wave_data p))
    (feature_vector_spec X intensity linedata) time dt = None ->
  process_tokens (X:=X) (Some e) time dt intensity linedata p
  = Ok {| wave_data :=
            wave_data p
            ++ [{| encoded_image :=
                     enc X (enc_kind e) (length (wave_data p))
                       (feature_vector_spec X intensity linedata) time dt;
                   label := cl |}];
          classes := classes p ++ [cl] |}.
Proof.
  intros Hlen Hlast Hfin Henc.
  by rewrite (process_tokens_long _ _ _ _ _ cl p Hlen Hlast), Hfin, Henc.
Qed.

(** A list of tokens that yields a sample. *)
Lemma process_tokens_inv (encoder : option encoder) (time dt : Z)
    (intensity : Float K) (linedata : list (Complex K)) (p p' : parsed) :
  process_tokens (X:=X) encoder time dt intensity linedata p = Ok p' ->
  (258 <= length linedata)%nat
  /\ existsb (abs_overflows X) (spectrum X linedata) = false
  /\ exists e cl,
      encoder = Some e /\ last linedata = Some cl
      /\ enc_error X (enc_kind e) (length (wave_data p))
           (feature_vector_spec X intensity linedata) time dt = None
      /\ p' = {| wave_data :=
                   wave_data p
                   ++ [{| encoded_image :=
                            enc X (enc_kind e) (length (wave_data p))
                              (feature_vector_spec X intensity linedata) time dt;
                          label := cl |}];
                 classes := classes p ++ [cl] |}.
Proof.
  intros H.
  assert (exists datum, linedata_intensity (X:=X) intensity linedata = Ok datum)
    as [datum Hd].
  { unfold process_tokens in H.
    destruct (linedata_intensity intensity linedata); [eauto | discriminate]. }
  apply linedata_intensity_inv in Hd as (Hlen & Hfin & _).
  split; [done |]. split; [done |].
  assert (is_Some (last linedata)) as [cl Hcl].
  { apply last_is_Some. intros ->. simpl in Hlen. lia. }
  rewrite (process_tokens_long _ _ _ _ _ cl p Hlen Hcl), Hfin in H.
  destruct encoder as [e|]; [| discriminate].
  destruct (enc_error X _ _ _ _ _) eqn:He; [discriminate |].
  injection H as <-. exists e, cl. done.
Qed.

Lemma process_line_comment (encoder : option encoder) (time dt : Z)
    (intensity : Float K) (line : text) (p : parsed) :
  py_first line = Ok 35%N ->
  process_line (X:=X) encoder time dt intensity line p = Ok p.
Proof. unfold process_line. by intros ->. Qed.

Lemma process_line_tokens (encoder : option encoder) (time dt : Z)
    (intensity : Float K) (line : text) (c : char) (p : parsed)
    (linedata : list (Complex K)) :
  py_first line = Ok c -> c <> 35%N ->
  parse_tokens (X:=X) (split line) = Ok linedata ->
  process_line (X:=X) encoder time dt intensity line p
  = match linedata with
    | [] => Ok p
    | _ => process_tokens (X:=X) encoder time dt intensity linedata p
    end.
Proof.
  intros Hc Hne Hp. unfold process_line. rewrite Hc. simpl.
  destruct (N.eqb_spec c 35); [done |]. rewrite Hp. simpl.
  by destruct linedata.
Qed.

End Parsing.

Lemma for_each_app {A S : Type} (body : A -> S -> result S) (xs ys : list A) (s : S) :
  for_each body (xs ++ ys) s
  = let* s' := for_each body xs s in for_each body ys s'.
Proof.
  revert s. induction xs as [|x xs IH]; intros s; simpl; [done |].
  destruct (body x s); simpl; [apply IH | done].
Qed.

Lemma for_each_fixed {A S : Type} (body : A -> S -> result S) (xs : list A) (s : S) :
  Forall (fun x => body x s = Ok s) xs -> for_each body xs s = Ok s.
Proof.
  induction 1 as [|x xs Hx _ IH]; simpl; [done |]. by rewrite Hx.
Qed.

Lemma select_encoder_unknown (name : string) (time dt : Z) :
  name ∉ encoder_names -> select_encoder name time dt = (None, [no_such_encoder]).
Proof.
  unfold encoder_names, select_encoder. intros H.
  repeat (apply not_elem_of_cons in H as [?%String.eqb_neq H]).
  by repeat match goal with E : String.eqb _ _ = false |- _ => rewrite E; clear E end.
Qed.

(** ** The waveform file *)

(** C1, as amended.  A line whose first character is '#' contributes no
    sample.  Any other line is split on white space into tokens, each
    parsed as a complex number; an empty token list contributes no sample;
    a non-empty token list of fewer than 258 numbers raises [ValueError]
    in the FFT of an empty slice.  A token list of at least 258 numbers,
    for which all four FFT slices are non-empty, has its final token as
    the class label, and that token is not part of the fourth slice,
    which stops one short of it; the line contributes one sample with
    that label unless [abs] raises [OverflowError] on a magnitude beyond
    the float range, or the name [encoder] is unbound ([NameError]), or
    the call of the encoder raises. *)
Theorem C1_file_line {K : Carriers} {X : Externals K}
    (encoder : option encoder) (time dt : Z) (intensity : Float K)
    (line : text) (c : char) (p : parsed) :
  py_first line = Ok c ->
  (c = 35%N -> process_line (X:=X) encoder time dt intensity line p = Ok p)
  /\ (c <> 35%N ->
      Forall token (split line)
      /\ forall linedata : list (Complex K),
          parse_tokens (X:=X) (split line) = Ok linedata ->
          (linedata = [] ->
           process_line (X:=X) encoder time dt intensity line p = Ok p)
          /\ (linedata <> [] -> (length linedata < 258)%nat ->
              process_line (X:=X) encoder time dt intensity line p
              = Err ValueError)
          /\ ((258 <= length linedata)%nat ->
              exists cl,
                last linedata = Some cl
                /\ py_slice 256 (length linedata - 1) linedata ++ [cl]
                   = drop 256 linedata
                /\ process_line (X:=X) encoder time dt intensity line p
                   = if existsb (abs_overflows X) (spectrum X linedata)
                     then Err OverflowError
                     else
                       match encoder with
                       | None => Err NameError
                       | Some e =>
                           match enc_error X (enc_kind e) (length (wave_data p))
                                   (feature_vector_spec X intensity linedata)
                                   time dt with
                           | Some x => Err x
                           | None =>
                               Ok {| wave_data :=
                                       wave_data p
                                       ++ [{| encoded_image :=
                                                enc X (enc_kind e)
                                                  (length (wave_data p))
                                                  (feature_vector_spec X
                                                     intensity linedata)
                                                  time dt;
                                              label := cl |}];
                                     classes := classes p ++ [cl] |}
                           end
                       end)).
Proof.
  intros Hc. split.
  - intros ->. by apply process_line_comment.
  - intros Hne. split; [apply split_tokens |].
    intros linedata Hp.
    rewrite (process_line_tokens encoder time dt intensity line c p linedata Hc Hne Hp).
    split; [by intros -> |]. split.
    + intros Hnil Hlen. destruct linedata; [done |].
      unfold process_tokens. by rewrite linedata_intensity_short.
    + intros Hlen.
      assert (is_Some (last linedata)) as [cl Hcl].
      { apply last_is_Some. intros ->. simpl in Hlen. lia. }
      exists cl. split; [done |]. split.
      * apply label_after_fourth_slice; [lia | done].
      * destruct linedata; [simpl in Hlen; lia |].
        by apply process_tokens_long.
Qed.

(** A line of 320 values and the label 1 gives a sample of class 1. *)
Lemma C1_file_line_witness :
  result_map classes
    (process_line (X:=Toy.externals) (Some Toy.poisson) 500 1 18
       (Toy.wave_line "1") parsed_empty)
  = Ok [1].
Proof.
  destruct (C1_file_line (X:=Toy.externals) (Some Toy.poisson) 500 1 18
              (Toy.wave_line "1") 55%N parsed_empty eq_refl) as [_ H].
  destruct (H ltac:(discriminate)) as [_ H1].
  destruct (H1 (replicate 320 7 ++ [1]) eq_refl) as (_ & _ & H2).
  destruct H2 as (cl & Hcl & _ & ->).
  - vm_compute. lia.
  - vm_compute in Hcl. injection Hcl as <-. reflexivity.
Defined.

(** C1 as first stated fails on a short line: "1 0" has the non-empty
    token list [1, 0], yet the script raises in the FFT of an empty slice
    and no sample, hence no label, comes of it. *)
Lemma C1_short_line_raises :
  py_first (codepoints "1 0") = Ok 49%N
  /\ parse_tokens (X:=Toy.externals) (split (codepoints "1 0")) = Ok [1; 0]
  /\ process_line (X:=Toy.externals) (Some Toy.poisson) 500 1 18
       (codepoints "1 0") parsed_empty
     = Err ValueError.
Proof. repeat split. Qed.

(** C5.  For every line that contributes a sample, the datum handed to
    the encoder is the specification's feature vector: the FFTs of the
    token slices [16:80], [96:160], [192:256] and [256:len-1] joined in
    that order, every value replaced by the intensity times its
    magnitude. *)
Theorem C5_feature_vector {K : Carriers} {X : Externals K}
    (encoder : option encoder) (time dt : Z) (intensity : Float K)
    (line : text) (linedata : list (Complex K)) (p p' : parsed) :
  parse_tokens (X:=X) (split line) = Ok linedata ->
  process_line (X:=X) encoder time dt intensity line p = Ok p' ->
  wave_data p' <> wave_data p ->
  linedata_intensity (X:=X) intensity linedata
  = Ok ((fun z => fmul X intensity (cabs X z)) <$>
          (fft X (py_slice 16 80 linedata) ++ fft X (py_slice 96 160 linedata)
           ++ fft X (py_slice 192 256 linedata)
           ++ fft X (py_slice 256 (length linedata - 1) linedata)))
  /\ exists e cl,
      encoder = Some e
      /\ last linedata = Some cl
      /\ wave_data p'
         = wave_data p
           ++ [{| encoded_image :=
                    enc X (enc_kind e) (length (wave_data p))
                      (feature_vector_spec X intensity linedata) time dt;
                  label := cl |}].
Proof.
  intros Hp Hline Hnew.
  destruct line as [|c line']; [discriminate |].
  destruct (N.eq_dec c 35%N) as [->|Hc].
  { rewrite process_line_comment in Hline by done. congruence. }
  rewrite (process_line_tokens encoder time dt intensity (c :: line') c p linedata
             eq_refl Hc Hp) in Hline.
  destruct linedata as [|z zs] eqn:E; [congruence |]. rewrite <- E in *.
  apply process_tokens_inv in Hline
    as (Hge & Hfin & e & cl & -> & Hcl & Henc & ->).
  split; [by apply linedata_intensity_ok |].
  exists e, cl. done.
Qed.

(** The sample of a line of 320 sevens and a label: with the instance's
    identity FFT and intensity 18, 256 values of 126. *)
Lemma C5_feature_vector_witness :
  linedata_intensity (X:=Toy.externals) 18 (replicate 320 7 ++ [1])
  = Ok (replicate 256 126).
Proof.
  destruct (C5_feature_vector (X:=Toy.externals) (Some Toy.poisson) 500 1 18
              (Toy.wave_line "1") (replicate 320 7 ++ [1]) parsed_empty
              (@Build_parsed Toy.carriers
                 [{| encoded_image := replicate 256 126; label := 1 |}] [1]))
    as [H _].
  - reflexivity.
  - reflexivity.
  - discriminate.
  - rewrite H. reflexivity.
Defined.

(** ** Encoder selection *)

Section Unbound.
Context {K : Carriers} {X : Externals K}.

(** A list of tokens without a bound encoder: the error of the datum, if
    it has one, and [NameError] otherwise. *)
Lemma process_tokens_unbound (time dt : Z) (intensity : Float K)
    (linedata : list (Complex K)) (p : parsed) :
  linedata <> [] ->
  process_tokens (X:=X) None time dt intensity linedata p
  = match linedata_intensity (X:=X) intensity linedata with
    | Ok _ => Err NameError
    | Err x => Err x
    end.
Proof.
  intros Hne. unfold process_tokens.
  destruct (linedata_intensity intensity linedata) as [datum|x]; [| done]. simpl.
  assert (is_Some (last linedata)) as [cl Hcl] by (by apply last_is_Some).
  by rewrite (py_last_ok _ _ Hcl).
Qed.

(** With an encoder the same error of the datum arises. *)
Lemma process_tokens_bound_err (e : encoder) (time dt : Z) (intensity : Float K)
    (linedata : list (Complex K)) (p : parsed) (x : exn) :
  linedata_intensity (X:=X) intensity linedata = Err x ->
  process_tokens (X:=X) (Some e) time dt intensity linedata p = Err x.
Proof. intros H. unfold process_tokens. by rewrite H. Qed.

(** The body of the file loop in full, for either state of [encoder]. *)
Lemma process_line_eq (encoder : option encoder) (time dt : Z)
    (intensity : Float K) (line : text) (p : parsed) :
  process_line (X:=X) encoder time dt intensity line p
  = match line with
    | [] => Err IndexError
    | c :: _ =>
        if (c =? 35)%N then Ok p
        else match parse_tokens (X:=X) (split line) with
             | Err x => Err x
             | Ok [] => Ok p
             | Ok linedata =>
                 process_tokens (X:=X) encoder time dt intensity linedata p
             end
    end.
Proof.
  unfold process_line. destruct line as [|c line']; [done |]. simpl.
  destruct (c =? 35)%N; [done |].
  destruct (parse_tokens (split (c :: line'))) as [[|z zs]|x]; done.
Qed.

(** A line that passes without an encoder contributes nothing and passes
    as well with any encoder. *)
Lemma process_line_unbound_ok (time dt : Z) (intensity : Float K)
    (line : text) (p p' : parsed) :
  process_line (X:=X) None time dt intensity line p = Ok p' ->
  p' = p
  /\ forall encoder, process_line (X:=X) encoder time dt intensity line p = Ok p.
Proof.
  rewrite process_line_eq. intros H.
  assert (p' = p /\ forall encoder,
            match line with
            | [] => Err IndexError
            | c :: _ =>
                if (c =? 35)%N then Ok p
                else match parse_tokens (X:=X) (split line) with
                     | Err x => Err x
                     | Ok [] => Ok p
                     | Ok linedata =>
                         process_tokens (X:=X) encoder time dt intensity linedata p
                     end
            end = Ok p) as [-> Hall].
  { destruct line as [|c line']; [discriminate |].
    destruct (c =? 35)%N; [by injection H as <- |].
    destruct (parse_tokens (split (c :: line'))) as [[|z zs]|x];
      [by injection H as <- | | discriminate].
    rewrite process_tokens_unbound in H by done.
    by destruct (linedata_intensity intensity (z :: zs)). }
  split; [done |]. intros encoder. by rewrite process_line_eq.
Qed.

(** An error other than [NameError] is not the encoder's: it arises with
    any encoder. *)
Lemma process_line_unbound_err (time dt : Z) (intensity : Float K)
    (line : text) (p : parsed) (x : exn) :
  process_line (X:=X) None time dt intensity line p = Err x ->
  x <> NameError ->
  forall e, process_line (X:=X) (Some e) time dt intensity line p = Err x.
Proof.
  rewrite process_line_eq. intros H Hx e. rewrite process_line_eq.
  destruct line as [|c line']; [done |].
  destruct (c =? 35)%N; [done |].
  destruct (parse_tokens (split (c :: line'))) as [[|z zs]|y]; [done | | done].
  rewrite process_tokens_unbound in H by done.
  destruct (linedata_intensity intensity (z :: zs)) as [datum|y] eqn:Hd;
    [congruence |].
  by rewrite (process_tokens_bound_err e _ _ _ _ _ y).
Qed.

(** [NameError] arises where the encoder is called: on a line of numbers
    whose datum has been computed. *)
Lemma process_line_unbound_name (time dt : Z) (intensity : Float K)
    (line : text) (p : parsed) :
  process_line (X:=X) None time dt intensity line p = Err NameError ->
  exists c linedata,
    py_first line = Ok c /\ c <> 35%N
    /\ parse_tokens (X:=X) (split line) = Ok linedata
    /\ linedata_intensity (X:=X) intensity linedata
       = Ok (feature_vector_spec X intensity linedata).
Proof.
  rewrite process_line_eq. intros H.
  destruct line as [|c line']; [discriminate |].
  destruct (N.eqb_spec c 35); [discriminate |].
  destruct (parse_tokens (split (c :: line'))) as [[|z zs]|y] eqn:Hp;
    [discriminate | |].
  2:{ apply parse_tokens_err in Hp as ->. discriminate. }
  rewrite process_tokens_unbound in H by done.
  destruct (linedata_intensity intensity (z :: zs)) as [datum|y] eqn:Hd.
  2:{ apply linedata_intensity_err in Hd as [-> | ->]; discriminate. }
  exists c, (z :: zs). split; [done |]. split; [done |]. split; [done |].
  destruct (linedata_intensity_inv _ _ _ Hd) as (_ & _ & <-). done.
Qed.

(** A line that yields a sample with an encoder raises [NameError]
    without one; a line that yields none passes. *)
Lemma process_line_bound (e : encoder) (time dt : Z) (intensity : Float K)
    (line : text) (p p' : parsed) :
  process_line (X:=X) (Some e) time dt intensity line p = Ok p' ->
  (p' = p /\ process_line (X:=X) None time dt intensity line p = Ok p)
  \/ (length (wave_data p') = S (length (wave_data p))
      /\ process_line (X:=X) None time dt intensity line p = Err NameError).
Proof.
  rewrite !process_line_eq. intros H.
  destruct line as [|c line']; [discriminate |].
  destruct (c =? 35)%N; [left; by injection H as <- |].
  destruct (parse_tokens (split (c :: line'))) as [[|z zs]|y];
    [left; by injection H as <- | | discriminate].
  right. rewrite process_tokens_unbound by done.
  apply process_tokens_inv in H as (Hlen & Hfin & e' & cl & _ & _ & _ & ->).
  rewrite linedata_intensity_ok by done. simpl.
  split; [| done]. rewrite length_app. simpl. lia.
Qed.

Lemma parse_unbound_ok (time dt : Z) (intensity : Float K) (f : list text)
    (p0 p : parsed) :
  for_each (process_line (X:=X) None time dt intensity) f p0 = Ok p ->
  p = p0
  /\ forall encoder,
      for_each (process_line (X:=X) encoder time dt intensity) f p0 = Ok p0.
Proof.
  induction f as [|line f IH]; intros H.
  - by injection H as <-.
  - simpl in H. apply bind_ok in H as (p1 & E & H).
    apply process_line_unbound_ok in E as [-> E].
    destruct (IH H) as [-> IH']. split; [done |].
    intros encoder. simpl. rewrite E. simpl. apply IH'.
Qed.

Lemma parse_unbound_err (time dt : Z) (intensity : Float K) (f : list text)
    (p0 : parsed) (x : exn) :
  for_each (process_line (X:=X) None time dt intensity) f p0 = Err x ->
  x <> NameError ->
  forall e, for_each (process_line (X:=X) (Some e) time dt intensity) f p0 = Err x.
Proof.
  intros H Hx e. induction f as [|line f IH]; [discriminate |].
  simpl in *.
  destruct (process_line None time dt intensity line p0) as [p1|y] eqn:E.
  - apply process_line_unbound_ok in E as [-> E]. rewrite E. simpl in *.
    by apply IH.
  - simpl in H. injection H as ->.
    by rewrite (process_line_unbound_err _ _ _ _ _ x E Hx e).
Qed.

Lemma parse_unbound_name (time dt : Z) (intensity : Float K) (f : list text)
    (p0 : parsed) :
  for_each (process_line (X:=X) None time dt intensity) f p0 = Err NameError ->
  exists pre line rest c linedata,
    f = pre ++ line :: rest
    /\ for_each (process_line (X:=X) None time dt intensity) pre p0 = Ok p0
    /\ py_first line = Ok c /\ c <> 35%N
    /\ parse_tokens (X:=X) (split line) = Ok linedata
    /\ linedata_intensity (X:=X) intensity linedata
       = Ok (feature_vector_spec X intensity linedata).
Proof.
  intros H. induction f as [|line f IH]; [discriminate |].
  simpl in H.
  destruct (process_line None time dt intensity line p0) as [p1|y] eqn:E.
  - pose proof E as E'. apply process_line_unbound_ok in E' as [-> _].
    simpl in H.
    destruct (IH H) as (pre & l & rest & c & linedata & -> & Hpre & Hl).
    exists (line :: pre), l, rest, c, linedata. split; [done |].
    split; [| done]. simpl. rewrite E. simpl. done.
  - simpl in H. injection H as ->.
    apply process_line_unbound_name in E as (c & linedata & Hl).
    exists [], line, f, c, linedata. done.
Qed.

Lemma parse_bound_sample (e : encoder) (time dt : Z) (intensity : Float K)
    (f : list text) (p0 p : parsed) :
  for_each (process_line (X:=X) (Some e) time dt intensity) f p0 = Ok p ->
  wave_data p <> wave_data p0 ->
  for_each (process_line (X:=X) None time dt intensity) f p0 = Err NameError.
Proof.
  induction f as [|line f IH]; intros H Hw.
  - injection H as <-. done.
  - simpl in H. apply bind_ok in H as (p1 & E & H). simpl.
    apply process_line_bound in E as [[-> E] | [_ E]]; rewrite E; simpl.
    + by apply IH.
    + done.
Qed.

End Unbound.

(** C3.  When [--encoder] names none of the six encoders, the chain
    prints the error message and binds no encoder, and the script goes
    on into the file loop, for every file.  Nothing there differs from a
    run with an encoder until the encoder is called: if the loop ends,
    no line had a sample to encode and the loop ends alike with any
    encoder; an error other than [NameError] is one a run with any
    encoder meets as well; and [NameError] is raised at a line of
    numbers whose datum has been computed, every line before it having
    passed, which is where [encoder.enc] is first called.  A file that
    yields a sample with an encoder raises [NameError] without one. *)
Theorem C3_unknown_encoder {K : Carriers} {X : Externals K}
    (name : string) (time dt : Z) (intensity : Float K) (f : list text) :
  name ∉ encoder_names ->
  let unbound := fst (select_encoder name time dt) in
  select_encoder name time dt = (None, [no_such_encoder])
  /\ (forall p,
        parse_file (X:=X) unbound time dt intensity f = Ok p ->
        p = parsed_empty
        /\ forall e, parse_file (X:=X) (Some e) time dt intensity f
                     = Ok parsed_empty)
  /\ (forall x,
        parse_file (X:=X) unbound time dt intensity f = Err x ->
        x <> NameError ->
        forall e, parse_file (X:=X) (Some e) time dt intensity f = Err x)
  /\ (parse_file (X:=X) unbound time dt intensity f = Err NameError ->
      exists pre line rest c linedata,
        f = pre ++ line :: rest
        /\ parse_file (X:=X) unbound time dt intensity pre = Ok parsed_empty
        /\ py_first line = Ok c /\ c <> 35%N
        /\ parse_tokens (X:=X) (split line) = Ok linedata
        /\ linedata_intensity (X:=X) intensity linedata
           = Ok (feature_vector_spec X intensity linedata))
  /\ (forall e p,
        parse_file (X:=X) (Some e) time dt intensity f = Ok p ->
        wave_data p <> [] ->
        parse_file (X:=X) unbound time dt intensity f = Err NameError).
Proof.
  intros Hname unbound. unfold unbound.
  rewrite (select_encoder_unknown name time dt Hname). simpl.
  unfold parse_file. split; [done |]. split; [| split; [| split]].
  - intros p H. apply parse_unbound_ok in H as [-> H]. split; [done |].
    intros e. apply H.
  - intros x H Hx e. by apply parse_unbound_err.
  - intros H. by apply parse_unbound_name.
  - intros e p H Hw. by apply (parse_bound_sample e _ _ _ _ _ p).
Qed.

(** With [--encoder FourierEncoder] the instance's file, which yields
    four samples with the Poisson encoder, raises [NameError]. *)
Lemma C3_unknown_encoder_witness :
  select_encoder "FourierEncoder" 500 1 = (None, [no_such_encoder])
  /\ parse_file (X:=Toy.externals) None 500 1 18 Toy.file = Err NameError.
Proof.
  destruct (C3_unknown_encoder (X:=Toy.externals) "FourierEncoder" 500 1 18
              Toy.file) as (H1 & _ & _ & _ & H5).
  - unfold encoder_names. intros H.
    repeat (apply elem_of_cons in H as [H|H]; [discriminate |]).
    by apply elem_of_nil in H.
  - split; [exact H1 |].
    destruct (parse_file (X:=Toy.externals) (Some Toy.poisson) 500 1 18 Toy.file)
      as [p|x] eqn:E; [| vm_compute in E; discriminate].
    apply (H5 Toy.poisson p E).
    vm_compute in E. injection E as <-. discriminate.
Defined.

(** ** One step of the training loop *)

Ltac bind_inv H :=
  let x := fresh "x" in
  let E := fresh "E" in
  apply bind_ok in H as (x & E & H).

Section Training.
Context {K : Carriers} {X : Externals K}.

Lemma get_inputs_inv (g : globals) (batch : sample (Encoded K) (Complex K))
    (inputs : Inputs K) :
  get_inputs (X:=X) g batch = Ok inputs ->
  dt g <> 0 /\ inputs = inputs_of X g batch.
Proof.
  unfold get_inputs. intros H. bind_inv H. bind_inv H.
  apply py_int_div_inv in E as [Hdt ->]. by injection H as <-.
Qed.

Lemma get_inputs_ok (g : globals) (batch : sample (Encoded K) (Complex K)) :
  dt g <> 0 -> fits_inputs X g batch ->
  get_inputs (X:=X) g batch = Ok (inputs_of X g batch).
Proof.
  intros H (HT & Hn & Hfit). unfold get_inputs, py_int_div.
  destruct (Z.eqb_spec (dt g) 0); [done |]. simpl.
  rewrite torch_view_ok; [done | | simpl; lia].
  repeat constructor; lia.
Qed.

Lemma plot_views_ok (g : globals) (batch : sample (Encoded K) (Complex K)) :
  plot g = true -> fits_plots X g batch -> plot_views (X:=X) g batch = Ok tt.
Proof.
  intros Hp Hfit. destruct (Hfit Hp) as (Hn & Ht & Hi). unfold plot_views.
  rewrite torch_view_ok; [| repeat constructor; lia | simpl; lia]. simpl.
  rewrite torch_view_ok; [| repeat constructor; lia | simpl; lia]. simpl.
  rewrite torch_view_ok; [done | repeat constructor; lia | simpl; lia].
Qed.

Lemma setitem_inv (b b' : buffer (Spikes K)) (i : Z) (v : Spikes K) :
  0 <= i -> setitem (X:=X) b i v = Ok b' ->
  (Z.to_nat i < length (rows b))%nat
  /\ rows b' = <[Z.to_nat i := v]> (rows b) /\ dims b' = dims b.
Proof.
  intros Hi. unfold setitem.
  destruct (Z.leb_spec 0 i); [| lia]. simpl.
  destruct (Z.ltb_spec i (Z.of_nat (length (rows b)))); simpl.
  - destruct (assignable _ _); [| discriminate].
    intros [= <-]. simpl. split; [lia | done].
  - destruct (Z.ltb_spec i 0); [lia |]. rewrite andb_false_r. discriminate.
Qed.

(** A row assignment that returns had a value that fits a row. *)
Lemma setitem_fits (b b' : buffer (Spikes K)) (i : Z) (v : Spikes K) :
  setitem (X:=X) b i v = Ok b' ->
  assignable (shape_of X v) [fst (dims b); snd (dims b)] = true.
Proof.
  unfold setitem. destruct (assignable _ _); [done |].
  by destruct (_ && _); [| destruct (_ && _)].
Qed.

Lemma setitem_shape (b b' : buffer (Spikes K)) (i : Z) (v : Spikes K) :
  setitem (X:=X) b i v = Ok b' -> shape b' = shape b.
Proof.
  unfold setitem, shape. destruct (assignable _ _).
  - destruct (_ && _); [| destruct (_ && _); [| discriminate]];
      intros [= <-]; simpl; by rewrite length_insert.
  - by destruct (_ && _); [| destruct (_ && _)].
Qed.

Lemma setitem_ok (b : buffer (Spikes K)) (i : Z) (v : Spikes K) :
  0 <= i < Z.of_nat (length (rows b)) ->
  assignable (shape_of X v) [fst (dims b); snd (dims b)] = true ->
  setitem (X:=X) b i v
  = Ok {| rows := <[Z.to_nat i := v]> (rows b); dims := dims b |}.
Proof.
  intros H Hfit. unfold setitem. rewrite Hfit.
  destruct (Z.leb_spec 0 i); [| lia].
  destruct (Z.ltb_spec i (Z.of_nat (length (rows b)))); [done | lia].
Qed.

(** What the scoring block leaves. *)
Lemma score_inv (g : globals) (s s1 : state) :
  score (X:=X) g s = Ok s1 ->
  exists acc_all acc_proportion,
    accuracy_percent (X:=X) (labels s)
      (all_activity X (spike_record s) (assignments s) (n_classes g)) = Ok acc_all
    /\ accuracy_percent (X:=X) (labels s)
         (proportion_weighting X (spike_record s) (assignments s) (proportions s)
            (n_classes g)) = Ok acc_proportion
    /\ accuracy_all s1 = accuracy_all s ++ [acc_all]
    /\ accuracy_proportion s1 = accuracy_proportion s ++ [acc_proportion]
    /\ (assignments s1, proportions s1, rates s1)
       = assign_labels X (spike_record s) (labels s) (n_classes g) (rates s)
    /\ labels s1 = []
    /\ network s1 = network s /\ spike_record s1 = spike_record s
    /\ calls s1 = calls s.
Proof.
  unfold score. intros H. bind_inv H. bind_inv H.
  destruct (assign_labels X _ _ _ _) as [[a' p'] r'].
  injection H as <-. simpl. exists x, x0. done.
Qed.

(** What the rest of the body leaves. *)
Lemma simulate_inv (g : globals) (step : nat) (inputs : Inputs K)
    (batch : sample (Encoded K) (Complex K)) (s s' : state) :
  0 < update_interval g ->
  simulate (X:=X) g step inputs batch s = Ok s' ->
  let i := Z.to_nat (Z.of_nat step mod update_interval g) in
  let v := spikes_Ae X (network_run X (network s) inputs (time g)) in
  (i < length (rows (spike_record s)))%nat
  /\ rows (spike_record s') = <[i := v]> (rows (spike_record s))
  /\ dims (spike_record s') = dims (spike_record s)
  /\ labels s' = labels s ++ [label batch]
  /\ network s'
     = reset_state_variables X (network_run X (network s) inputs (time g))
  /\ accuracy_all s' = accuracy_all s
  /\ accuracy_proportion s' = accuracy_proportion s
  /\ assignments s' = assignments s /\ proportions s' = proportions s
  /\ rates s' = rates s
  /\ calls s'
     = calls s ++ [CallRun inputs (time g)]
       ++ (if plot g then [CallPlot] else []) ++ [CallReset].
Proof.
  intros Hu. unfold simulate. intros H. bind_inv H. bind_inv H. bind_inv H.
  apply py_mod_inv in E as [_ ->].
  apply setitem_inv in E0 as (Hlt & Hrows & Hdims);
    [| apply Z.mod_pos_bound; lia].
  injection H as <-. simpl. repeat split; try done.
  destruct (plot g).
  - bind_inv E1. injection E1 as <-. by rewrite <- !app_assoc.
  - injection E1 as <-. by rewrite <- !app_assoc.
Qed.

Lemma train_step_inv (g : globals) (step : nat)
    (batch : sample (Encoded K) (Complex K)) (s s' : state) :
  train_step (X:=X) g step batch s = Ok s' ->
  update_interval g <> 0 /\ dt g <> 0
  /\ exists s1,
      (if (Z.of_nat step mod update_interval g =? 0) && (0 <? Z.of_nat step)
       then score (X:=X) g s else Ok s) = Ok s1
      /\ simulate (X:=X) g step (inputs_of X g batch) batch s1 = Ok s'.
Proof.
  unfold train_step. intros H. bind_inv H. bind_inv H. bind_inv H.
  apply get_inputs_inv in E as [Hdt ->].
  apply py_mod_inv in E0 as [Hu ->]. eauto.
Qed.

(** The monitor's spikes have the shape (int(time / dt), 1, n_neurons)
    before the squeeze: squeezed, they fit a row unless there is one
    neuron only (and more than one time step), where the squeeze drops
    the neurons' dimension as well. *)
Lemma squeezed_fits (T n : Z) :
  assignable (squeeze [T; 1; n]) [T; n] = true <-> n <> 1 \/ T = 1.
Proof.
  unfold squeeze, assignable. rewrite !filter_cons, filter_nil.
  repeat case_decide; try done; simpl;
    repeat match goal with
           | |- context [?a =? ?b] => destruct (Z.eqb_spec a b); simpl
           end; intuition (try done; try lia).
Qed.

(** With one neuron no step of the training loop returns: the row
    assignment raises. *)
Lemma train_step_single_neuron (g : globals) (step : nat)
    (batch : sample (Encoded K) (Complex K)) (s s' : state) (T : Z) :
  (forall net, shape_of X (spikes_Ae X net) = squeeze [T; 1; 1]) ->
  dims (spike_record s) = (T, 1) -> T <> 1 ->
  train_step (X:=X) g step batch s = Ok s' -> False.
Proof.
  intros Hshape Hdims HT H.
  apply train_step_inv in H as (_ & _ & s1 & H1 & H2).
  assert (spike_record s1 = spike_record s) as Hrec.
  { destruct (_ && _).
    - by apply score_inv in H1 as (? & ? & _ & _ & _ & _ & _ & _ & _ & ? & _).
    - by injection H1 as <-. }
  unfold simulate in H2. bind_inv H2. bind_inv H2.
  apply setitem_fits in E0. rewrite Hshape, Hrec, Hdims in E0. simpl in E0.
  apply squeezed_fits in E0. lia.
Qed.

End Training.

(** ** The loops *)

Section Loops.
Context {K : Carriers} {X : Externals K}.

Lemma simulate_frame (g : globals) (step : nat) (inputs : Inputs K)
    (batch : sample (Encoded K) (Complex K)) (s s' : state) :
  simulate (X:=X) g step inputs batch s = Ok s' ->
  calls s'
  = calls s ++ [CallRun inputs (time g)]
    ++ (if plot g then [CallPlot] else []) ++ [CallReset]
  /\ shape (spike_record s') = shape (spike_record s).
Proof.
  unfold simulate. intros H. bind_inv H. bind_inv H. bind_inv H.
  apply setitem_shape in E0. injection H as <-. simpl. split; [| done].
  destruct (plot g).
  - bind_inv E1. injection E1 as <-. by rewrite <- !app_assoc.
  - injection E1 as <-. by rewrite <- !app_assoc.
Qed.

Lemma train_step_frame (g : globals) (step : nat)
    (batch : sample (Encoded K) (Complex K)) (s s' : state) :
  train_step (X:=X) g step batch s = Ok s' ->
  calls s' = calls s ++ sample_calls X (plot g) g batch
  /\ shape (spike_record s') = shape (spike_record s).
Proof.
  intros H. apply train_step_inv in H as (_ & _ & s1 & H1 & H2).
  apply simulate_frame in H2 as [Hc Hs].
  assert (calls s1 = calls s /\ spike_record s1 = spike_record s) as [E1 E2].
  { destruct (_ && _).
    - by apply score_inv in H1 as (? & ? & _ & _ & _ & _ & _ & _ & _ & ? & ?).
    - by injection H1 as <-. }
  by rewrite Hc, Hs, E1, E2.
Qed.

Lemma train_each_frame (g : globals) (data : list (sample (Encoded K) (Complex K)))
    (step : nat) (s s' : state) :
  train_each X g step data s = Ok s' ->
  calls s' = calls s ++ pass_calls X (plot g) g data
  /\ shape (spike_record s') = shape (spike_record s).
Proof.
  revert step s. induction data as [|b data IH]; intros step s; simpl.
  - intros [= <-]. by rewrite app_nil_r.
  - intros H. bind_inv H. apply train_step_frame in E as [Ec Es].
    apply IH in H as [Hc Hs]. rewrite Hc, Hs, Ec, Es.
    unfold pass_calls. simpl. by rewrite <- app_assoc.
Qed.

Lemma train_each_app (g : globals) (pre post : list (sample (Encoded K) (Complex K)))
    (step : nat) (s : state) :
  train_each X g step (pre ++ post) s
  = let* s' := train_each X g step pre s in
    train_each X g (step + length pre) post s'.
Proof.
  revert step s. induction pre as [|b pre IH]; intros step s; simpl.
  - by rewrite Nat.add_0_r.
  - destruct (train_step g step b s) as [s1|e]; simpl; [| done].
    rewrite IH. by rewrite Nat.add_succ_r.
Qed.

(** The guard only cuts the list: the loop steps the samples whose index
    does not exceed [n_train] and nothing after them. *)
Lemma train_loop_guard (g : globals) (data : list (sample (Encoded K) (Complex K)))
    (step : nat) (s : state) :
  train_loop (X:=X) g step data s
  = train_each X g step (take (Z.to_nat (n_train g + 1 - Z.of_nat step)) data) s.
Proof.
  revert step s. induction data as [|b data IH]; intros step s.
  - by rewrite take_nil.
  - cbn [train_loop]. destruct (Z.ltb_spec (n_train g) (Z.of_nat step)).
    + replace (Z.to_nat _) with 0%nat by lia. done.
    + replace (Z.to_nat (n_train g + 1 - Z.of_nat step))
        with (S (Z.to_nat (n_train g + 1 - Z.of_nat (S step)))) by lia.
      cbn [take train_each]. destruct (train_step g step b s); simpl; [| done].
      apply IH.
Qed.

Lemma test_loop_guard (g : globals) (a : Assignments K) (p : Proportions K)
    (data : list (sample (Encoded K) (Complex K))) (step : nat) (s : test_state) :
  test_loop (X:=X) g a p step data s
  = test_each X g a p (take (Z.to_nat (n_test g + 1 - Z.of_nat step)) data) s.
Proof.
  revert step s. induction data as [|b data IH]; intros step s.
  - by rewrite take_nil.
  - cbn [test_loop]. destruct (Z.ltb_spec (n_test g) (Z.of_nat step)).
    + replace (Z.to_nat _) with 0%nat by lia. done.
    + replace (Z.to_nat (n_test g + 1 - Z.of_nat step))
        with (S (Z.to_nat (n_test g + 1 - Z.of_nat (S step)))) by lia.
      cbn [take test_each]. destruct (test_step g a p b s); simpl; [| done].
      apply IH.
Qed.

(** With the bound at the length of the list the guard never fires. *)
Lemma train_loop_all (g : globals) (data : list (sample (Encoded K) (Complex K)))
    (s : state) :
  Z.of_nat (length data) <= n_train g + 1 ->
  train_loop (X:=X) g 0 data s = train_each X g 0 data s.
Proof. intros H. rewrite train_loop_guard, take_ge; [done | lia]. Qed.

Lemma test_loop_all (g : globals) (a : Assignments K) (p : Proportions K)
    (data : list (sample (Encoded K) (Complex K))) (s : test_state) :
  Z.of_nat (length data) <= n_test g + 1 ->
  test_loop (X:=X) g a p 0 data s = test_each X g a p data s.
Proof. intros H. rewrite test_loop_guard, take_ge; [done | lia]. Qed.

Lemma test_step_frame (g : globals) (a : Assignments K) (p : Proportions K)
    (batch : sample (Encoded K) (Complex K)) (s s' : test_state) :
  test_step (X:=X) g a p batch s = Ok s' ->
  t_calls s' = t_calls s ++ sample_calls X false g batch
  /\ shape (t_spike_record s') = shape (t_spike_record s).
Proof.
  unfold test_step. intros H. do 6 bind_inv H.
  apply get_inputs_inv in E as [_ ->]. apply setitem_shape in E0.
  injection H as <-. simpl. by rewrite <- app_assoc.
Qed.

Lemma test_each_frame (g : globals) (a : Assignments K) (p : Proportions K)
    (data : list (sample (Encoded K) (Complex K))) (s s' : test_state) :
  test_each X g a p data s = Ok s' ->
  t_calls s' = t_calls s ++ pass_calls X false g data
  /\ shape (t_spike_record s') = shape (t_spike_record s).
Proof.
  revert s. induction data as [|b data IH]; intros s; simpl.
  - intros [= <-]. by rewrite app_nil_r.
  - intros H. bind_inv H. apply test_step_frame in E as [Ec Es].
    apply IH in H as [Hc Hs]. rewrite Hc, Hs, Ec, Es.
    unfold pass_calls. simpl. by rewrite <- app_assoc.
Qed.

Lemma train_epoch_frame (g : globals)
    (train_data : list (sample (Encoded K) (Complex K))) (epoch : Z) (s s' : state) :
  n_train g = Z.of_nat (length train_data) ->
  train_epoch (X:=X) g train_data epoch s = Ok s' ->
  calls s' = calls s ++ pass_calls X (plot g) g train_data
  /\ shape (spike_record s') = shape (spike_record s).
Proof.
  intros Hn. unfold train_epoch. intros H. bind_inv H.
  rewrite train_loop_all in H by lia.
  by apply train_each_frame in H.
Qed.

Lemma epochs_frame (g : globals)
    (train_data : list (sample (Encoded K) (Complex K))) (epochs : list Z)
    (s s' : state) :
  n_train g = Z.of_nat (length train_data) ->
  for_each (train_epoch (X:=X) g train_data) epochs s = Ok s' ->
  calls s'
  = calls s ++ mjoin (replicate (length epochs) (pass_calls X (plot g) g train_data))
  /\ shape (spike_record s') = shape (spike_record s).
Proof.
  intros Hn. revert s. induction epochs as [|e epochs IH]; intros s; simpl.
  - intros [= <-]. by rewrite app_nil_r.
  - intros H. bind_inv H. apply train_epoch_frame in E as [Ec Es]; [| done].
    apply IH in H as [Hc Hs]. rewrite Hc, Hs, Ec, Es. by rewrite <- app_assoc.
Qed.

Lemma py_range_length (n : Z) : length (py_range n) = Z.to_nat n.
Proof. unfold py_range. by rewrite length_fmap, length_seq. Qed.

Lemma training_frame (g : globals)
    (train_data : list (sample (Encoded K) (Complex K))) (s s' : state) :
  n_train g = Z.of_nat (length train_data) ->
  training (X:=X) g train_data s = Ok s' ->
  0 < n_epochs g
  /\ calls s'
     = calls s
       ++ mjoin (replicate (Z.to_nat (n_epochs g))
                   (pass_calls X (plot g) g train_data))
  /\ shape (spike_record s') = shape (spike_record s).
Proof.
  intros Hn. unfold training. intros H. bind_inv H.
  destruct (Z.leb_spec (n_epochs g) 0); [discriminate |].
  injection H as <-. apply epochs_frame in E; [| done].
  by rewrite py_range_length in E.
Qed.

End Loops.

Lemma runs_app {K : Carriers} (c1 c2 : list (call (K:=K))) :
  runs (c1 ++ c2) = runs c1 ++ runs c2.
Proof. unfold runs. apply bind_app. Qed.

Lemma runs_pass_calls {K : Carriers} (X : Externals K) (plotting : bool)
    (g : globals) (data : list (sample (Encoded K) (Complex K))) :
  runs (pass_calls X plotting g data)
  = (fun b => (inputs_of X g b, time g)) <$> data.
Proof.
  induction data as [|b data IH]; [done |].
  unfold pass_calls in *. cbn [mbind list_bind]. rewrite runs_app, IH.
  by destruct plotting.
Qed.

Lemma runs_replicate {K : Carriers} (n : nat) (c : list (call (K:=K))) :
  runs (mjoin (replicate n c)) = mjoin (replicate n (runs c)).
Proof.
  induction n as [|n IH]; [done |]. simpl. by rewrite runs_app, IH.
Qed.

(** C9.  Both loops test the step index against their bound before
    anything else: at an index that exceeds [n_train] (for the testing
    loop, [n_test]) the loop ends at once, at any other index the body
    runs and the loop goes on.  As a whole, the loop steps exactly the
    samples whose index does not exceed the bound. *)
Theorem C9_break_guards {K : Carriers} {X : Externals K}
    (g : globals) (a : Assignments K) (p : Proportions K) (step : nat)
    (batch : sample (Encoded K) (Complex K))
    (data : list (sample (Encoded K) (Complex K)))
    (s : state) (t : test_state) :
  (n_train g < Z.of_nat step ->
   train_loop (X:=X) g step (batch :: data) s = Ok s)
  /\ (Z.of_nat step <= n_train g ->
      train_loop (X:=X) g step (batch :: data) s
      = let* s' := train_step (X:=X) g step batch s in
        train_loop (X:=X) g (S step) data s')
  /\ (n_test g < Z.of_nat step ->
      test_loop (X:=X) g a p step (batch :: data) t = Ok t)
  /\ (Z.of_nat step <= n_test g ->
      test_loop (X:=X) g a p step (batch :: data) t
      = let* t' := test_step (X:=X) g a p batch t in
        test_loop (X:=X) g a p (S step) data t')
  /\ train_loop (X:=X) g step data s
     = train_each X g step
         (take (Z.to_nat (n_train g + 1 - Z.of_nat step)) data) s
  /\ test_loop (X:=X) g a p step data t
     = test_each X g a p
         (take (Z.to_nat (n_test g + 1 - Z.of_nat step)) data) t.
Proof.
  repeat split.
  - intros H. cbn [train_loop]. by destruct (Z.ltb_spec (n_train g) (Z.of_nat step)); [| lia].
  - intros H. cbn [train_loop]. by destruct (Z.ltb_spec (n_train g) (Z.of_nat step)); [lia |].
  - intros H. cbn [test_loop]. by destruct (Z.ltb_spec (n_test g) (Z.of_nat step)); [| lia].
  - intros H. cbn [test_loop]. by destruct (Z.ltb_spec (n_test g) (Z.of_nat step)); [lia |].
  - apply train_loop_guard.
  - apply test_loop_guard.
Qed.

(** With the bound 1 and five samples the training loop steps the
    samples 0 and 1 and breaks at index 2: two runs. *)
Lemma C9_break_guards_witness :
  let g :=
    {| time := 500; dt := 1; update_interval := 3; progress_interval := 10;
       n_epochs := 1; n_train := 1; n_test := 1; n_classes := 2;
       num_inputs := 1; plot := false; gpu := false |} in
  result_map (fun s => runs (calls s))
    (train_loop (X:=Toy.externals) g 0 Toy.items
       (Toy.start 3))
  = Ok [([10], 500); ([11], 500)].
Proof.
  intros g.
  destruct (C9_break_guards (X:=Toy.externals) g tt tt 0 (Toy.item 10)
              Toy.items (Toy.start 3)
              (Toy.test_start 3)) as (_ & _ & _ & _ & H & _).
  rewrite H. reflexivity.
Defined.

(** ** The script as a whole *)

Section Whole.
Context {K : Carriers} {X : Externals K}.

Lemma train_init_inv (g : globals) (n_neurons : Z) (net : Net K) (s0 : state) :
  train_init (X:=X) g n_neurons net = Ok s0 ->
  calls s0 = [] /\ labels s0 = [] /\ network s0 = net
  /\ shape (spike_record s0) = (update_interval g, time g ÷ dt g, n_neurons)
  /\ 0 <= update_interval g.
Proof.
  unfold train_init. intros H. bind_inv H. bind_inv H.
  apply py_int_div_inv in E as [_ ->]. injection H as <-. simpl.
  unfold torch_zeros in E0.
  destruct (Z.ltb_spec (update_interval g) 0); [discriminate |].
  destruct (_ || _); [discriminate |]. injection E0 as <-.
  unfold shape. simpl. rewrite length_replicate.
  repeat split; try done. f_equal. f_equal. lia.
Qed.

Lemma test_init_inv (g : globals) (n_neurons : Z) (s : state) (t0 : test_state) :
  test_init (X:=X) g n_neurons s = Ok t0 ->
  t_calls t0 = calls s
  /\ shape (t_spike_record t0) = (update_interval g, time g ÷ dt g, n_neurons).
Proof.
  unfold test_init. intros H. bind_inv H. bind_inv H.
  apply py_int_div_inv in E as [_ ->]. injection H as <-. simpl.
  unfold torch_zeros in E0.
  destruct (Z.ltb_spec (update_interval g) 0); [discriminate |].
  destruct (_ || _); [discriminate |]. injection E0 as <-.
  unfold shape. simpl. rewrite length_replicate.
  split; [done |]. f_equal. f_equal. lia.
Qed.

(** The stages a completed run went through. *)
Lemma main_inv (a : Args (Float K)) (f : list text) (o : outcome) :
  main (X:=X) a f = Ok o ->
  exists p train_data test_data last_sample s0 t0,
    parse_file (X:=X) (fst (select_encoder (a_encoder_type a) (a_time a) (a_dt a)))
      (a_time a) (a_dt a) (a_intensity a) f = Ok p
    /\ train_test_split X (wave_data p) (a_test_ratio a) = (train_data, test_data)
    /\ py_last train_data = Ok last_sample
    /\ let g := make_globals (X:=X) a train_data test_data
                  (np_unique_size X (classes p))
                  (shape1 X (encoded_image last_sample)) in
       train_init (X:=X) g (a_n_neurons a)
         (DiehlAndCook2015_NonLinear X (num_inputs g) (a_n_neurons a) (a_exc a)
            (a_inh a) (a_dt a) (a_theta_plus a) (gpu g) (time g ÷ dt g)) = Ok s0
       /\ training (X:=X) g train_data s0 = Ok (trained o)
       /\ test_init (X:=X) g (a_n_neurons a) (trained o) = Ok t0
       /\ test_loop (X:=X) g (assignments (trained o)) (proportions (trained o))
            0 test_data t0 = Ok (tested o).
Proof.
  unfold main. destruct (select_encoder _ _ _) as [encoder out]. simpl.
  intros H. bind_inv H.
  destruct (train_test_split X _ _) as [train_data test_data] eqn:Esplit.
  do 7 bind_inv H. injection H as <-. simpl.
  apply py_int_div_inv in E1 as [_ ->].
  exists x, train_data, test_data, x0, x2, x4. done.
Qed.

End Whole.

(** C10.  When the loops start, [n_train] and [n_test] hold the sizes of
    the two splits, so no index reached in a loop exceeds its bound: the
    guards never fire and each loop is the loop without its [break].  A
    run of the script that completes has run every training sample once
    in every epoch and then every test sample once.  The value given for
    [--n_train] has no effect at all, and the one given for [--n_test]
    none when training (otherwise it only becomes the update interval). *)
Theorem C10_bounds_are_split_sizes {K : Carriers} {X : Externals K}
    (a : Args (Float K)) (f : list text) (v : Z) :
  (forall train_data test_data n_classes num_inputs,
     let g := make_globals (X:=X) a train_data test_data n_classes num_inputs in
     n_train g = Z.of_nat (length train_data)
     /\ n_test g = Z.of_nat (length test_data)
     /\ (forall step, (step < length train_data)%nat ->
           (n_train g <? Z.of_nat step) = false)
     /\ (forall step, (step < length test_data)%nat ->
           (n_test g <? Z.of_nat step) = false)
     /\ (forall s, train_loop (X:=X) g 0 train_data s
                   = train_each X g 0 train_data s)
     /\ (forall asg prop t, test_loop (X:=X) g asg prop 0 test_data t
                            = test_each X g asg prop test_data t))
  /\ main (X:=X) (set_n_train v a) f = main (X:=X) a f
  /\ (a_train a = true -> main (X:=X) (set_n_test v a) f = main (X:=X) a f)
  /\ (forall o, main (X:=X) a f = Ok o ->
      exists p train_data test_data last_sample,
        parse_file (X:=X)
          (fst (select_encoder (a_encoder_type a) (a_time a) (a_dt a)))
          (a_time a) (a_dt a) (a_intensity a) f = Ok p
        /\ train_test_split X (wave_data p) (a_test_ratio a)
           = (train_data, test_data)
        /\ py_last train_data = Ok last_sample
        /\ let g := make_globals (X:=X) a train_data test_data
                      (np_unique_size X (classes p))
                      (shape1 X (encoded_image last_sample)) in
           runs (t_calls (tested o))
           = mjoin (replicate (Z.to_nat (a_n_epochs a))
                      ((fun b => (inputs_of X g b, a_time a)) <$> train_data))
             ++ ((fun b => (inputs_of X g b, a_time a)) <$> test_data)).
Proof.
  split; [| split; [| split]].
  - intros train_data test_data n_classes num_inputs g.
    split; [done |]. split; [done |].
    split; [intros step H; apply Z.ltb_ge; simpl; lia |].
    split; [intros step H; apply Z.ltb_ge; simpl; lia |].
    split.
    + intros s. apply train_loop_all. simpl. lia.
    + intros asg prop t. apply test_loop_all. simpl. lia.
  - reflexivity.
  - intros Htrain. unfold main, make_globals. simpl. rewrite Htrain. reflexivity.
  - intros o H.
    apply main_inv in H as (p & train_data & test_data & last_sample & s0 & t0
                            & Hp & Hsplit & Hlast & Hinit & Htrain & Htinit & Htest).
    exists p, train_data, test_data, last_sample.
    split; [done |]. split; [done |]. split; [done |].
    set (g := make_globals a train_data test_data _ _) in *.
    apply train_init_inv in Hinit as (Hc0 & _).
    apply training_frame in Htrain as (_ & Hc1 & _); [| done].
    apply test_init_inv in Htinit as [Hc2 _].
    rewrite test_loop_all in Htest by (simpl; lia).
    apply test_each_frame in Htest as [Hc3 _].
    rewrite Hc3, Hc2, Hc1, Hc0. simpl.
    by rewrite runs_app, runs_replicate, !runs_pass_calls.
Qed.

(** The instance's file has four samples, split two and two; with
    [--n_train 1 --n_test 1] and two epochs the completed run makes
    2 * 2 + 2 runs. *)
Lemma C10_bounds_are_split_sizes_witness :
  exists o,
    main (X:=Toy.externals) Toy.args Toy.file = Ok o
    /\ length (runs (t_calls (tested o))) = 6%nat.
Proof.
  destruct (main (X:=Toy.externals) Toy.args Toy.file) as [o|e] eqn:E;
    [| vm_compute in E; discriminate].
  exists o. split; [reflexivity |].
  destruct (C10_bounds_are_split_sizes (X:=Toy.externals) Toy.args Toy.file 7)
    as (_ & _ & _ & H).
  destruct (H o E) as (p & train_data & test_data & last_sample
                       & Hp & Hsplit & _ & ->).
  vm_compute in Hp. injection Hp as <-.
  vm_compute in Hsplit. injection Hsplit as <- <-.
  reflexivity.
Defined.

(** ** The confusion matrix *)

Lemma broadcast_one_r {A B : Type} (a : list A) (y : B) :
  broadcast a [y] = Ok ((fun x => (x, y)) <$> a).
Proof. by destruct a as [|x [|x' a]]. Qed.

Lemma broadcast_one_l {A B : Type} (x : A) (b : list B) :
  broadcast [x] b = Ok ((fun y => (x, y)) <$> b).
Proof. by destruct b as [|y [|y' b]]. Qed.

Lemma tensor_eq_one_r (a : list Z) (y : Z) :
  tensor_eq a [y] = Ok ((fun x => x =? y) <$> a).
Proof.
  unfold tensor_eq. rewrite broadcast_one_r. simpl.
  by rewrite <- list_fmap_compose.
Qed.

Lemma tensor_eq_one_l (x : Z) (b : list Z) :
  tensor_eq [x] b = Ok ((fun y => x =? y) <$> b).
Proof.
  unfold tensor_eq. rewrite broadcast_one_l. simpl.
  by rewrite <- list_fmap_compose.
Qed.

Lemma tensor_and_one_r (a : list bool) (y : bool) :
  tensor_and a [y] = Ok ((fun x => x && y) <$> a).
Proof.
  unfold tensor_and. rewrite broadcast_one_r. simpl.
  by rewrite <- list_fmap_compose.
Qed.

Lemma count_both_one (pred : list Z) (l a b : Z) :
  count_both pred [l] [a] [b] = Ok (count_pred pred l a b).
Proof.
  unfold count_both, count_pred. rewrite !tensor_eq_one_r. simpl.
  rewrite tensor_and_one_r. simpl. by rewrite <- list_fmap_compose.
Qed.

Lemma confusion_counts_one (gpu : bool) (pred : list Z) (l : Z) :
  confusion_counts gpu pred [l]
  = Ok (if gpu then confusion_of 0 1 pred l else confusion_of 1 0 pred l).
Proof.
  unfold confusion_counts. destruct gpu; simpl; by rewrite !count_both_one.
Qed.

Lemma accumulate_confusion_swap (observed : list (list Z * Z)) (m1 m2 : confusion) :
  TP m1 = TN m2 -> FP m1 = FN m2 -> TN m1 = TP m2 -> FN m1 = FP m2 ->
  exists m_gpu m_cpu,
    accumulate_confusion true observed m1 = Ok m_gpu
    /\ accumulate_confusion false observed m2 = Ok m_cpu
    /\ TP m_gpu = TN m_cpu /\ FP m_gpu = FN m_cpu
    /\ TN m_gpu = TP m_cpu /\ FN m_gpu = FP m_cpu.
Proof.
  revert m1 m2. induction observed as [|[pred l] observed IH]; intros m1 m2 H1 H2 H3 H4.
  - exists m1, m2. done.
  - unfold accumulate_confusion in *. cbn [for_each fst snd].
    rewrite !confusion_counts_one. simpl.
    apply IH; simpl; congruence.
Qed.

Section Testing.
Context {K : Carriers} {X : Externals K}.

(** The testing step with its tensor operations worked out: with a label
    tensor of one element no broadcast fails. *)
Lemma test_step_eq (g : globals) (a : Assignments K) (p : Proportions K)
    (batch : sample (Encoded K) (Complex K)) (t : test_state) :
  test_step (X:=X) g a p batch t
  = let* inputs := get_inputs (X:=X) g batch in
    let network' := network_run X (t_network t) inputs (time g) in
    let* record := setitem (X:=X) (t_spike_record t) 0 (spikes_Ae X network') in
    let l := long X (label batch) in
    let all_activity_pred := all_activity X record a (n_classes g) in
    let proportion_pred := proportion_weighting X record a p (n_classes g) in
    let* _ := if n_test g =? 0 then Err ZeroDivisionError else Ok tt in
    Ok {| t_network := reset_state_variables X network';
          t_spike_record := record;
          t_accuracy_all :=
            t_accuracy_all t + tensor_sum ((fun q => l =? q) <$> all_activity_pred);
          t_accuracy_proportion :=
            t_accuracy_proportion t
            + tensor_sum ((fun q => l =? q) <$> proportion_pred);
          confusion_matrix :=
            confusion_add (confusion_matrix t)
              (if gpu g then confusion_of 0 1 all_activity_pred l
               else confusion_of 1 0 all_activity_pred l);
          t_calls := (t_calls t ++ [CallRun inputs (time g)]) ++ [CallReset] |}.
Proof.
  unfold test_step. destruct (get_inputs g batch) as [inputs|e]; simpl; [| done].
  destruct (setitem _ _ _) as [record|e]; simpl; [| done].
  rewrite !tensor_eq_one_l. simpl. rewrite confusion_counts_one. done.
Qed.

(** The confusion matrix of a testing pass is accumulated from what the
    pass observes: all-activity predictions and labels. *)
Lemma test_each_confusion (g : globals) (a : Assignments K) (p : Proportions K)
    (data : list (sample (Encoded K) (Complex K))) (t t' : test_state) :
  test_each X g a p data t = Ok t' ->
  accumulate_confusion (gpu g)
    (observations X g a data (t_network t) (t_spike_record t))
    (confusion_matrix t)
  = Ok (confusion_matrix t').
Proof.
  revert t. induction data as [|b data IH]; intros t; simpl.
  - by intros [= <-].
  - intros H. bind_inv H. rewrite test_step_eq in E.
    bind_inv E. apply get_inputs_inv in E0 as [_ ->].
    simpl in E. bind_inv E. rewrite E0. bind_inv E. injection E as <-.
    apply IH in H. simpl in H.
    unfold accumulate_confusion in *. cbn [for_each fst snd].
    rewrite confusion_counts_one. simpl. exact H.
Qed.

End Testing.

(** C4.  With [gpu] set the positive reference tensor is all zeros and
    the negative one all ones; without it they are the other way round.
    So when a testing pass with [gpu] and one without observe the same
    sequence of labels and all-activity predictions, the TP count of the
    first is the TN count of the second and its FP count is the FN count
    of the second (and the same with the roles exchanged). *)
Theorem C4_gpu_swaps_classes {K : Carriers} {X : Externals K}
    (g_gpu g_cpu : globals) (a a' : Assignments K) (p p' : Proportions K)
    (data data' : list (sample (Encoded K) (Complex K)))
    (t t' r r' : test_state) (label_tensor : list Z) :
  gpu g_gpu = true -> gpu g_cpu = false ->
  n_test g_gpu = Z.of_nat (length data) ->
  n_test g_cpu = Z.of_nat (length data') ->
  confusion_matrix t = {| TP := 0; FP := 0; TN := 0; FN := 0 |} ->
  confusion_matrix t' = {| TP := 0; FP := 0; TN := 0; FN := 0 |} ->
  test_loop (X:=X) g_gpu a p 0 data t = Ok r ->
  test_loop (X:=X) g_cpu a' p' 0 data' t' = Ok r' ->
  observations X g_gpu a data (t_network t) (t_spike_record t)
  = observations X g_cpu a' data' (t_network t') (t_spike_record t') ->
  (P_tensor (gpu g_gpu) label_tensor = (fun _ => 0) <$> label_tensor
   /\ N_tensor (gpu g_gpu) label_tensor = (fun _ => 1) <$> label_tensor
   /\ P_tensor (gpu g_cpu) label_tensor = (fun _ => 1) <$> label_tensor
   /\ N_tensor (gpu g_cpu) label_tensor = (fun _ => 0) <$> label_tensor)
  /\ TP (confusion_matrix r) = TN (confusion_matrix r')
  /\ FP (confusion_matrix r) = FN (confusion_matrix r')
  /\ TN (confusion_matrix r) = TP (confusion_matrix r')
  /\ FN (confusion_matrix r) = FP (confusion_matrix r').
Proof.
  intros Hg Hc Hn Hn' Ht Ht' Hr Hr' Hobs.
  split; [rewrite Hg, Hc; done |].
  rewrite test_loop_all in Hr, Hr' by lia.
  apply test_each_confusion in Hr, Hr'.
  rewrite Hg, Ht in Hr. rewrite Hc, Ht', <- Hobs in Hr'.
  destruct (accumulate_confusion_swap
              (observations X g_gpu a data (t_network t) (t_spike_record t))
              {| TP := 0; FP := 0; TN := 0; FN := 0 |}
              {| TP := 0; FP := 0; TN := 0; FN := 0 |})
    as (m1 & m2 & E1 & E2 & H); try done.
  rewrite Hr in E1. rewrite Hr' in E2.
  injection E1 as <-. injection E2 as <-. exact H.
Qed.

(** Two testing passes over the instance's five samples, labelled 10 to
    14 except the second and fourth, which are labelled 0 and 1. *)
Lemma C4_gpu_swaps_classes_witness :
  exists r r',
    test_loop (X:=Toy.externals) (Toy.settings_gpu 3) tt tt 0
      (Toy.item <$> [10; 0; 12; 1; 14]) (Toy.test_start 3) = Ok r
    /\ test_loop (X:=Toy.externals) (Toy.settings 3) tt tt 0
         (Toy.item <$> [10; 0; 12; 1; 14]) (Toy.test_start 3) = Ok r'
    /\ TP (confusion_matrix r) = 3 /\ TN (confusion_matrix r') = 3
    /\ FP (confusion_matrix r) = 3 /\ FN (confusion_matrix r') = 3.
Proof.
  pose (data := Toy.item <$> [10; 0; 12; 1; 14]).
  destruct (test_loop (X:=Toy.externals) (Toy.settings_gpu 3) tt tt 0 data
              (Toy.test_start 3)) as [r|e] eqn:E1; [| vm_compute in E1; discriminate].
  destruct (test_loop (X:=Toy.externals) (Toy.settings 3) tt tt 0 data
              (Toy.test_start 3)) as [r'|e] eqn:E2; [| vm_compute in E2; discriminate].
  exists r, r'. split; [exact E1 |]. split; [exact E2 |].
  destruct (C4_gpu_swaps_classes (X:=Toy.externals) (Toy.settings_gpu 3)
              (Toy.settings 3) tt tt tt tt data data (Toy.test_start 3)
              (Toy.test_start 3) r r' [7] eq_refl eq_refl eq_refl eq_refl
              eq_refl eq_refl E1 E2 eq_refl) as (_ & H1 & H2 & _).
  vm_compute in E1. injection E1 as <-.
  vm_compute in E2. injection E2 as <-.
  repeat split.
Defined.

(** ** The two families of metrics *)

Lemma broadcast_same_length {A B : Type} (a : list A) (b : list B) :
  length a = length b -> broadcast a b = Ok (zip a b).
Proof. unfold broadcast. intros ->. by rewrite Nat.eqb_refl. Qed.

Lemma tensor_sum_cons (b : bool) (t : list bool) :
  tensor_sum (b :: t) = (if b then 1 else 0) + tensor_sum t.
Proof.
  unfold tensor_sum. destruct b.
  - rewrite filter_cons_True by done. simpl length. lia.
  - rewrite filter_cons_False by done. lia.
Qed.

(** Summing the element-wise comparison counts the positions that agree. *)
Lemma tensor_sum_agreeing (a b : list Z) :
  tensor_sum ((fun p => fst p =? snd p) <$> zip a b) = agreeing a b.
Proof.
  revert b. induction a as [|x a IH]; intros [|y b]; try done.
  cbn [zip zip_with fmap list_fmap agreeing fst snd].
  rewrite tensor_sum_cons, IH.
  destruct (Z.eqb_spec x y), (decide (x = y)); done.
Qed.

(** The percentage of the scoring block, for a prediction of as many
    elements as there are labels. *)
Lemma accuracy_percent_inv {K : Carriers} {X : Externals K}
    (label_tensor : list (Complex K)) (pred : list Z) (x : Float K) :
  length pred = length label_tensor ->
  accuracy_percent (X:=X) label_tensor pred = Ok x ->
  x = truediv X (100 * agreeing (long X <$> label_tensor) pred)
        (Z.of_nat (length label_tensor)).
Proof.
  intros Hlen. unfold accuracy_percent, tensor_eq.
  rewrite broadcast_same_length by (by rewrite length_fmap). simpl.
  rewrite tensor_sum_agreeing. unfold py_truediv.
  destruct (_ =? 0); [discriminate |]. by intros [= <-].
Qed.

Lemma test_loop_proportion_free {K : Carriers} (X : Externals K)
    (pw : buffer (Spikes K) -> Assignments K -> Proportions K -> Z -> list Z)
    (g : globals) (a : Assignments K) (p : Proportions K)
    (data : list (sample (Encoded K) (Complex K))) (step : nat)
    (t1 t2 : test_state) :
  without_proportion t1 = without_proportion t2 ->
  result_map without_proportion
    (test_loop (X:=set_proportion_weighting X pw) g a p step data t1)
  = result_map without_proportion (test_loop (X:=X) g a p step data t2).
Proof.
  revert step t1 t2. induction data as [|b data IH]; intros step t1 t2 H.
  - simpl. by rewrite H.
  - cbn [test_loop]. destruct (n_test g <? Z.of_nat step).
    { simpl. by rewrite H. }
    rewrite !test_step_eq.
    unfold without_proportion in H. injection H as Hnet Hrec Hall Hcm Hcalls.
    change (get_inputs (X:=set_proportion_weighting X pw) g b)
      with (get_inputs (X:=X) g b).
    destruct (get_inputs (X:=X) g b) as [inputs|e]; [| done].
    cbn. rewrite Hnet, Hrec.
    destruct (setitem _ _ _) as [record|e]; [| done].
    cbn. destruct (n_test g =? 0); [done |].
    cbn. apply IH. unfold without_proportion. cbn.
    by rewrite Hall, Hcm, Hcalls.
Qed.

(** C8.  Training: each scoring block appends one "all" and one
    "proportion" percentage to the two accuracy lists, each 100 times the
    number of accumulated labels that the prediction of its kind (one
    for each label) equals, over the number of labels.  Testing: each
    sample adds to the "all" and to the "proportion" counter the number
    of predictions of that kind equal to its label, and adds to the
    confusion matrix the four counts of its all-activity prediction.
    Whatever [proportion_weighting] predicts, a testing pass ends with
    the same confusion matrix (and the same everything else but the
    "proportion" counter). *)
Theorem C8_two_metric_families {K : Carriers} {X : Externals K}
    (g : globals) (a : Assignments K) (p : Proportions K) :
  (forall s s1,
     score (X:=X) g s = Ok s1 ->
     let all_activity_pred :=
       all_activity X (spike_record s) (assignments s) (n_classes g) in
     let proportion_pred :=
       proportion_weighting X (spike_record s) (assignments s) (proportions s)
         (n_classes g) in
     (exists acc_all acc_proportion,
        accuracy_percent (X:=X) (labels s) all_activity_pred = Ok acc_all
        /\ accuracy_percent (X:=X) (labels s) proportion_pred = Ok acc_proportion
        /\ accuracy_all s1 = accuracy_all s ++ [acc_all]
        /\ accuracy_proportion s1 = accuracy_proportion s ++ [acc_proportion])
     /\ (length all_activity_pred = length (labels s) ->
         accuracy_all s1
         = accuracy_all s
           ++ [truediv X
                 (100 * agreeing (long X <$> labels s) all_activity_pred)
                 (Z.of_nat (length (labels s)))])
     /\ (length proportion_pred = length (labels s) ->
         accuracy_proportion s1
         = accuracy_proportion s
           ++ [truediv X
                 (100 * agreeing (long X <$> labels s) proportion_pred)
                 (Z.of_nat (length (labels s)))]))
  /\ (forall batch t t',
        test_step (X:=X) g a p batch t = Ok t' ->
        let l := long X (label batch) in
        let all_activity_pred :=
          all_activity X (t_spike_record t') a (n_classes g) in
        let proportion_pred :=
          proportion_weighting X (t_spike_record t') a p (n_classes g) in
        t_accuracy_all t'
        = t_accuracy_all t + tensor_sum ((fun q => l =? q) <$> all_activity_pred)
        /\ t_accuracy_proportion t'
           = t_accuracy_proportion t
             + tensor_sum ((fun q => l =? q) <$> proportion_pred)
        /\ accumulate_confusion (gpu g) [(all_activity_pred, l)]
             (confusion_matrix t)
           = Ok (confusion_matrix t'))
  /\ (forall pw data t,
        result_map without_proportion
          (test_loop (X:=set_proportion_weighting X pw) g a p 0 data t)
        = result_map without_proportion (test_loop (X:=X) g a p 0 data t))
  /\ (forall pw data t,
        result_map confusion_matrix
          (test_loop (X:=set_proportion_weighting X pw) g a p 0 data t)
        = result_map confusion_matrix (test_loop (X:=X) g a p 0 data t)).
Proof.
  split; [| split; [| split]].
  - intros s s1 H all_activity_pred proportion_pred.
    apply score_inv in H as (x & y & H1 & H2 & H3 & H4 & _).
    split; [exists x, y; done |]. split.
    + intros Hlen. rewrite H3. by rewrite (accuracy_percent_inv _ _ x Hlen H1).
    + intros Hlen. rewrite H4. by rewrite (accuracy_percent_inv _ _ y Hlen H2).
  - intros batch t t' H. rewrite test_step_eq in H.
    bind_inv H. simpl in H. bind_inv H. bind_inv H. injection H as <-. simpl.
    split; [done |]. split; [done |].
    unfold accumulate_confusion. simpl. by rewrite confusion_counts_one.
  - intros pw data t. by apply test_loop_proportion_free.
  - intros pw data t.
    pose proof (test_loop_proportion_free X pw g a p data 0 t t eq_refl) as H.
    destruct (test_loop (X:=set_proportion_weighting X pw) g a p 0 data t)
      as [r1|e1], (test_loop (X:=X) g a p 0 data t) as [r2|e2];
      simpl in *; try congruence.
    injection H as _ _ _ Hcm _. by rewrite Hcm.
Qed.

(** The instance predicts 0 by all activity and 1 by proportion
    weighting: scoring the labels 0, 1, 0 appends 100 * 2 / 3 and
    100 * 1 / 3 (the instance divides with a floor).  With a
    [proportion_weighting] that predicts 0 instead, the testing pass over
    five samples ends with the same confusion matrix. *)
Lemma C8_two_metric_families_witness :
  (exists s1,
     score (X:=Toy.externals) (Toy.settings 3) Toy.scoring = Ok s1
     /\ accuracy_all s1 = [66] /\ accuracy_proportion s1 = [33])
  /\ result_map confusion_matrix
       (test_loop
          (X:=set_proportion_weighting Toy.externals
                (fun b _ _ _ => (fun _ => 0) <$> rows b))
          (Toy.settings 3) tt tt 0 (Toy.item <$> [10; 0; 12; 1; 14])
          (Toy.test_start 3))
     = Ok {| TP := 0; FP := 0; TN := 3; FN := 3 |}.
Proof.
  destruct (C8_two_metric_families (X:=Toy.externals) (Toy.settings 3) tt tt)
    as (H1 & _ & _ & H4).
  split.
  - destruct (score (X:=Toy.externals) (Toy.settings 3) Toy.scoring)
      as [s1|e] eqn:E; [| vm_compute in E; discriminate].
    exists s1. split; [reflexivity |].
    destruct (H1 Toy.scoring s1 E) as (_ & Ha & Hp).
    rewrite (Ha eq_refl), (Hp eq_refl). split; reflexivity.
  - rewrite H4. reflexivity.
Defined.

(** ** Labels and spike records within an epoch *)

Lemma mod_pred_pos (n u : Z) :
  0 < u -> n mod u <> 0 -> (n - 1) mod u = n mod u - 1.
Proof.
  intros Hu Hn. symmetry. apply (Z.mod_unique _ _ (n / u)).
  - pose proof (Z.mod_pos_bound n u Hu). lia.
  - pose proof (Z.div_mod n u). lia.
Qed.

Lemma mod_pred_zero (n u : Z) :
  0 < u -> n mod u = 0 -> (n - 1) mod u = u - 1.
Proof.
  intros Hu Hn. symmetry. apply (Z.mod_unique _ _ (n / u - 1)).
  - lia.
  - pose proof (Z.div_mod n u). lia.
Qed.

Lemma mod_window_ne (i j u : Z) :
  0 < u -> i < j < i + u -> i mod u <> j mod u.
Proof.
  intros Hu Hij E.
  pose proof (Z.div_mod i u). pose proof (Z.div_mod j u).
  assert (j - i = u * (j / u - i / u)) as Hd by lia.
  assert (0 < j / u - i / u < 1) by nia. lia.
Qed.

Lemma mod_sub_self (n u : Z) : 0 < u -> (n - u) mod u = n mod u.
Proof.
  intros Hu. replace (n - u) with (n + (-1) * u) by lia.
  apply Z.mod_add. lia.
Qed.

Section Epoch.
Context {K : Carriers} {X : Externals K}.

(** The labels a step leaves: those it found, dropped first at a
    positive multiple of the interval, and its own. *)
Lemma train_step_labels (g : globals) (step : nat)
    (batch : sample (Encoded K) (Complex K)) (s s' : state) :
  0 < update_interval g ->
  train_step (X:=X) g step batch s = Ok s' ->
  labels s'
  = (if (Z.of_nat step mod update_interval g =? 0) && (0 <? Z.of_nat step)
     then [] else labels s) ++ [label batch].
Proof.
  intros Hu H. apply train_step_inv in H as (_ & _ & s1 & H1 & H2).
  apply simulate_inv in H2 as (_ & _ & _ & Hl & _); [| done].
  rewrite Hl. destruct (_ && _).
  - apply score_inv in H1 as (_ & _ & _ & _ & _ & _ & _ & -> & _). done.
  - by injection H1 as <-.
Qed.

(** The row a step writes. *)
Lemma train_step_rows (g : globals) (step : nat)
    (batch : sample (Encoded K) (Complex K)) (s s' : state) :
  0 < update_interval g ->
  train_step (X:=X) g step batch s = Ok s' ->
  let i := Z.to_nat (Z.of_nat step mod update_interval g) in
  (i < length (rows (spike_record s)))%nat
  /\ rows (spike_record s') = <[i := recorded X g batch s]> (rows (spike_record s)).
Proof.
  intros Hu H. apply train_step_inv in H as (_ & _ & s1 & H1 & H2).
  apply simulate_inv in H2 as (Hlt & Hrows & _); [| done].
  assert (network s1 = network s /\ spike_record s1 = spike_record s) as [E1 E2].
  { destruct (_ && _).
    - by apply score_inv in H1 as (? & ? & _ & _ & _ & _ & _ & _ & ? & ? & _).
    - by injection H1 as <-. }
  unfold recorded. by rewrite <- E1, <- E2.
Qed.

Lemma train_each_snoc (g : globals) (pre : list (sample (Encoded K) (Complex K)))
    (batch : sample (Encoded K) (Complex K)) (s s' : state) :
  train_each X g 0 (pre ++ [batch]) s = Ok s' ->
  exists s1, train_each X g 0 pre s = Ok s1
             /\ train_step (X:=X) g (length pre) batch s1 = Ok s'.
Proof.
  rewrite train_each_app. intros H. bind_inv H. exists x. split; [done |].
  simpl in H. by destruct (train_step g (length pre) batch x).
Qed.

(** On entering step [n] of an epoch the label list holds the labels of
    the last [m] samples, [m] the number of steps since the list was
    last emptied. *)
Lemma labels_invariant (g : globals) (pre : list (sample (Encoded K) (Complex K)))
    (s0 s : state) :
  0 < update_interval g -> labels s0 = [] ->
  train_each X g 0 pre s0 = Ok s ->
  exists m : nat,
    labels s = label <$> drop (length pre - m) pre
    /\ (m <= length pre)%nat
    /\ Z.of_nat m
       = if Z.of_nat (length pre) =? 0 then 0
         else (Z.of_nat (length pre) - 1) mod update_interval g + 1.
Proof.
  intros Hu H0. revert s. induction pre as [|b pre IH] using rev_ind; intros s H.
  - injection H as <-. exists 0%nat. by rewrite H0.
  - apply train_each_snoc in H as (s1 & H1 & H2).
    destruct (IH s1 H1) as (m & Hl & Hm & Hc).
    apply train_step_labels in H2; [| done].
    rewrite length_app. simpl.
    set (n := length pre) in *.
    destruct (Z.eqb_spec (Z.of_nat (n + 1)) 0) as [|_]; [lia |].
    replace (Z.of_nat (n + 1) - 1) with (Z.of_nat n) by lia.
    destruct (Z.eqb_spec (Z.of_nat n mod update_interval g) 0) as [Hz|Hnz].
    + destruct (Z.ltb_spec 0 (Z.of_nat n)) as [Hpos|Hzero]; simpl in H2.
      * exists 1%nat. rewrite H2, Hz.
        replace (n + 1 - 1)%nat with n by lia.
        unfold n. rewrite drop_app_length. split; [done |]. lia.
      * assert (n = 0)%nat as Hn0 by lia.
        destruct pre; [| simpl in n; lia].
        injection H1 as <-. exists 1%nat. rewrite H2, H0, Hz.
        split; [done |]. simpl. lia.
    + simpl in H2.
      assert (0 < Z.of_nat n) as Hpos.
      { destruct (Z.eq_dec (Z.of_nat n) 0) as [E|E]; [| lia].
        rewrite E in Hnz. by rewrite Z.mod_0_l in Hnz by lia. }
      destruct (Z.eqb_spec (Z.of_nat n) 0) as [|_]; [lia |].
      rewrite mod_pred_pos in Hc by done.
      exists (S m). split; [| split; [| lia]].
      * rewrite H2, Hl.
        replace (n + 1 - S m)%nat with (n - m)%nat by lia.
        rewrite drop_app_le by (unfold n; lia).
        by rewrite fmap_app.
      * pose proof (Z.mod_pos_bound (Z.of_nat n) (update_interval g) Hu).
        pose proof (Z.mod_le (Z.of_nat n) (update_interval g)). lia.
Qed.

(** Within an epoch every one of the last [update_interval] steps has
    its record in the row of its index modulo the interval. *)
Lemma rows_invariant (g : globals) (pre : list (sample (Encoded K) (Complex K)))
    (s0 s : state) :
  0 < update_interval g ->
  Z.of_nat (length (rows (spike_record s0))) = update_interval g ->
  train_each X g 0 pre s0 = Ok s ->
  Z.of_nat (length (rows (spike_record s))) = update_interval g
  /\ forall (j : nat) old,
      Z.of_nat (length pre) - update_interval g <= Z.of_nat j ->
      pre !! j = Some old ->
      exists sj,
        train_each X g 0 (take j pre) s0 = Ok sj
        /\ rows (spike_record s) !! Z.to_nat (Z.of_nat j mod update_interval g)
           = Some (recorded X g old sj).
Proof.
  intros Hu H0. revert s. induction pre as [|b pre IH] using rev_ind; intros s H.
  - injection H as <-. split; [done |]. intros j old _ Hj. done.
  - apply train_each_snoc in H as (s1 & H1 & H2).
    destruct (IH s1 H1) as (Hlen & Hrows).
    apply train_step_rows in H2 as (Hlt & Hw); [| done].
    split; [by rewrite Hw, length_insert |].
    intros j old Hwin Hj. rewrite length_app in Hwin. simpl in Hwin.
    destruct (decide (j = length pre)) as [->|Hne].
    + rewrite list_lookup_middle in Hj by done. injection Hj as <-.
      rewrite take_app_length. exists s1. split; [done |].
      rewrite Hw. by apply list_lookup_insert_eq.
    + assert (j < length pre)%nat as Hjlt.
      { apply lookup_lt_Some in Hj. rewrite length_app in Hj. simpl in Hj. lia. }
      rewrite lookup_app_l in Hj by done.
      destruct (Hrows j old ltac:(lia) Hj) as (sj & Hsj & Hrow).
      exists sj. rewrite take_app_le by lia. split; [done |].
      rewrite Hw, list_lookup_insert_ne; [done |].
      intros E. apply Z2Nat.inj in E;
        try (apply Z.mod_pos_bound; lia).
      symmetry in E. revert E. apply mod_window_ne; lia.
Qed.

Lemma training_shape (g : globals)
    (train_data : list (sample (Encoded K) (Complex K))) (s s' : state) :
  training (X:=X) g train_data s = Ok s' ->
  shape (spike_record s') = shape (spike_record s).
Proof.
  unfold training. intros H. bind_inv H.
  destruct (n_epochs g <=? 0); [discriminate |]. injection H as <-.
  revert s E. induction (py_range (n_epochs g)) as [|e es IH]; intros s E.
  - by injection E as <-.
  - simpl in E. bind_inv E. apply IH in E. rewrite E.
    unfold train_epoch in E0. bind_inv E0. rewrite train_loop_guard in E0.
    by apply train_each_frame in E0 as [_ ->].
Qed.

End Epoch.

(** C2.  In an epoch of the training loop, consider the step whose index
    is the number of samples already stepped.  If that index is a
    positive multiple of [update_interval], the label list holds exactly
    the labels of the last [update_interval] samples; the step appends to
    each accuracy list one percentage computed from those labels and from
    the assignments and proportions as they stand (for a prediction of
    one value for each label: 100 times the number of those labels that
    the prediction at the same position equals, over [update_interval]),
    then takes the new
    assignments, proportions and rates from [assign_labels] on the spike
    record and those labels, then empties the label list (the sample's
    own label is appended afterwards).  At any other index, step 0
    included, none of this happens: the step only appends its label. *)
Theorem C2_scoring_at_intervals {K : Carriers} {X : Externals K}
    (g : globals) (pre : list (sample (Encoded K) (Complex K)))
    (batch : sample (Encoded K) (Complex K)) (s0 s s' : state) :
  0 < update_interval g ->
  labels s0 = [] ->
  Z.of_nat (length pre) <= n_train g ->
  train_loop (X:=X) g 0 pre s0 = Ok s ->
  train_step (X:=X) g (length pre) batch s = Ok s' ->
  let step := Z.of_nat (length pre) in
  (step mod update_interval g = 0 -> 0 < step ->
   labels s = label <$> drop (length pre - Z.to_nat (update_interval g)) pre
   /\ Z.of_nat (length (labels s)) = update_interval g
   /\ (exists acc_all acc_proportion,
         accuracy_percent (X:=X) (labels s)
           (all_activity X (spike_record s) (assignments s) (n_classes g))
         = Ok acc_all
         /\ accuracy_percent (X:=X) (labels s)
              (proportion_weighting X (spike_record s) (assignments s)
                 (proportions s) (n_classes g))
            = Ok acc_proportion
         /\ accuracy_all s' = accuracy_all s ++ [acc_all]
         /\ accuracy_proportion s' = accuracy_proportion s ++ [acc_proportion])
   /\ (forall pred,
         pred = all_activity X (spike_record s) (assignments s) (n_classes g) ->
         Z.of_nat (length pred) = update_interval g ->
         accuracy_all s'
         = accuracy_all s
           ++ [truediv X (100 * agreeing (long X <$> labels s) pred)
                 (update_interval g)])
   /\ (forall pred,
         pred = proportion_weighting X (spike_record s) (assignments s)
                  (proportions s) (n_classes g) ->
         Z.of_nat (length pred) = update_interval g ->
         accuracy_proportion s'
         = accuracy_proportion s
           ++ [truediv X (100 * agreeing (long X <$> labels s) pred)
                 (update_interval g)])
   /\ (assignments s', proportions s', rates s')
      = assign_labels X (spike_record s) (labels s) (n_classes g) (rates s)
   /\ labels s' = [label batch])
  /\ (step mod update_interval g <> 0 \/ step = 0 ->
      accuracy_all s' = accuracy_all s
      /\ accuracy_proportion s' = accuracy_proportion s
      /\ assignments s' = assignments s
      /\ proportions s' = proportions s
      /\ rates s' = rates s
      /\ labels s' = labels s ++ [label batch]).
Proof.
  intros Hu H0 Hn Hloop Hstep step.
  rewrite train_loop_all in Hloop by lia.
  destruct (labels_invariant g pre s0 s Hu H0 Hloop) as (m & Hl & Hm & Hc).
  apply train_step_inv in Hstep as (_ & _ & s1 & H1 & H2).
  apply simulate_inv in H2
    as (_ & _ & _ & Hl' & _ & Ha & Hp & Hasg & Hprop & Hrates & _); [| done].
  fold step in H1, Hc. split.
  - intros Hz Hpos.
    destruct (Z.eqb_spec (step mod update_interval g) 0); [| done].
    destruct (Z.ltb_spec 0 step); [| lia]. simpl in H1.
    destruct (Z.eqb_spec step 0); [lia |].
    rewrite mod_pred_zero in Hc by done.
    assert (m = Z.to_nat (update_interval g)) as -> by lia.
    apply score_inv in H1
      as (x & y & Hx & Hy & Hx' & Hy' & Hassign & Hempty & _).
    assert (Z.of_nat (length (labels s)) = update_interval g) as Hlen.
    { rewrite Hl, length_fmap, length_drop. lia. }
    split; [done |]. split; [done |].
    split.
    { exists x, y. rewrite Ha, Hp. done. }
    split.
    { intros pred -> Hpred. rewrite Ha, Hx', <- Hlen. do 2 f_equal.
      apply accuracy_percent_inv; [lia | done]. }
    split.
    { intros pred -> Hpred. rewrite Hp, Hy', <- Hlen. do 2 f_equal.
      apply accuracy_percent_inv; [lia | done]. }
    split; [by rewrite Hasg, Hprop, Hrates |].
    by rewrite Hl', Hempty.
  - intros Hcase.
    assert ((step mod update_interval g =? 0) && (0 <? step) = false) as E.
    { destruct Hcase as [Hnz | ->]; [| by rewrite andb_false_r].
      by destruct (Z.eqb_spec (step mod update_interval g) 0). }
    rewrite E in H1. injection H1 as <-. done.
Qed.

(** With the interval 3, step 3 scores the labels 0, 1, 0 of the three
    samples before it: against the instance's all-activity prediction 0
    two of three agree, against its proportion prediction 1 one does,
    and the instance divides with a floor. *)
Lemma C2_scoring_at_intervals_witness :
  exists s s',
    train_loop (X:=Toy.externals) (Toy.settings 3) 0 Toy.scored (Toy.start 3)
    = Ok s
    /\ train_step (X:=Toy.externals) (Toy.settings 3) 3 (Toy.item 13) s = Ok s'
    /\ labels s = [0; 1; 0]
    /\ accuracy_all s' = [66] /\ accuracy_proportion s' = [33]
    /\ labels s' = [13].
Proof.
  destruct (train_loop (X:=Toy.externals) (Toy.settings 3) 0 Toy.scored
              (Toy.start 3)) as [s|e] eqn:E1; [| vm_compute in E1; discriminate].
  destruct (train_step (X:=Toy.externals) (Toy.settings 3) 3 (Toy.item 13) s)
    as [s'|e] eqn:E2;
    [| vm_compute in E1; injection E1 as <-; vm_compute in E2; discriminate].
  exists s, s'. split; [reflexivity |]. split; [exact E2 |].
  destruct (C2_scoring_at_intervals (X:=Toy.externals) (Toy.settings 3)
              Toy.scored (Toy.item 13) (Toy.start 3) s s')
    as [H _]; [done | done | done | exact E1 | exact E2 |].
  destruct H as (Hl & _ & _ & Hall & Hprop & _ & Hl'); [done | done |].
  vm_compute in E1. injection E1 as <-.
  rewrite (Hall _ eq_refl eq_refl), (Hprop _ eq_refl eq_refl), Hl', Hl.
  repeat split.
Defined.

(** C6, as amended.  The spike record is allocated before the training
    loop with the shape (update_interval, time/dt, n_neurons), and no
    part of the training loop changes that shape.  The step with index
    [step] writes the spikes its run produced into row
    [step mod update_interval] and into no other row.  Within an epoch,
    each of the last [update_interval] steps has its record in the row of
    its index modulo the interval; so from index [update_interval] on the
    row about to be written holds the oldest record, that of the step
    [update_interval] before. *)
Theorem C6_spike_record {K : Carriers} {X : Externals K}
    (g : globals) (n_neurons : Z) (net : Net K) (s0 : state) :
  train_init (X:=X) g n_neurons net = Ok s0 ->
  shape (spike_record s0) = (update_interval g, time g ÷ dt g, n_neurons)
  /\ (forall train_data s',
        training (X:=X) g train_data s0 = Ok s' ->
        shape (spike_record s') = shape (spike_record s0))
  /\ (forall s step batch s',
        0 < update_interval g ->
        train_step (X:=X) g step batch s = Ok s' ->
        let i := Z.to_nat (Z.of_nat step mod update_interval g) in
        (i < length (rows (spike_record s)))%nat
        /\ rows (spike_record s')
           = <[i := recorded X g batch s]> (rows (spike_record s))
        /\ shape (spike_record s') = shape (spike_record s))
  /\ (forall s pre se,
        0 < update_interval g ->
        Z.of_nat (length (rows (spike_record s))) = update_interval g ->
        Z.of_nat (length pre) <= n_train g + 1 ->
        train_loop (X:=X) g 0 pre s = Ok se ->
        (forall (j : nat) old,
           Z.of_nat (length pre) - update_interval g <= Z.of_nat j ->
           pre !! j = Some old ->
           exists sj,
             train_loop (X:=X) g 0 (take j pre) s = Ok sj
             /\ rows (spike_record se)
                !! Z.to_nat (Z.of_nat j mod update_interval g)
                = Some (recorded X g old sj))
        /\ (update_interval g <= Z.of_nat (length pre) ->
            exists old sj,
              pre !! (length pre - Z.to_nat (update_interval g))%nat = Some old
              /\ train_loop (X:=X) g 0
                   (take (length pre - Z.to_nat (update_interval g)) pre) s
                 = Ok sj
              /\ rows (spike_record se)
                 !! Z.to_nat (Z.of_nat (length pre) mod update_interval g)
                 = Some (recorded X g old sj))).
Proof.
  intros Hinit. apply train_init_inv in Hinit as (_ & _ & _ & Hshape & _).
  split; [done |]. split; [| split].
  - intros train_data s' H. by apply training_shape in H.
  - intros s step batch s' Hu H.
    destruct (train_step_rows g step batch s s' Hu H) as [Hlt Hrows].
    split; [done |]. split; [done |]. by apply train_step_frame in H as [_ ?].
  - intros s pre se Hu Hlen Hn Hloop. rewrite train_loop_all in Hloop by done.
    destruct (rows_invariant g pre s se Hu Hlen Hloop) as [_ Hrows].
    assert (forall (j : nat) old,
              Z.of_nat (length pre) - update_interval g <= Z.of_nat j ->
              pre !! j = Some old ->
              exists sj,
                train_loop (X:=X) g 0 (take j pre) s = Ok sj
                /\ rows (spike_record se)
                   !! Z.to_nat (Z.of_nat j mod update_interval g)
                   = Some (recorded X g old sj)) as Hall.
    { intros j old Hj Hold. destruct (Hrows j old Hj Hold) as (sj & Hsj & Hrow).
      exists sj. split; [| done].
      rewrite train_loop_all; [done |]. rewrite length_take. lia. }
    split; [exact Hall |]. intros Hge.
    set (j := (length pre - Z.to_nat (update_interval g))%nat).
    assert (j < length pre)%nat as Hj by (unfold j; lia).
    destruct (lookup_lt_is_Some_2 pre j Hj) as [old Hold].
    destruct (Hall j old ltac:(unfold j; lia) Hold) as (sj & Hsj & Hrow).
    exists old, sj. split; [done |]. split; [done |].
    rewrite <- Hrow. f_equal. f_equal.
    replace (Z.of_nat j) with (Z.of_nat (length pre) - update_interval g)
      by (unfold j; lia).
    symmetry. by apply mod_sub_self.
Qed.

(** The instance's record for the interval 3, 500 time steps and 4
    neurons. *)
Lemma C6_spike_record_witness :
  shape (spike_record (Toy.start 3)) = (3, 500, 4).
Proof.
  destruct (C6_spike_record (X:=Toy.externals) (Toy.settings 3) 4 0%nat
              (Toy.start 3) eq_refl) as [H _].
  exact H.
Defined.

(** C6 as first stated fails at the start of a second epoch.  With the
    interval 3 and five samples, the first epoch leaves the records of
    its runs 4, 5 and 3 in the rows 0, 1 and 2 (the instance's network
    reports the number of the run).  Step 0 of the second epoch, run 6,
    then overwrites row 0, the record of run 4, although row 2 holds the
    older record of run 3. *)
Lemma C6_not_the_oldest_across_epochs :
  result_map (fun s => rows (spike_record s))
    (train_epoch (X:=Toy.externals) (Toy.settings 3) Toy.items 0 (Toy.start 3))
  = Ok [4; 5; 3]%nat
  /\ result_map (fun s => rows (spike_record s))
       (let* s := train_epoch (X:=Toy.externals) (Toy.settings 3) Toy.items 0
                    (Toy.start 3) in
        train_loop (X:=Toy.externals) (Toy.settings 3) 0 (take 1 Toy.items)
          (clear_labels s))
     = Ok [6; 5; 3]%nat.
Proof. split; reflexivity. Qed.

(** ** When the loops run to their end *)

(** The conditions under which the loops of the embedding return: what
    the script's own arithmetic, reshapes and row assignments need.  The
    network and the evaluation functions are taken to return. *)

Section Completion.
Context {K : Carriers} {X : Externals K}.

Lemma accuracy_percent_ok (label_tensor : list (Complex K)) (pred : list Z) :
  length label_tensor = length pred -> label_tensor <> [] ->
  exists x, accuracy_percent (X:=X) label_tensor pred = Ok x.
Proof.
  intros Hlen Hne. unfold accuracy_percent, tensor_eq.
  rewrite broadcast_same_length by (by rewrite length_fmap). simpl.
  unfold py_truediv. destruct (Z.eqb_spec (Z.of_nat (length label_tensor)) 0).
  - destruct label_tensor; [done | simpl in *; lia].
  - eauto.
Qed.

Lemma score_ok (g : globals) (s : state) :
  one_prediction_per_row X ->
  length (labels s) = length (rows (spike_record s)) -> labels s <> [] ->
  exists s1, score (X:=X) g s = Ok s1.
Proof.
  intros [Hall Hprop] Hlen Hne. unfold score.
  destruct (accuracy_percent_ok (labels s)
              (all_activity X (spike_record s) (assignments s) (n_classes g)))
    as [x ->]; [by rewrite Hall | done |].
  destruct (accuracy_percent_ok (labels s)
              (proportion_weighting X (spike_record s) (assignments s)
                 (proportions s) (n_classes g)))
    as [y ->]; [by rewrite Hprop | done |].
  simpl. destruct (assign_labels X _ _ _ _) as [[a' p'] r']. eauto.
Qed.

Lemma spikes_fit_shape (b b' : buffer (Spikes K)) :
  shape b' = shape b -> spikes_fit X (dims b) -> spikes_fit X (dims b').
Proof.
  unfold shape, spikes_fit. intros [= _ -> ->]. done.
Qed.

Lemma simulate_ok (g : globals) (step : nat) (inputs : Inputs K)
    (batch : sample (Encoded K) (Complex K)) (s : state) :
  0 < update_interval g -> fits_plots X g batch ->
  Z.of_nat (length (rows (spike_record s))) = update_interval g ->
  spikes_fit X (dims (spike_record s)) ->
  exists s', simulate (X:=X) g step inputs batch s = Ok s'.
Proof.
  intros Hu Hfit Hlen Hrow. unfold simulate.
  rewrite py_mod_ok by lia. simpl.
  rewrite setitem_ok;
    [| rewrite Hlen; apply Z.mod_pos_bound; lia | apply Hrow].
  simpl. destruct (plot g) eqn:Hp; [| simpl; eauto].
  rewrite plot_views_ok by done. simpl. eauto.
Qed.

Lemma train_step_ok (g : globals) (step : nat)
    (batch : sample (Encoded K) (Complex K)) (s : state) :
  0 < update_interval g -> dt g <> 0 ->
  fits_inputs X g batch -> fits_plots X g batch ->
  one_prediction_per_row X ->
  Z.of_nat (length (rows (spike_record s))) = update_interval g ->
  spikes_fit X (dims (spike_record s)) ->
  (Z.of_nat step mod update_interval g = 0 -> 0 < Z.of_nat step ->
   Z.of_nat (length (labels s)) = update_interval g) ->
  exists s', train_step (X:=X) g step batch s = Ok s'.
Proof.
  intros Hu Hdt Hfi Hfp Hc Hlen Hrow Hlab. unfold train_step.
  rewrite get_inputs_ok by done. simpl.
  rewrite py_mod_ok by lia. simpl.
  destruct (Z.eqb_spec (Z.of_nat step mod update_interval g) 0) as [Hz|_];
    [destruct (Z.ltb_spec 0 (Z.of_nat step)) as [Hpos|_] |]; simpl.
  - destruct (score_ok g s Hc) as [s1 Hs1].
    + specialize (Hlab Hz Hpos). lia.
    + specialize (Hlab Hz Hpos). destruct (labels s); [simpl in *; lia | done].
    + rewrite Hs1. simpl.
      apply score_inv in Hs1 as (_ & _ & _ & _ & _ & _ & _ & _ & _ & Hrec & _).
      apply simulate_ok; [done | done | |]; by rewrite Hrec.
  - by apply simulate_ok.
  - by apply simulate_ok.
Qed.

(** An epoch entered with an empty label list runs to its end. *)
Lemma train_each_ok (g : globals) (data : list (sample (Encoded K) (Complex K)))
    (s0 : state) :
  0 < update_interval g -> dt g <> 0 ->
  Forall (fun batch => fits_inputs X g batch /\ fits_plots X g batch) data ->
  one_prediction_per_row X ->
  Z.of_nat (length (rows (spike_record s0))) = update_interval g ->
  spikes_fit X (dims (spike_record s0)) ->
  labels s0 = [] ->
  exists s, train_each X g 0 data s0 = Ok s.
Proof.
  intros Hu Hdt Hfit Hc Hlen Hrow H0.
  induction data as [|b data IH] using rev_ind; [simpl; eauto |].
  apply Forall_app in Hfit as [Hfit [[Hfi Hfp] _]%Forall_cons].
  destruct (IH Hfit) as [s1 H1].
  destruct (labels_invariant g data s0 s1 Hu H0 H1) as (m & Hl & Hm & Hch).
  destruct (rows_invariant g data s0 s1 Hu Hlen H1) as [Hlen1 _].
  assert (spikes_fit X (dims (spike_record s1))) as Hrow1.
  { apply train_each_frame in H1 as [_ Hs]. by apply (spikes_fit_shape _ _ Hs). }
  destruct (train_step_ok g (length data) b s1 Hu Hdt Hfi Hfp Hc Hlen1 Hrow1)
    as [s' Hs'].
  - intros Hz Hpos. rewrite Hl, length_fmap, length_drop.
    destruct (Z.eqb_spec (Z.of_nat (length data)) 0); [lia |].
    rewrite mod_pred_zero in Hch by done. lia.
  - exists s'. rewrite train_each_app, H1. simpl. by rewrite Hs'.
Qed.

Lemma training_ok (g : globals)
    (train_data : list (sample (Encoded K) (Complex K))) (s : state) :
  0 < update_interval g -> dt g <> 0 -> progress_interval g <> 0 ->
  0 < n_epochs g ->
  Forall (fun batch => fits_inputs X g batch /\ fits_plots X g batch) train_data ->
  one_prediction_per_row X ->
  n_train g = Z.of_nat (length train_data) ->
  Z.of_nat (length (rows (spike_record s))) = update_interval g ->
  spikes_fit X (dims (spike_record s)) ->
  exists s', training (X:=X) g train_data s = Ok s'.
Proof.
  intros Hu Hdt Hp He Hfit Hc Hn Hlen Hrow. unfold training.
  assert (exists s', for_each (train_epoch (X:=X) g train_data)
                       (py_range (n_epochs g)) s = Ok s') as [s' ->].
  { revert s Hlen Hrow.
    induction (py_range (n_epochs g)) as [|e es IH]; intros s Hlen Hrow.
    - simpl. eauto.
    - simpl. unfold train_epoch at 1. rewrite py_mod_ok by done. simpl.
      rewrite train_loop_all by lia.
      destruct (train_each_ok g train_data (clear_labels s) Hu Hdt Hfit Hc Hlen
                  Hrow)
        as [s1 H1]; [done |].
      rewrite H1. simpl.
      apply train_each_frame in H1 as [_ Hs]. apply IH.
      + unfold shape in Hs. simpl in Hs. injection Hs as Hs _ _. lia.
      + by apply (spikes_fit_shape _ _ Hs). }
  simpl. destruct (Z.leb_spec (n_epochs g) 0); [lia | eauto].
Qed.

Lemma test_each_ok (g : globals) (a : Assignments K) (p : Proportions K)
    (data : list (sample (Encoded K) (Complex K))) (t : test_state) :
  dt g <> 0 -> n_test g <> 0 ->
  Forall (fits_inputs X g) data ->
  (0 < length (rows (t_spike_record t)))%nat ->
  spikes_fit X (dims (t_spike_record t)) ->
  exists t', test_each X g a p data t = Ok t'.
Proof.
  intros Hdt Hn Hfit. revert t.
  induction Hfit as [|b data Hb _ IH]; intros t Hlen Hrow.
  - simpl. eauto.
  - simpl. rewrite test_step_eq. rewrite get_inputs_ok by done. simpl.
    rewrite setitem_ok; [| lia | apply Hrow]. simpl.
    destruct (Z.eqb_spec (n_test g) 0); [done |]. simpl.
    apply IH; simpl; [by rewrite length_insert | done].
Qed.

End Completion.

Section Runs.
Context {K : Carriers} {X : Externals K}.

(** A step of the training loop runs the network once on the sample's
    inputs and resets it once. *)
Lemma train_step_network (g : globals) (step : nat)
    (batch : sample (Encoded K) (Complex K)) (s s' : state) :
  train_step (X:=X) g step batch s = Ok s' ->
  network s' = run_sample X g (network s) batch.
Proof.
  intros H. apply train_step_inv in H as (_ & _ & s1 & H1 & H2).
  assert (network s1 = network s) as <-.
  { destruct (_ && _).
    - by apply score_inv in H1 as (? & ? & _ & _ & _ & _ & _ & _ & ? & _).
    - by injection H1 as <-. }
  unfold simulate in H2. bind_inv H2. bind_inv H2. bind_inv H2.
  by injection H2 as <-.
Qed.

Lemma train_each_network (g : globals)
    (data : list (sample (Encoded K) (Complex K))) (step : nat) (s s' : state) :
  train_each X g step data s = Ok s' ->
  network s' = foldl (run_sample X g) (network s) data.
Proof.
  revert step s. induction data as [|b data IH]; intros step s H.
  - by injection H as <-.
  - simpl in H. bind_inv H. apply train_step_network in E.
    apply IH in H. simpl. by rewrite <- E.
Qed.

Lemma epochs_network (g : globals)
    (train_data : list (sample (Encoded K) (Complex K))) (epochs : list Z)
    (s s' : state) :
  n_train g = Z.of_nat (length train_data) ->
  for_each (train_epoch (X:=X) g train_data) epochs s = Ok s' ->
  network s'
  = foldl (run_sample X g) (network s)
      (mjoin (replicate (length epochs) train_data)).
Proof.
  intros Hn. revert s. induction epochs as [|e epochs IH]; intros s H.
  - by injection H as <-.
  - simpl in H. bind_inv H. unfold train_epoch in E. bind_inv E.
    rewrite train_loop_all in E by lia. apply train_each_network in E.
    apply IH in H. simpl in *. by rewrite foldl_app, <- E.
Qed.

Lemma training_network (g : globals)
    (train_data : list (sample (Encoded K) (Complex K))) (s s' : state) :
  n_train g = Z.of_nat (length train_data) ->
  training (X:=X) g train_data s = Ok s' ->
  network s'
  = foldl (run_sample X g) (network s)
      (mjoin (replicate (Z.to_nat (n_epochs g)) train_data)).
Proof.
  intros Hn. unfold training. intros H. bind_inv H.
  destruct (n_epochs g <=? 0); [discriminate |]. injection H as <-.
  apply epochs_network in E; [| done]. by rewrite py_range_length in E.
Qed.

Lemma test_each_network (g : globals) (a : Assignments K) (p : Proportions K)
    (data : list (sample (Encoded K) (Complex K))) (t t' : test_state) :
  test_each X g a p data t = Ok t' ->
  t_network t' = foldl (run_sample X g) (t_network t) data.
Proof.
  revert t. induction data as [|b data IH]; intros t H.
  - by injection H as <-.
  - simpl in H. bind_inv H. apply IH in H. simpl. rewrite H. f_equal.
    rewrite test_step_eq in E. bind_inv E.
    apply get_inputs_inv in E0 as [_ ->]. simpl in E. bind_inv E. bind_inv E.
    by injection E as <-.
Qed.

End Runs.

(** C7.  Whenever a training run (all its epochs) or a testing pass runs
    to its end, the network it leaves is the one it started from taken
    through every sample in order, each sample by exactly one
    [network.run] on its inputs with the [time] the script was started
    with and then one reset of the state variables; in training the
    samples are those of the training split once for every epoch.  The
    log of calls agrees: a run, the plots when training with [plot], a
    reset, sample after sample, so each reset comes before the next
    sample's run. *)
Theorem C7_one_run_per_sample {K : Carriers} {X : Externals K}
    (g : globals) (a : Assignments K) (p : Proportions K)
    (train_data test_data : list (sample (Encoded K) (Complex K)))
    (s : state) (t : test_state) :
  n_train g = Z.of_nat (length train_data) ->
  n_test g = Z.of_nat (length test_data) ->
  (forall s',
     training (X:=X) g train_data s = Ok s' ->
     network s'
     = foldl
         (fun net batch =>
            reset_state_variables X
              (network_run X net (inputs_of X g batch) (time g)))
         (network s) (mjoin (replicate (Z.to_nat (n_epochs g)) train_data))
     /\ calls s'
        = calls s
          ++ mjoin (replicate (Z.to_nat (n_epochs g))
                      (train_data ≫= fun batch =>
                         [CallRun (inputs_of X g batch) (time g)]
                         ++ (if plot g then [CallPlot] else []) ++ [CallReset])))
  /\ (forall t',
        test_loop (X:=X) g a p 0 test_data t = Ok t' ->
        t_network t'
        = foldl
            (fun net batch =>
               reset_state_variables X
                 (network_run X net (inputs_of X g batch) (time g)))
            (t_network t) test_data
        /\ t_calls t'
           = t_calls t
             ++ (test_data ≫= fun batch =>
                   [CallRun (inputs_of X g batch) (time g); CallReset]))
  /\ forall (args : Args (Float K)) tr te n_classes num_inputs,
      time (make_globals (X:=X) args tr te n_classes num_inputs) = a_time args.
Proof.
  intros Hn Ht. split; [| split; [| done]].
  - intros s' Htrain. split.
    + by apply training_network.
    + by apply training_frame in Htrain as (_ & Hc & _).
  - intros t' Htest. rewrite test_loop_all in Htest by lia. split.
    + by apply (test_each_network g a p).
    + by apply test_each_frame in Htest as [Hc _].
Qed.

(** Two epochs over five samples and a test pass over the same five.
    The instance's network counts its runs: ten in training, five in
    testing; and the logs hold ten runs and ten resets, five and five. *)
Lemma C7_one_run_per_sample_witness :
  exists s' t',
    training (X:=Toy.externals) (Toy.settings 3) Toy.items (Toy.start 3) = Ok s'
    /\ test_loop (X:=Toy.externals) (Toy.settings 3) tt tt 0 Toy.items
         (Toy.test_start 3) = Ok t'
    /\ network s' = 10%nat /\ t_network t' = 5%nat
    /\ length (calls s') = 20%nat /\ length (t_calls t') = 10%nat.
Proof.
  destruct (C7_one_run_per_sample (X:=Toy.externals) (Toy.settings 3) tt tt
              Toy.items Toy.items (Toy.start 3) (Toy.test_start 3)
              eq_refl eq_refl) as (H1 & H2 & _).
  destruct (training (X:=Toy.externals) (Toy.settings 3) Toy.items (Toy.start 3))
    as [s'|e] eqn:E1; [| vm_compute in E1; discriminate].
  destruct (test_loop (X:=Toy.externals) (Toy.settings 3) tt tt 0 Toy.items
              (Toy.test_start 3)) as [t'|e] eqn:E2;
    [| vm_compute in E2; discriminate].
  exists s', t'. split; [reflexivity |]. split; [reflexivity |].
  destruct (H1 s' eq_refl) as [Hnet Hcalls].
  destruct (H2 t' eq_refl) as [Htnet Htcalls].
  rewrite Hnet, Htnet, Hcalls, Htcalls. repeat split.
Defined.

(** * Further properties of the script *)

(** ** The feature vector *)

Lemma py_slice_ext {A : Type} (a b : nat) (l1 l2 : list A) :
  (forall i, (a <= i < b)%nat -> l1 !! i = l2 !! i) ->
  py_slice a b l1 = py_slice a b l2.
Proof.
  intros H. apply list_eq. intros i. unfold py_slice.
  destruct (decide (i < b - a)%nat) as [Hi|Hi].
  - rewrite !lookup_take_lt, !lookup_drop by done. apply H. lia.
  - rewrite !lookup_take_ge by lia. done.
Qed.

(** X1.  The feature vector of a line depends only on the tokens at the
    indices 16 to 79, 96 to 159 and 192 to len-2: two token lists of the
    same length that agree there give the same datum (or both raise).
    The tokens at 0 to 15, 80 to 95 and 160 to 191 and the label are
    never read for it. *)
Theorem X1_features_ignore_other_tokens {K : Carriers} {X : Externals K}
    (intensity : Float K) (l1 l2 : list (Complex K)) :
  length l1 = length l2 ->
  (forall i, (16 <= i < 80 \/ 96 <= i < 160 \/ 192 <= i < length l1 - 1)%nat ->
             l1 !! i = l2 !! i) ->
  linedata_intensity (X:=X) intensity l1 = linedata_intensity (X:=X) intensity l2.
Proof.
  intros Hlen Hagree.
  destruct (Nat.lt_ge_cases (length l1) 258) as [Hshort|Hlong].
  { rewrite !linedata_intensity_short; [done | lia | lia]. }
  unfold linedata_intensity. rewrite <- Hlen.
  rewrite (py_slice_ext 16 80 l1 l2) by (intros i Hi; apply Hagree; lia).
  rewrite (py_slice_ext 96 160 l1 l2) by (intros i Hi; apply Hagree; lia).
  rewrite (py_slice_ext 192 256 l1 l2) by (intros i Hi; apply Hagree; lia).
  rewrite (py_slice_ext 256 (length l1 - 1) l1 l2)
    by (intros i Hi; apply Hagree; lia).
  done.
Qed.

(** Two lines of 321 numbers that differ in their first sixteen values
    and in their label have the same datum. *)
Lemma X1_features_ignore_other_tokens_witness :
  linedata_intensity (X:=Toy.externals) 18
    (replicate 16 9 ++ replicate 304 7 ++ [1])
  = linedata_intensity (X:=Toy.externals) 18
      (replicate 16 3 ++ replicate 304 7 ++ [0]).
Proof.
  apply (X1_features_ignore_other_tokens (X:=Toy.externals)).
  - reflexivity.
  - intros i Hi.
    assert (16 <= i < 320)%nat as Hi'
      by (rewrite !length_app, !length_replicate in Hi; cbn [length] in Hi; lia).
    rewrite (lookup_app_r (replicate 16 9)), (lookup_app_r (replicate 16 3))
      by (rewrite length_replicate; lia).
    rewrite !length_replicate.
    rewrite !lookup_app_l by (rewrite length_replicate; lia). done.
Defined.

(** ** The lines a file may have *)

Section Accepted.
Context {K : Carriers} {X : Externals K}.

(** What a line read without raising does to the two lists. *)
Lemma process_line_effect (e : encoder) (time dt : Z) (intensity : Float K)
    (line : text) (p p' : parsed) :
  process_line (X:=X) (Some e) time dt intensity line p = Ok p' ->
  accepted_line X line
  /\ ((yields_sample X line = false /\ p' = p)
      \/ (yields_sample X line = true
          /\ exists s, wave_data p' = wave_data p ++ [s]
                       /\ classes p' = classes p ++ [label s])).
Proof.
  rewrite process_line_eq. intros H.
  destruct line as [|c line']; [discriminate |].
  unfold accepted_line, yields_sample. cbn [py_first].
  destruct (N.eqb_spec c 35) as [->|Hc].
  { injection H as <-. split; [exists 35%N; auto | auto]. }
  destruct (parse_tokens (X:=X) (split (c :: line'))) as [linedata|err] eqn:Hp;
    [| discriminate].
  destruct linedata as [|z zs] eqn:E.
  { injection H as <-. split; [| left; done].
    exists c. split; [done |]. right. exists []. auto. }
  rewrite <- E in *.
  apply process_tokens_inv in H as (Hge & Hfin & e' & cl & _ & Hcl & _ & ->).
  split.
  - exists c. split; [done |]. right. exists linedata. auto.
  - right. split; [by apply Nat.leb_le |]. simpl. eauto.
Qed.

Lemma process_line_accepted (e : encoder) (time dt : Z) (intensity : Float K)
    (line : text) (p : parsed) :
  (forall calls datum, enc_error X (enc_kind e) calls datum time dt = None) ->
  accepted_line X line ->
  exists p', process_line (X:=X) (Some e) time dt intensity line p = Ok p'.
Proof.
  intros Henc (c & Hc & [-> | (linedata & Hp & Hl)]).
  - exists p. by apply process_line_comment.
  - destruct (N.eq_dec c 35%N) as [->|Hne].
    { exists p. by apply process_line_comment. }
    rewrite (process_line_tokens (Some e) time dt intensity line c p linedata
               Hc Hne Hp).
    destruct Hl as [-> | [Hlen Hfin]]; [eauto |].
    assert (is_Some (last linedata)) as [cl Hcl].
    { apply last_is_Some. intros ->. simpl in Hlen. lia. }
    destruct linedata; [simpl in Hlen; lia |].
    rewrite (process_tokens_ok e time dt intensity _ cl p Hlen Hcl Hfin (Henc _ _)).
    eauto.
Qed.

Lemma parse_from_effect (e : encoder) (time dt : Z) (intensity : Float K)
    (f : list text) (p0 p : parsed) :
  for_each (process_line (X:=X) (Some e) time dt intensity) f p0 = Ok p ->
  Forall (accepted_line X) f
  /\ length (wave_data p)
     = (length (wave_data p0)
        + length (filter (fun l => yields_sample X l = true) f))%nat
  /\ (classes p0 = label <$> wave_data p0 -> classes p = label <$> wave_data p).
Proof.
  revert p0. induction f as [|line f IH]; intros p0 H.
  - injection H as <-. split; [constructor |]. split; [simpl; lia | done].
  - simpl in H. bind_inv H.
    apply process_line_effect in E as [Hacc Heff].
    destruct (IH x H) as (Hall & Hlen & Hcl).
    split; [by constructor |].
    destruct Heff as [[Hy ->] | (Hy & s & Hw & Hc)].
    + rewrite filter_cons_False by congruence. done.
    + rewrite filter_cons_True by done. split.
      * rewrite Hlen, Hw, length_app. simpl. lia.
      * intros H0. apply Hcl. rewrite Hw, Hc, fmap_app, H0. done.
Qed.

Lemma parse_from_accepted (e : encoder) (time dt : Z) (intensity : Float K)
    (f : list text) (p0 : parsed) :
  (forall calls datum, enc_error X (enc_kind e) calls datum time dt = None) ->
  Forall (accepted_line X) f ->
  exists p, for_each (process_line (X:=X) (Some e) time dt intensity) f p0 = Ok p.
Proof.
  intros Henc H. revert p0. induction H as [|line f Hline _ IH]; intros p0.
  - simpl. eauto.
  - simpl.
    destruct (process_line_accepted e time dt intensity line p0 Henc Hline)
      as [p' ->].
    simpl. apply IH.
Qed.

End Accepted.

(** X2.  With an encoder bound, the file loop reads a file to its end
    only if every line is a comment, a line without tokens, or a line of
    at least 258 numbers none of whose FFT magnitudes is beyond the
    float range; any other line raises.  The samples then number as many
    as the lines of the third kind, and [classes] holds their labels in
    the same order.  Conversely a file of such lines is read to its end,
    provided the encoder's [enc] does not raise. *)
Theorem X2_accepted_files {K : Carriers} {X : Externals K}
    (e : encoder) (time dt : Z) (intensity : Float K) (f : list text) :
  (forall p,
     parse_file (X:=X) (Some e) time dt intensity f = Ok p ->
     Forall (accepted_line X) f
     /\ length (wave_data p)
        = length (filter (fun l => yields_sample X l = true) f)
     /\ classes p = label <$> wave_data p)
  /\ ((forall calls datum, enc_error X (enc_kind e) calls datum time dt = None) ->
      Forall (accepted_line X) f ->
      exists p, parse_file (X:=X) (Some e) time dt intensity f = Ok p).
Proof.
  split.
  - intros p H. apply parse_from_effect in H as (Hacc & Hlen & Hcl).
    split; [done |]. split; [exact Hlen | by apply Hcl].
  - intros Henc H. by apply parse_from_accepted.
Qed.

(** The instance's file: six lines, four of them samples. *)
Lemma X2_accepted_files_witness :
  result_map (fun p => (length (wave_data p), classes p))
    (parse_file (X:=Toy.externals) (Some Toy.poisson) 500 1 18 Toy.file)
  = Ok (4%nat, [1; 0; 0; 1]).
Proof.
  destruct (X2_accepted_files (X:=Toy.externals) Toy.poisson 500 1 18 Toy.file)
    as [H _].
  destruct (parse_file (X:=Toy.externals) (Some Toy.poisson) 500 1 18 Toy.file)
    as [p|err] eqn:E; [| vm_compute in E; discriminate].
  destruct (H p eq_refl) as (_ & Hlen & Hcl). simpl. f_equal. f_equal.
  - etransitivity; [exact Hlen | reflexivity].
  - vm_compute in E. injection E as <-. reflexivity.
Defined.

(** ** How often, and on what, the training loop scores *)

Lemma div_pred_zero (n u : Z) :
  0 < u -> n mod u = 0 -> (n - 1) / u = n / u - 1.
Proof.
  intros Hu Hn. symmetry. apply (Z.div_unique _ _ _ (u - 1)); [lia |].
  pose proof (Z.div_mod n u). lia.
Qed.

Lemma div_pred_pos (n u : Z) :
  0 < u -> n mod u <> 0 -> (n - 1) / u = n / u.
Proof.
  intros Hu Hn. symmetry. apply (Z.div_unique _ _ _ (n mod u - 1)).
  - pose proof (Z.mod_pos_bound n u Hu). lia.
  - pose proof (Z.div_mod n u). lia.
Qed.

Lemma scorings_succ (u n : Z) :
  0 < u -> 0 <= n ->
  scorings u (n + 1)
  = scorings u n + (if (n mod u =? 0) && (0 <? n) then 1 else 0).
Proof.
  intros Hu Hn. unfold scorings.
  destruct (Z.eqb_spec (n + 1) 0); [lia |].
  replace (n + 1 - 1) with n by lia.
  destruct (Z.eqb_spec n 0) as [->|Hpos].
  { rewrite Z.mod_0_l, Z.div_0_l by lia. done. }
  destruct (Z.ltb_spec 0 n); [| lia].
  destruct (Z.eqb_spec (n mod u) 0) as [Hz|Hnz]; simpl.
  - rewrite div_pred_zero by done. lia.
  - rewrite div_pred_pos by done. lia.
Qed.

Section Scoring.
Context {K : Carriers} {X : Externals K}.

(** What a step does to everything the scoring block assigns. *)
Lemma train_step_scored (g : globals) (step : nat)
    (batch : sample (Encoded K) (Complex K)) (s s' : state) :
  0 < update_interval g ->
  train_step (X:=X) g step batch s = Ok s' ->
  if (Z.of_nat step mod update_interval g =? 0) && (0 <? Z.of_nat step)
  then length (accuracy_all s') = S (length (accuracy_all s))
       /\ length (accuracy_proportion s') = S (length (accuracy_proportion s))
  else accuracy_all s' = accuracy_all s
       /\ accuracy_proportion s' = accuracy_proportion s
       /\ assignments s' = assignments s
       /\ proportions s' = proportions s
       /\ rates s' = rates s.
Proof.
  intros Hu H. apply train_step_inv in H as (_ & _ & s1 & H1 & H2).
  apply simulate_inv in H2
    as (_ & _ & _ & _ & _ & Ha & Hp & Hasg & Hprop & Hrates & _); [| done].
  destruct (_ && _).
  - apply score_inv in H1 as (x & y & _ & _ & Hx & Hy & _).
    rewrite Ha, Hp, Hx, Hy, !length_app. simpl. lia.
  - injection H1 as <-. done.
Qed.

Lemma train_each_scorings (g : globals)
    (pre : list (sample (Encoded K) (Complex K))) (s0 s : state) :
  0 < update_interval g ->
  train_each X g 0 pre s0 = Ok s ->
  Z.of_nat (length (accuracy_all s))
  = Z.of_nat (length (accuracy_all s0))
    + scorings (update_interval g) (Z.of_nat (length pre))
  /\ Z.of_nat (length (accuracy_proportion s))
     = Z.of_nat (length (accuracy_proportion s0))
       + scorings (update_interval g) (Z.of_nat (length pre)).
Proof.
  intros Hu. revert s. induction pre as [|b pre IH] using rev_ind; intros s H.
  - injection H as <-. unfold scorings. simpl. lia.
  - apply train_each_snoc in H as (s1 & H1 & H2).
    destruct (IH s1 H1) as [Ha Hp].
    apply train_step_scored in H2; [| done].
    rewrite length_app. simpl.
    replace (Z.of_nat (length pre + 1)) with (Z.of_nat (length pre) + 1) by lia.
    rewrite scorings_succ by lia.
    destruct (_ && _).
    + destruct H2 as [-> ->]. lia.
    + destruct H2 as (-> & -> & _). lia.
Qed.

Lemma epochs_scorings (g : globals)
    (train_data : list (sample (Encoded K) (Complex K))) (epochs : list Z)
    (s s' : state) :
  0 < update_interval g ->
  n_train g = Z.of_nat (length train_data) ->
  for_each (train_epoch (X:=X) g train_data) epochs s = Ok s' ->
  Z.of_nat (length (accuracy_all s'))
  = Z.of_nat (length (accuracy_all s))
    + Z.of_nat (length epochs)
      * scorings (update_interval g) (Z.of_nat (length train_data))
  /\ Z.of_nat (length (accuracy_proportion s'))
     = Z.of_nat (length (accuracy_proportion s))
       + Z.of_nat (length epochs)
         * scorings (update_interval g) (Z.of_nat (length train_data)).
Proof.
  intros Hu Hn. revert s. induction epochs as [|e epochs IH]; intros s H.
  - injection H as <-. simpl. lia.
  - simpl in H. bind_inv H. unfold train_epoch in E. bind_inv E.
    rewrite train_loop_all in E by lia.
    apply train_each_scorings in E as [Ea Ep]; [| done]. simpl in Ea, Ep.
    destruct (IH x H) as [Ha Hp]. cbn [length]. lia.
Qed.

(** A pass over at most [update_interval] samples never scores. *)
Lemma train_each_unscored (g : globals)
    (data : list (sample (Encoded K) (Complex K))) (step : nat) (s s' : state) :
  0 < update_interval g ->
  Z.of_nat (step + length data) <= update_interval g ->
  train_each X g step data s = Ok s' ->
  accuracy_all s' = accuracy_all s
  /\ accuracy_proportion s' = accuracy_proportion s
  /\ assignments s' = assignments s
  /\ proportions s' = proportions s
  /\ rates s' = rates s.
Proof.
  intros Hu. revert step s. induction data as [|b data IH]; intros step s Hle H.
  - by injection H as <-.
  - simpl in H. bind_inv H. simpl in Hle.
    apply train_step_scored in E; [| done].
    assert ((Z.of_nat step mod update_interval g =? 0) && (0 <? Z.of_nat step)
            = false) as Hc.
    { rewrite Z.mod_small by lia.
      destruct (Z.eqb_spec (Z.of_nat step) 0) as [->|]; [done | done]. }
    rewrite Hc in E. destruct E as (E1 & E2 & E3 & E4 & E5).
    apply IH in H; [| lia].
    destruct H as (H1 & H2 & H3 & H4 & H5). by rewrite H1, H2, H3, H4, H5.
Qed.

End Scoring.

(** X3.  A training run that completes has appended to each accuracy
    list one percentage for every positive multiple of [update_interval]
    below the size of the training split, in every epoch: with [n]
    samples, [(n - 1) / update_interval] in an epoch (none for [n = 0]).
    The samples after the last such index of an epoch are never scored. *)
Theorem X3_number_of_scorings {K : Carriers} {X : Externals K}
    (g : globals) (train_data : list (sample (Encoded K) (Complex K)))
    (s s' : state) :
  0 < update_interval g ->
  n_train g = Z.of_nat (length train_data) ->
  training (X:=X) g train_data s = Ok s' ->
  Z.of_nat (length (accuracy_all s'))
  = Z.of_nat (length (accuracy_all s))
    + n_epochs g * scorings (update_interval g) (Z.of_nat (length train_data))
  /\ Z.of_nat (length (accuracy_proportion s'))
     = Z.of_nat (length (accuracy_proportion s))
       + n_epochs g * scorings (update_interval g) (Z.of_nat (length train_data)).
Proof.
  intros Hu Hn H. unfold training in H. bind_inv H.
  destruct (Z.leb_spec (n_epochs g) 0); [discriminate |]. injection H as <-.
  apply epochs_scorings in E; [| done | done].
  rewrite py_range_length in E. by rewrite Z2Nat.id in E by lia.
Qed.

(** Two epochs over five samples with the interval 3: one scoring an
    epoch, at step 3; the samples 3 and 4 are not scored. *)
Lemma X3_number_of_scorings_witness :
  exists s',
    training (X:=Toy.externals) (Toy.settings 3) Toy.items (Toy.start 3) = Ok s'
    /\ length (accuracy_all s') = 2%nat.
Proof.
  destruct (training (X:=Toy.externals) (Toy.settings 3) Toy.items (Toy.start 3))
    as [s'|e] eqn:E; [| vm_compute in E; discriminate].
  exists s'. split; [reflexivity |].
  destruct (X3_number_of_scorings (X:=Toy.externals) (Toy.settings 3) Toy.items
              (Toy.start 3) s') as [H _]; [done | done | exact E |].
  apply Nat2Z.inj. rewrite H. reflexivity.
Defined.

(** X4.  When the training split has at most [update_interval] samples,
    no step index is a positive multiple of the interval: a training run
    that completes, whatever its number of epochs, leaves the
    assignments, proportions and rates as they were and both accuracy
    lists as they were. *)
Theorem X4_short_split_never_scores {K : Carriers} {X : Externals K}
    (g : globals) (train_data : list (sample (Encoded K) (Complex K)))
    (s s' : state) :
  0 < update_interval g ->
  Z.of_nat (length train_data) <= update_interval g ->
  training (X:=X) g train_data s = Ok s' ->
  assignments s' = assignments s
  /\ proportions s' = proportions s
  /\ rates s' = rates s
  /\ accuracy_all s' = accuracy_all s
  /\ accuracy_proportion s' = accuracy_proportion s.
Proof.
  intros Hu Hle H. unfold training in H. bind_inv H.
  destruct (n_epochs g <=? 0); [discriminate |]. injection H as <-.
  revert s E. induction (py_range (n_epochs g)) as [|e es IH]; intros s E.
  - by injection E as <-.
  - simpl in E. bind_inv E. unfold train_epoch in E0. bind_inv E0.
    rewrite train_loop_guard in E0.
    apply train_each_unscored in E0; [| done | rewrite length_take; lia].
    simpl in E0. destruct E0 as (F1 & F2 & F3 & F4 & F5).
    destruct (IH _ E) as (H1 & H2 & H3 & H4 & H5).
    by rewrite H1, H2, H3, H4, H5, F1, F2, F3, F4, F5.
Qed.

(** Two epochs over five samples with the interval 5: nothing is scored. *)
Lemma X4_short_split_never_scores_witness :
  exists s',
    training (X:=Toy.externals) (Toy.settings 5) Toy.items (Toy.start 5) = Ok s'
    /\ accuracy_all s' = [] /\ accuracy_proportion s' = [].
Proof.
  destruct (training (X:=Toy.externals) (Toy.settings 5) Toy.items (Toy.start 5))
    as [s'|e] eqn:E; [| vm_compute in E; discriminate].
  exists s'. split; [reflexivity |].
  destruct (X4_short_split_never_scores (X:=Toy.externals) (Toy.settings 5)
              Toy.items (Toy.start 5) s')
    as (_ & _ & _ & H1 & H2); [done | done | exact E |].
  split; [exact H1 | exact H2].
Defined.

(** X5.  When a step of an epoch is about to score (its index a positive
    multiple of [update_interval]), the rows of the spike record and the
    accumulated labels belong to the same samples in the same order: row
    [i] holds the record of the sample [update_interval - i] steps back
    and label [i] is that sample's label.  [assign_labels] and the two
    accuracies are thus given matching pairs. *)
Theorem X5_rows_and_labels_aligned {K : Carriers} {X : Externals K}
    (g : globals) (pre : list (sample (Encoded K) (Complex K)))
    (s0 s : state) (i : nat) :
  0 < update_interval g ->
  labels s0 = [] ->
  Z.of_nat (length (rows (spike_record s0))) = update_interval g ->
  Z.of_nat (length pre) <= n_train g + 1 ->
  train_loop (X:=X) g 0 pre s0 = Ok s ->
  Z.of_nat (length pre) mod update_interval g = 0 ->
  (0 < length pre)%nat ->
  Z.of_nat i < update_interval g ->
  let j := (length pre - Z.to_nat (update_interval g) + i)%nat in
  exists batch sj,
    pre !! j = Some batch
    /\ train_loop (X:=X) g 0 (take j pre) s0 = Ok sj
    /\ rows (spike_record s) !! i = Some (recorded X g batch sj)
    /\ labels s !! i = Some (label batch).
Proof.
  intros Hu H0 Hrows Hn Hloop Hz Hpos Hi j.
  rewrite train_loop_all in Hloop by done.
  destruct (labels_invariant g pre s0 s Hu H0 Hloop) as (m & Hl & Hm & Hc).
  destruct (rows_invariant g pre s0 s Hu Hrows Hloop) as [_ Hr].
  destruct (Z.eqb_spec (Z.of_nat (length pre)) 0); [lia |].
  rewrite mod_pred_zero in Hc by done.
  assert (m = Z.to_nat (update_interval g)) as -> by lia.
  assert (j < length pre)%nat as Hj by (unfold j; lia).
  destruct (lookup_lt_is_Some_2 pre j Hj) as [batch Hb].
  destruct (Hr j batch ltac:(unfold j; lia) Hb) as (sj & Hsj & Hrow).
  exists batch, sj. split; [done |]. split.
  { rewrite train_loop_all; [done |]. rewrite length_take. lia. }
  split.
  - rewrite <- Hrow. f_equal.
    assert (Z.of_nat j mod update_interval g = Z.of_nat i) as ->; [| lia].
    symmetry.
    apply (Z.mod_unique _ _ (Z.of_nat (length pre) / update_interval g - 1));
      [lia |].
    pose proof (Z.div_mod (Z.of_nat (length pre)) (update_interval g)).
    unfold j. lia.
  - rewrite Hl, list_lookup_fmap, lookup_drop. fold j. by rewrite Hb.
Qed.

(** With the interval 3, on entering step 3 row 1 holds the record of
    the second run and label 1 is the second sample's. *)
Lemma X5_rows_and_labels_aligned_witness :
  exists s,
    train_loop (X:=Toy.externals) (Toy.settings 3) 0 (take 3 Toy.items)
      (Toy.start 3) = Ok s
    /\ rows (spike_record s) !! 1%nat = Some 2%nat
    /\ labels s !! 1%nat = Some 11.
Proof.
  destruct (train_loop (X:=Toy.externals) (Toy.settings 3) 0 (take 3 Toy.items)
              (Toy.start 3)) as [s|e] eqn:E; [| vm_compute in E; discriminate].
  exists s. split; [reflexivity |].
  destruct (X5_rows_and_labels_aligned (X:=Toy.externals) (Toy.settings 3)
              (take 3 Toy.items) (Toy.start 3) s 1)
    as (batch & sj & Hb & Hsj & Hrow & Hlab); try done.
  { simpl. lia. }
  vm_compute in Hb. injection Hb as <-.
  vm_compute in Hsj. injection Hsj as <-.
  split; [exact Hrow | exact Hlab].
Defined.

(** ** The testing pass *)

Section TestingPass.
Context {K : Carriers} {X : Externals K}.

Lemma setitem_0_tail (b b' : buffer (Spikes K)) (v : Spikes K) :
  setitem (X:=X) b 0 v = Ok b' ->
  rows b' = v :: drop 1 (rows b) /\ dims b' = dims b.
Proof.
  intros H. apply setitem_inv in H as (Hlt & Hrows & Hdims); [| lia].
  split; [| done]. rewrite Hrows.
  destruct (rows b); [simpl in Hlt; lia | done].
Qed.

(** What one testing step changes, with the counts of its predictions. *)
Lemma test_step_inv (g : globals) (a : Assignments K) (p : Proportions K)
    (batch : sample (Encoded K) (Complex K)) (t t' : test_state) :
  test_step (X:=X) g a p batch t = Ok t' ->
  let l := long X (label batch) in
  let all_activity_pred := all_activity X (t_spike_record t') a (n_classes g) in
  let proportion_pred :=
    proportion_weighting X (t_spike_record t') a p (n_classes g) in
  drop 1 (rows (t_spike_record t')) = drop 1 (rows (t_spike_record t))
  /\ dims (t_spike_record t') = dims (t_spike_record t)
  /\ (0 < length (rows (t_spike_record t)))%nat
  /\ t_accuracy_all t'
     = t_accuracy_all t + tensor_sum ((fun q => l =? q) <$> all_activity_pred)
  /\ t_accuracy_proportion t'
     = t_accuracy_proportion t
       + tensor_sum ((fun q => l =? q) <$> proportion_pred)
  /\ confusion_matrix t'
     = confusion_add (confusion_matrix t)
         (if gpu g then confusion_of 0 1 all_activity_pred l
          else confusion_of 1 0 all_activity_pred l).
Proof.
  intros H. rewrite test_step_eq in H. bind_inv H. simpl in H. bind_inv H.
  bind_inv H. injection H as <-. simpl.
  pose proof (setitem_inv _ _ 0 _ (Z.le_refl 0) E0) as (Hlt & _).
  apply setitem_0_tail in E0 as [Hrows Hdims].
  rewrite Hrows. simpl in Hlt. repeat split; done.
Qed.

Lemma tensor_sum_bounds (t : list bool) :
  0 <= tensor_sum t <= Z.of_nat (length t).
Proof.
  unfold tensor_sum. pose proof (length_filter (fun b => b = true) t). lia.
Qed.

Lemma tensor_sum_map_eq (pred : list Z) (a : Z) (c : bool) :
  tensor_sum ((fun q => (q =? a) && c) <$> pred)
  = if c then tensor_sum ((fun q => a =? q) <$> pred) else 0.
Proof.
  unfold tensor_sum. induction pred as [|q pred IH]; [by destruct c |].
  rewrite !fmap_cons. destruct c.
  - rewrite andb_true_r, (Z.eqb_sym q a).
    destruct (a =? q).
    + rewrite !filter_cons_True by done. simpl length. lia.
    + rewrite !filter_cons_False by done. lia.
  - rewrite andb_false_r, filter_cons_False by done. done.
Qed.

(** For a label 0 or 1 the matches of the all-activity prediction are the
    true positives and true negatives, whichever class is the positive. *)
Lemma confusion_of_hits (pos neg : Z) (pred : list Z) (l : Z) :
  pos <> neg -> l = pos \/ l = neg ->
  TP (confusion_of pos neg pred l) + TN (confusion_of pos neg pred l)
  = tensor_sum ((fun q => l =? q) <$> pred).
Proof.
  intros Hne Hl. unfold confusion_of, count_pred. simpl.
  rewrite !tensor_sum_map_eq.
  destruct Hl as [-> | ->].
  - rewrite Z.eqb_refl. destruct (Z.eqb_spec pos neg); [done | lia].
  - rewrite Z.eqb_refl. destruct (Z.eqb_spec neg pos); [congruence | lia].
Qed.

Lemma confusion_of_no_positive (pos neg : Z) (pred : list Z) (l : Z) :
  l <> pos ->
  TP (confusion_of pos neg pred l) = 0 /\ FN (confusion_of pos neg pred l) = 0.
Proof.
  intros Hl. unfold confusion_of, count_pred. simpl.
  rewrite !tensor_sum_map_eq. by destruct (Z.eqb_spec l pos).
Qed.

End TestingPass.

Section TestingLoop.
Context {K : Carriers} {X : Externals K}.

Lemma confusion_of_no_negative (pos neg : Z) (pred : list Z) (l : Z) :
  l <> neg ->
  FP (confusion_of pos neg pred l) = 0 /\ TN (confusion_of pos neg pred l) = 0.
Proof.
  intros Hl. unfold confusion_of, count_pred. simpl.
  rewrite !tensor_sum_map_eq. by destruct (Z.eqb_spec l neg).
Qed.

Lemma test_init_rows (g : globals) (n_neurons : Z) (s : state) (t0 : test_state) :
  test_init (X:=X) g n_neurons s = Ok t0 ->
  rows (t_spike_record t0)
  = replicate (Z.to_nat (update_interval g))
      (zeros_row X (time g ÷ dt g) n_neurons)
  /\ confusion_matrix t0 = {| TP := 0; FP := 0; TN := 0; FN := 0 |}
  /\ t_accuracy_all t0 = 0 /\ t_accuracy_proportion t0 = 0.
Proof.
  unfold test_init. intros H. bind_inv H. bind_inv H.
  apply py_int_div_inv in E as [_ ->]. injection H as <-. simpl.
  unfold torch_zeros in E0. destruct (_ || _); [discriminate |].
  by injection E0 as <-.
Qed.

(** The rows after the first are never written. *)
Lemma test_each_tail (g : globals) (a : Assignments K) (p : Proportions K)
    (data : list (sample (Encoded K) (Complex K))) (t t' : test_state) :
  test_each X g a p data t = Ok t' ->
  drop 1 (rows (t_spike_record t')) = drop 1 (rows (t_spike_record t))
  /\ length (rows (t_spike_record t')) = length (rows (t_spike_record t)).
Proof.
  revert t. induction data as [|b data IH]; intros t H.
  - by injection H as <-.
  - simpl in H. bind_inv H.
    pose proof (test_step_frame _ _ _ _ _ _ E) as [_ Hs].
    apply test_step_inv in E as (Ht & _).
    destruct (IH x H) as [IH1 IH2]. rewrite IH1, IH2, Ht. split; [done |].
    unfold shape in Hs. injection Hs as Hs _ _. lia.
Qed.

(** With labels 0 and 1 only, the all-activity counter grows as the sum
    of the true positives and the true negatives does. *)
Lemma test_each_hits (g : globals) (a : Assignments K) (p : Proportions K)
    (data : list (sample (Encoded K) (Complex K))) (t t' : test_state) :
  Forall (fun b => long X (label b) = 0 \/ long X (label b) = 1) data ->
  test_each X g a p data t = Ok t' ->
  t_accuracy_all t' - t_accuracy_all t
  = TP (confusion_matrix t') + TN (confusion_matrix t')
    - (TP (confusion_matrix t) + TN (confusion_matrix t)).
Proof.
  intros Hbin. revert t. induction Hbin as [|b data Hb _ IH]; intros t H.
  - injection H as <-. lia.
  - simpl in H. bind_inv H.
    apply test_step_inv in E as (_ & _ & _ & Hall & _ & Hcm).
    specialize (IH x H). rewrite Hall in IH.
    rewrite Hcm in IH. unfold confusion_add in IH. simpl in IH.
    destruct (gpu g).
    + pose proof (confusion_of_hits 0 1
                    (all_activity X (t_spike_record x) a (n_classes g))
                    (long X (label b)) ltac:(lia) Hb). lia.
    + pose proof (confusion_of_hits 1 0
                    (all_activity X (t_spike_record x) a (n_classes g))
                    (long X (label b)) ltac:(lia) ltac:(tauto)). lia.
Qed.

(** Each sample adds to a counter at most the number of rows. *)
Lemma test_each_bounds (g : globals) (a : Assignments K) (p : Proportions K)
    (data : list (sample (Encoded K) (Complex K))) (t t' : test_state) :
  one_prediction_per_row X ->
  test_each X g a p data t = Ok t' ->
  let r := Z.of_nat (length (rows (t_spike_record t))) in
  t_accuracy_all t <= t_accuracy_all t'
                   <= t_accuracy_all t + r * Z.of_nat (length data)
  /\ t_accuracy_proportion t <= t_accuracy_proportion t'
     <= t_accuracy_proportion t + r * Z.of_nat (length data).
Proof.
  intros [Hall Hprop]. revert t. induction data as [|b data IH]; intros t H r.
  - injection H as <-. simpl. lia.
  - simpl in H. bind_inv H.
    pose proof (test_step_frame _ _ _ _ _ _ E) as [_ Hs].
    apply test_step_inv in E as (_ & _ & _ & Ha & Hp & _).
    specialize (IH x H). simpl in IH.
    assert (length (rows (t_spike_record x)) = length (rows (t_spike_record t)))
      as Hlen by (unfold shape in Hs; injection Hs as Hs _ _; lia).
    rewrite Hlen in IH. fold r in IH.
    pose proof (tensor_sum_bounds
                  ((fun q => long X (label b) =? q)
                     <$> all_activity X (t_spike_record x) a (n_classes g))) as B1.
    pose proof (tensor_sum_bounds
                  ((fun q => long X (label b) =? q)
                     <$> proportion_weighting X (t_spike_record x) a p
                           (n_classes g))) as B2.
    rewrite length_fmap, Hall, Hlen in B1. rewrite length_fmap, Hprop, Hlen in B2.
    fold r in B1, B2. cbn [length]. lia.
Qed.

(** Without a positive label, or without a negative one, a ratio of the
    report divides by zero. *)
Lemma test_each_one_class (g : globals) (a : Assignments K) (p : Proportions K)
    (data : list (sample (Encoded K) (Complex K))) (t t' : test_state) (c : Z) :
  Forall (fun b => long X (label b) <> c) data ->
  test_each X g a p data t = Ok t' ->
  (c = (if gpu g then 0 else 1) ->
   TP (confusion_matrix t') = TP (confusion_matrix t)
   /\ FN (confusion_matrix t') = FN (confusion_matrix t))
  /\ (c = (if gpu g then 1 else 0) ->
      FP (confusion_matrix t') = FP (confusion_matrix t)
      /\ TN (confusion_matrix t') = TN (confusion_matrix t)).
Proof.
  intros Hc. revert t. induction Hc as [|b data Hb _ IH]; intros t H.
  - by injection H as <-.
  - simpl in H. bind_inv H.
    apply test_step_inv in E as (_ & _ & _ & _ & _ & Hcm).
    destruct (IH x H) as [IH1 IH2]. rewrite Hcm in IH1, IH2.
    unfold confusion_add in IH1, IH2. simpl in IH1, IH2.
    split; intros ->.
    + destruct (IH1 eq_refl) as [-> ->]. destruct (gpu g).
      * destruct (confusion_of_no_positive 0 1
                    (all_activity X (t_spike_record x) a (n_classes g))
                    (long X (label b)) Hb) as [-> ->]. lia.
      * destruct (confusion_of_no_positive 1 0
                    (all_activity X (t_spike_record x) a (n_classes g))
                    (long X (label b)) Hb) as [-> ->]. lia.
    + destruct (IH2 eq_refl) as [-> ->]. destruct (gpu g).
      * destruct (confusion_of_no_negative 0 1
                    (all_activity X (t_spike_record x) a (n_classes g))
                    (long X (label b)) Hb) as [-> ->]. lia.
      * destruct (confusion_of_no_negative 1 0
                    (all_activity X (t_spike_record x) a (n_classes g))
                    (long X (label b)) Hb) as [-> ->]. lia.
Qed.

End TestingLoop.

(** X6.  The testing loop writes row 0 of its spike record and no other
    row: after any number of samples the rows 1 and up are still the
    zeros the record was allocated with.  The predictions and counts of
    the testing loop over those rows are over all-zero spikes. *)
Theorem X6_testing_writes_row_0_only {K : Carriers} {X : Externals K}
    (g : globals) (n_neurons : Z) (a : Assignments K) (p : Proportions K)
    (data : list (sample (Encoded K) (Complex K))) (s : state)
    (t0 t' : test_state) :
  test_init (X:=X) g n_neurons s = Ok t0 ->
  test_loop (X:=X) g a p 0 data t0 = Ok t' ->
  drop 1 (rows (t_spike_record t'))
  = replicate (Z.to_nat (update_interval g) - 1)
      (zeros_row X (time g ÷ dt g) n_neurons)
  /\ length (rows (t_spike_record t')) = Z.to_nat (update_interval g).
Proof.
  intros Hinit Hloop. apply test_init_rows in Hinit as (Hrows & _).
  rewrite test_loop_guard in Hloop.
  apply test_each_tail in Hloop as [Htail Hlen].
  rewrite Htail, Hlen, Hrows, length_replicate. split; [| done].
  destruct (Z.to_nat (update_interval g)) as [|n]; [done |].
  simpl. by rewrite Nat.sub_0_r, drop_0.
Qed.

(** A record of three rows after the test samples: two rows of zeros
    after the first. *)
Lemma X6_testing_writes_row_0_only_witness :
  exists t',
    test_loop (X:=Toy.externals) (Toy.settings 3) tt tt 0 Toy.items
      (Toy.test_start 3) = Ok t'
    /\ drop 1 (rows (t_spike_record t')) = [0; 0]%nat.
Proof.
  destruct (test_loop (X:=Toy.externals) (Toy.settings 3) tt tt 0 Toy.items
              (Toy.test_start 3)) as [t'|e] eqn:E;
    [| vm_compute in E; discriminate].
  exists t'. split; [reflexivity |].
  destruct (X6_testing_writes_row_0_only (X:=Toy.externals) (Toy.settings 3) 4
              tt tt Toy.items (Toy.start 3) (Toy.test_start 3) t' eq_refl E)
    as [Htail _].
  exact Htail.
Defined.

(** X7.  When every test label is 0 or 1, a testing pass that completes
    has raised the "all" counter by exactly what it has raised TP + TN,
    with or without [gpu]: the all-activity accuracy and the confusion
    matrix count the same matches. *)
Theorem X7_all_counter_is_TP_plus_TN {K : Carriers} {X : Externals K}
    (g : globals) (a : Assignments K) (p : Proportions K)
    (data : list (sample (Encoded K) (Complex K))) (t t' : test_state) :
  Forall (fun b => long X (label b) = 0 \/ long X (label b) = 1) data ->
  test_loop (X:=X) g a p 0 data t = Ok t' ->
  t_accuracy_all t' - t_accuracy_all t
  = TP (confusion_matrix t') + TN (confusion_matrix t')
    - (TP (confusion_matrix t) + TN (confusion_matrix t)).
Proof.
  intros Hbin H. rewrite test_loop_guard in H.
  apply test_each_hits in H; [done |]. by apply Forall_take.
Qed.

(** Four samples labelled 0, 1, 1, 0 and the instance's prediction 0 on
    three rows: six matches, six true negatives. *)
Lemma X7_all_counter_is_TP_plus_TN_witness :
  exists t',
    test_loop (X:=Toy.externals) (Toy.settings 3) tt tt 0
      (Toy.item <$> [0; 1; 1; 0]) (Toy.test_start 3) = Ok t'
    /\ t_accuracy_all t' = 6
    /\ TP (confusion_matrix t') + TN (confusion_matrix t') = 6.
Proof.
  pose (data := Toy.item <$> [0; 1; 1; 0]).
  destruct (test_loop (X:=Toy.externals) (Toy.settings 3) tt tt 0 data
              (Toy.test_start 3)) as [t'|e] eqn:E;
    [| vm_compute in E; discriminate].
  exists t'. split; [exact E |].
  assert (Forall (fun b : sample (list Z) Z => label b = 0 \/ label b = 1) data)
    as Hbin.
  { unfold data. simpl.
    repeat (constructor; [vm_compute; auto |]). constructor. }
  pose proof (X7_all_counter_is_TP_plus_TN (X:=Toy.externals) (Toy.settings 3)
                tt tt data (Toy.test_start 3) t' Hbin E) as H.
  simpl in H.
  assert (t_accuracy_all t' = 6) as Hall.
  { vm_compute in E. injection E as <-. reflexivity. }
  split; [exact Hall |]. lia.
Defined.

(** X8.  When the evaluation functions return one prediction for each
    row, a testing pass that completes has raised each counter by at
    least 0 and at most the number of rows of the spike record for each
    sample: a sample counts once for every row whose prediction equals
    its label, not once. *)
Theorem X8_counters_bounded_by_rows {K : Carriers} {X : Externals K}
    (g : globals) (a : Assignments K) (p : Proportions K)
    (data : list (sample (Encoded K) (Complex K))) (t t' : test_state) :
  one_prediction_per_row X ->
  n_test g = Z.of_nat (length data) ->
  test_loop (X:=X) g a p 0 data t = Ok t' ->
  let r := Z.of_nat (length (rows (t_spike_record t))) in
  t_accuracy_all t <= t_accuracy_all t'
                   <= t_accuracy_all t + r * Z.of_nat (length data)
  /\ t_accuracy_proportion t <= t_accuracy_proportion t'
     <= t_accuracy_proportion t + r * Z.of_nat (length data).
Proof.
  intros Hc Hn H. rewrite test_loop_all in H by lia.
  by apply test_each_bounds in H.
Qed.

(** One sample labelled 0 and three rows: the counter is 3. *)
Lemma X8_counters_bounded_by_rows_witness :
  exists t',
    test_loop (X:=Toy.externals)
      {| time := 500; dt := 1; update_interval := 3; progress_interval := 10;
         n_epochs := 1; n_train := 1; n_test := 1; n_classes := 2;
         num_inputs := 1; plot := false; gpu := false |}
      tt tt 0 [Toy.item 0] (Toy.test_start 3) = Ok t'
    /\ t_accuracy_all t' = 3.
Proof.
  set (g := {| time := 500; dt := 1; update_interval := 3;
               progress_interval := 10; n_epochs := 1; n_train := 1;
               n_test := 1; n_classes := 2; num_inputs := 1; plot := false;
               gpu := false |}).
  destruct (test_loop (X:=Toy.externals) g tt tt 0 [Toy.item 0]
              (Toy.test_start 3)) as [t'|e] eqn:E;
    [| vm_compute in E; discriminate].
  exists t'. split; [reflexivity |].
  destruct (X8_counters_bounded_by_rows (X:=Toy.externals) g tt tt [Toy.item 0]
              (Toy.test_start 3) t') as [[Hlo Hhi] _]; [| done | exact E |].
  { split; intros; simpl; by rewrite length_fmap. }
  vm_compute in E. injection E as <-. reflexivity.
Defined.

(** X9.  If no test sample has the label of the positive class, or none
    has the label of the negative class, the confusion matrix a testing
    pass started from zero ends with has TP + FN = 0 or FP + TN = 0, and
    the ratios printed after the loop raise [ZeroDivisionError].  An
    empty test split is such a case. *)
Theorem X9_report_needs_both_classes {K : Carriers} {X : Externals K}
    (g : globals) (a : Assignments K) (p : Proportions K)
    (data : list (sample (Encoded K) (Complex K))) (t t' : test_state) (c : Z) :
  confusion_matrix t = {| TP := 0; FP := 0; TN := 0; FN := 0 |} ->
  c = 0 \/ c = 1 ->
  Forall (fun b => long X (label b) <> c) data ->
  test_loop (X:=X) g a p 0 data t = Ok t' ->
  report (confusion_matrix t') = Err ZeroDivisionError.
Proof.
  intros H0 Hc Hnone H. rewrite test_loop_guard in H.
  apply (test_each_one_class g a p _ t t' c) in H; [| by apply Forall_take].
  destruct H as [Hpos Hneg]. rewrite H0 in Hpos, Hneg. simpl in Hpos, Hneg.
  unfold report.
  assert (c = (if gpu g then 0 else 1) \/ c = (if gpu g then 1 else 0)) as [E|E]
    by (destruct (gpu g); lia).
  - destruct (Hpos E) as [-> ->]. done.
  - destruct (Hneg E) as [-> ->]. simpl.
    destruct (_ =? 0); done.
Qed.

(** A test split whose labels are all 0: the report raises. *)
Lemma X9_report_needs_both_classes_witness :
  exists t',
    test_loop (X:=Toy.externals) (Toy.settings 3) tt tt 0
      (Toy.item <$> [0; 0]) (Toy.test_start 3) = Ok t'
    /\ report (confusion_matrix t') = Err ZeroDivisionError.
Proof.
  pose (data := Toy.item <$> [0; 0]).
  destruct (test_loop (X:=Toy.externals) (Toy.settings 3) tt tt 0 data
              (Toy.test_start 3)) as [t'|e] eqn:E;
    [| vm_compute in E; discriminate].
  exists t'. split; [exact E |].
  apply (X9_report_needs_both_classes (X:=Toy.externals) (Toy.settings 3) tt tt
           data (Toy.test_start 3) t' 1); [done | auto | | exact E].
  unfold data. simpl.
  repeat (constructor; [vm_compute; discriminate |]). constructor.
Defined.

(** ** What a completed run needed *)

Lemma quot_abs_le (a b : Z) : b <> 0 -> Z.abs (a ÷ b) <= Z.abs a.
Proof.
  intros Hb. rewrite <- Z.quot_abs by done.
  rewrite Z.quot_div_nonneg by lia.
  apply Z.div_le_upper_bound; [lia |]. nia.
Qed.

Lemma quot_fixed (a b : Z) : 0 < a -> b <> 0 -> a ÷ b = a -> b = 1.
Proof.
  intros Ha Hb H.
  pose proof (Z.quot_abs a b Hb) as E. rewrite H in E.
  rewrite Z.quot_div_nonneg in E by lia.
  assert (Z.abs b = 1) as H1.
  { destruct (Z.eq_dec (Z.abs b) 1) as [|Hn]; [done |].
    assert (2 <= Z.abs b) by lia.
    assert (Z.abs a / Z.abs b < Z.abs a); [| lia].
    apply Z.div_lt; lia. }
  destruct (Z.abs_spec b) as [[_ Hp]|[_ Hp]]; [lia |].
  assert (b = -1) as -> by lia.
  change (-1) with (- (1)) in H. rewrite Z.quot_opp_r in H by lia.
  rewrite Z.quot_1_r in H. lia.
Qed.

(** A view that succeeds has no size under -1, and with no size inferred
    the sizes multiply to the number of elements. *)
Lemma torch_view_sizes (numel : Z) (dims : list Z) :
  torch_view numel dims = Ok tt -> Forall (fun d => -1 <= d) dims.
Proof.
  unfold torch_view. destruct (existsb _ dims) eqn:E; [discriminate |].
  intros _. induction dims as [|d dims IH]; [constructor |].
  simpl in E. apply orb_false_elim in E as [Hd E].
  constructor; [lia | by apply IH].
Qed.

Lemma torch_view_inv (numel : Z) (dims : list Z) :
  Forall (fun d => 0 <= d) dims -> torch_view numel dims = Ok tt ->
  foldr Z.mul 1 dims = numel.
Proof.
  intros Hpos. unfold torch_view.
  assert (filter (fun d => d <> -1) dims = dims) as ->.
  { induction Hpos as [|d dims Hd _ IH]; [done |].
    rewrite filter_cons_True by lia. by rewrite IH. }
  rewrite Nat.sub_diag. destruct (existsb _ dims); [discriminate |].
  destruct (Z.eqb_spec (foldr Z.mul 1 dims) numel); [done | discriminate].
Qed.

Section Completed.
Context {K : Carriers} {X : Externals K}.

Lemma train_step_checks (g : globals) (step : nat)
    (batch : sample (Encoded K) (Complex K)) (s s' : state) :
  train_step (X:=X) g step batch s = Ok s' -> step_checks X g batch.
Proof.
  unfold train_step, step_checks. intros H. bind_inv H. bind_inv H. bind_inv H.
  apply py_mod_inv in E0 as [Hu _].
  unfold get_inputs in E. bind_inv E. bind_inv E.
  apply py_int_div_inv in E0 as [Hdt ->]. destruct x3.
  repeat split; [done | done | done |]. intros Hp.
  unfold simulate in H. bind_inv H. bind_inv H. bind_inv H.
  rewrite Hp in E4. bind_inv E4. by destruct x5.
Qed.

Lemma train_each_checks (g : globals)
    (data : list (sample (Encoded K) (Complex K))) (step : nat) (s s' : state) :
  train_each X g step data s = Ok s' -> Forall (step_checks X g) data.
Proof.
  revert step s. induction data as [|b data IH]; intros step s H; [constructor |].
  simpl in H. bind_inv H. constructor; [by eapply train_step_checks | by eapply IH].
Qed.

(** Training that completes went through a first epoch. *)
Lemma training_first_epoch (g : globals)
    (data : list (sample (Encoded K) (Complex K))) (s s' : state) :
  training (X:=X) g data s = Ok s' ->
  0 < n_epochs g /\ progress_interval g <> 0
  /\ exists s1, train_loop (X:=X) g 0 data (clear_labels s) = Ok s1.
Proof.
  unfold training. intros H. bind_inv H.
  destruct (Z.leb_spec (n_epochs g) 0) as [|Hn]; [discriminate |].
  unfold py_range in E. destruct (Z.to_nat (n_epochs g)) as [|k] eqn:Ek; [lia |].
  simpl in E. bind_inv E. unfold train_epoch in E0. bind_inv E0.
  apply py_mod_inv in E1 as [Hp _]. eauto.
Qed.

Lemma train_init_steps (g : globals) (n_neurons : Z) (net : Net K) (s0 : state) :
  train_init (X:=X) g n_neurons net = Ok s0 ->
  0 <= update_interval g /\ 0 <= time g ÷ dt g /\ 0 <= n_neurons.
Proof.
  unfold train_init. intros H. bind_inv H. bind_inv H.
  apply py_int_div_inv in E as [_ ->]. unfold torch_zeros in E0.
  destruct (Z.ltb_spec (update_interval g) 0); [discriminate |].
  destruct (Z.ltb_spec (time g ÷ dt g) 0); [discriminate |].
  destruct (Z.ltb_spec n_neurons 0); [discriminate |]. done.
Qed.

(** The sizes the reshapes of the plotting block fix. *)
Lemma plot_sizes (g : globals) (batch : sample (Encoded K) (Complex K)) :
  plot g = true -> 0 <= time g ÷ dt g -> step_checks X g batch ->
  time g = 500 /\ dt g = 1 /\ num_inputs g = 256
  /\ numel X (encoded_image batch) = 128000.
Proof.
  intros Hp HT (Hdt & _ & Hin & Hplot). specialize (Hplot Hp).
  unfold plot_views in Hplot. bind_inv Hplot. bind_inv Hplot.
  destruct x, x0.
  apply torch_view_inv in E; [| repeat constructor; lia].
  apply torch_view_inv in Hplot; [| repeat constructor; lia].
  simpl in E, Hplot. rewrite <- E, <- Hplot in *. clear E Hplot.
  apply torch_view_inv in Hin; [| repeat constructor; lia].
  simpl in Hin. assert (time g ÷ dt g = 500) as HT500 by lia.
  pose proof (torch_view_sizes _ _ E0) as Hge.
  apply Forall_cons in Hge as [Hge _].
  assert (time g = 500) as Ht.
  { destruct (Z.eq_dec (time g) (-1)) as [Hm|Hm].
    - pose proof (quot_abs_le (time g) (dt g) Hdt) as B.
      rewrite HT500, Hm in B. simpl in B. lia.
    - apply torch_view_inv in E0; [| repeat constructor; lia].
      simpl in E0. lia. }
  rewrite Ht in HT500. apply quot_fixed in HT500; [| lia | done].
  repeat split; (done || lia).
Qed.

End Completed.

Section CompletedRun.
Context {K : Carriers} {X : Externals K}.

(** A completed run of the script has gone through the body of the
    training loop for every training sample. *)
Lemma main_checks (a : Args (Float K)) (f : list text) (o : outcome) :
  main (X:=X) a f = Ok o ->
  exists p last_sample,
    parse_file (X:=X) (fst (select_encoder (a_encoder_type a) (a_time a) (a_dt a)))
      (a_time a) (a_dt a) (a_intensity a) f = Ok p
    /\ let split := train_test_split X (wave_data p) (a_test_ratio a) in
       let g := make_globals (X:=X) a split.1 split.2
                  (np_unique_size X (classes p))
                  (shape1 X (encoded_image last_sample)) in
       last split.1 = Some last_sample
       /\ 0 < n_epochs g /\ progress_interval g <> 0
       /\ 0 <= update_interval g /\ 0 <= time g ÷ dt g /\ 0 <= a_n_neurons a
       /\ Forall (step_checks X g) split.1.
Proof.
  intros H.
  apply main_inv in H
    as (p & train_data & test_data & last_sample & s0 & t0
        & Hp & Hsplit & Hlast & Hinit & Htrain & _).
  exists p, last_sample. split; [done |]. rewrite Hsplit. simpl.
  unfold py_last in Hlast.
  destruct (last train_data) as [b|] eqn:El; [| discriminate].
  injection Hlast as ->.
  apply train_init_steps in Hinit as (Hu & HT & Hn).
  apply training_first_epoch in Htrain as (He & Hprog & s1 & Hloop).
  rewrite train_loop_all in Hloop by (simpl; lia).
  apply train_each_checks in Hloop. done.
Qed.

End CompletedRun.

(** X10.  A run of the script that completes with plotting on (the only
    value the parser gives [plot]) had [time] 500 and [dt] 1, its last
    training sample had 256 columns, and every encoded training sample
    had 500 * 256 elements: the reshapes of the plotting block to
    (256, 500) and (16, 16) raise for any other sizes. *)
Theorem X10_plotting_fixes_the_sizes {K : Carriers} {X : Externals K}
    (a : Args (Float K)) (f : list text) (o : outcome) :
  main (X:=X) a f = Ok o ->
  a_plot a = true ->
  a_time a = 500 /\ a_dt a = 1
  /\ exists p last_sample,
      parse_file (X:=X)
        (fst (select_encoder (a_encoder_type a) (a_time a) (a_dt a)))
        (a_time a) (a_dt a) (a_intensity a) f = Ok p
      /\ let train_data := (train_test_split X (wave_data p) (a_test_ratio a)).1 in
         last train_data = Some last_sample
         /\ shape1 X (encoded_image last_sample) = 256
         /\ Forall (fun b => numel X (encoded_image b) = 128000) train_data.
Proof.
  intros H Hplot.
  apply main_checks in H
    as (p & last_sample & Hp & Hlast & _ & _ & _ & HT & _ & Hall).
  simpl in *.
  set (g := make_globals a _ _ _ _) in *.
  assert (forall b, step_checks X g b ->
            time g = 500 /\ dt g = 1 /\ num_inputs g = 256
            /\ numel X (encoded_image b) = 128000) as Hsizes.
  { intros b Hb. by apply plot_sizes. }
  pose proof (last_Some_elem_of _ _ Hlast) as Hin.
  rewrite Forall_forall in Hall.
  destruct (Hsizes _ (Hall _ Hin)) as (Ht & Hdt & Hni & _).
  repeat split; [done | done |].
  exists p, last_sample. repeat split; [done | done | done |].
  apply Forall_forall. intros b Hb. by destruct (Hsizes _ (Hall _ Hb)) as (_ & _ & _ & ?).
Qed.

(** The instance: 320 values a line give 256 features, encoded over 500
    steps. *)
Lemma X10_plotting_fixes_the_sizes_witness :
  exists o,
    main (X:=Toy.externals) Toy.args Toy.file = Ok o
    /\ a_time Toy.args = 500 /\ a_dt Toy.args = 1.
Proof.
  destruct (main (X:=Toy.externals) Toy.args Toy.file) as [o|e] eqn:E;
    [| vm_compute in E; discriminate].
  exists o. split; [reflexivity |].
  destruct (X10_plotting_fixes_the_sizes (X:=Toy.externals) Toy.args Toy.file o
              E eq_refl) as (Ht & Hdt & _).
  split; [exact Ht | exact Hdt].
Defined.

(** X11.  A run of the script that completes had at least one epoch, a
    progress interval other than 0, a [dt] other than 0 with
    [int(time / dt)] not negative, and an update interval above 0 (the
    value of [--update_interval] when training, of [--n_test] otherwise);
    with any other value the script raises before its report. *)
Theorem X11_completed_run_arguments {K : Carriers} {X : Externals K}
    (a : Args (Float K)) (f : list text) (o : outcome) :
  main (X:=X) a f = Ok o ->
  0 < a_n_epochs a
  /\ a_progress_interval a <> 0
  /\ a_dt a <> 0 /\ 0 <= a_time a ÷ a_dt a
  /\ 0 < (if a_train a then a_update_interval a else a_n_test a)
  /\ 0 <= a_n_neurons a.
Proof.
  intros H.
  apply main_checks in H
    as (p & last_sample & _ & Hlast & He & Hprog & Hu & HT & Hn & Hall).
  simpl in *.
  pose proof (last_Some_elem_of _ _ Hlast) as Hin.
  rewrite Forall_forall in Hall.
  destruct (Hall _ Hin) as (Hdt & Hu0 & _). simpl in *.
  repeat split; (done || lia).
Qed.

Lemma X11_completed_run_arguments_witness :
  exists o,
    main (X:=Toy.externals) Toy.args Toy.file = Ok o
    /\ 0 < a_n_epochs Toy.args.
Proof.
  destruct (main (X:=Toy.externals) Toy.args Toy.file) as [o|e] eqn:E;
    [| vm_compute in E; discriminate].
  exists o. split; [reflexivity |].
  by destruct (X11_completed_run_arguments (X:=Toy.externals) Toy.args Toy.file
                 o E) as (He & _).
Defined.
